(** * mewroo: watermark-gated ingestion jobs

    A shallow embedding of [backend/app/ingest]: the state-store accessor
    ([common.py]) and the four ingestion jobs ([ingest_dim_industry.py],
    [ingest_industry_membership.py], [ingest_fact_stock_prices.py],
    [ingest_fact_market_cap.py]).

    Conventions of the embedding.
    - A timezone-aware [datetime] is the instant it denotes, in whole
      seconds since the epoch, UTC ([Z]); [timedelta(days=n)] is
      [86400 * n] seconds.  Every datetime the jobs build is aware
      ([utc_now_s], [_parse_asof_date]), and so are the as-of dates they
      are called with.  A datetime read back from the store carries no
      tzinfo: [ingest_stock_prices] puts UTC back on it before it computes
      with it, the snapshot jobs compare it as it comes ([Py.ge]).
    - Text is ASCII text.
    - The ClickHouse client is a value of type [clickhouse]: the journal of
      every [client.insert] in the order it was issued.  Tables are views
      of the journal.  Store reads and writes do not raise.
    - The market-data provider ([yfinance]) is a record of functions from a
      request to what the call returns or the fact that it raises.
    - A [float] is a binary64 number ([PrimFloat]); [nan] is the missing
      value of pandas. *)

From Stdlib Require Import ZArith List String Ascii Bool Lia PrimFloat.
From Stdlib Require Import Permutation.
Import ListNotations.
Open Scope string_scope.
Open Scope list_scope.
Open Scope Z_scope.

Set Implicit Arguments.

(** ** Python values that the jobs look at *)

Module Py.

(** What a call does: raise an exception, which is kept as its message,
    or return a value. *)
Inductive fetched (A : Type) : Type :=
| Raises (msg : string)
| Returns (a : A).
Arguments Raises {A} msg.
Arguments Returns {A} a.

(** One call after the other: an exception of the first leaves both. *)
Definition bind {A B : Type} (x : fetched A) (k : A -> fetched B)
  : fetched B :=
  match x with
  | Raises e => Raises e
  | Returns a => k a
  end.

(** A [datetime] with tzinfo, or without: the instant it denotes, or the
    reading of its fields, in seconds since the epoch. *)
Inductive datetime : Type :=
| Aware (instant : Z)
| Naive (reading : Z).

(** [a >= b] for datetimes: Python compares two aware or two naive
    datetimes, and raises TypeError for one of each. *)
Definition ge (a b : datetime) : fetched bool :=
  match a, b with
  | Aware x, Aware y => Returns (y <=? x)
  | Naive x, Naive y => Returns (y <=? x)
  | _, _ => Raises "can't compare offset-naive and offset-aware datetimes"
  end.

(** A cell of a provider table or a value of a provider dict.  An int is
    the float of the same value. *)
Inductive cell : Type :=
| Num (x : float)       (* a number; [nan] is the missing number *)
| Text (s : string)     (* a str *)
| Missing.              (* None *)

(** The conversions of Python and pandas that the jobs call on cells.
    Their tables are not part of the repository; the jobs are
    parameterised by them. *)
Class Runtime : Type := {
  (* str(x) of a float *)
  str_of_float : float -> string;
  (* float(s) of a str: the number, or the ValueError it raises *)
  float_of_str : string -> fetched float;
  (* pd.to_datetime(c, utc=True, errors="coerce") floored to the second:
     None is NaT *)
  to_datetime : cell -> option Z;
  (* astype("int64") of a finite float *)
  int64_of_float : float -> Z
}.

(** The ASCII characters that [str.strip()] removes: tab to carriage
    return, the four separators U+001C to U+001F, and the space. *)
Definition is_space (a : ascii) : bool :=
  let n := nat_of_ascii a in
  (Nat.eqb n 32 || (Nat.leb 9 n && Nat.leb n 13)
   || (Nat.leb 28 n && Nat.leb n 31))%bool.

Fixpoint lstrip (s : string) : string :=
  match s with
  | EmptyString => EmptyString
  | String a rest => if is_space a then lstrip rest else s
  end.

Fixpoint rev_onto (s acc : string) : string :=
  match s with
  | EmptyString => acc
  | String a rest => rev_onto rest (String a acc)
  end.

Definition rstrip (s : string) : string :=
  rev_onto (lstrip (rev_onto s EmptyString)) EmptyString.

(** [s.strip()] *)
Definition strip (s : string) : string := rstrip (lstrip s).

Definition lower_ascii (a : ascii) : ascii :=
  let n := nat_of_ascii a in
  if (Nat.leb 65 n && Nat.leb n 90)%bool then ascii_of_nat (n + 32) else a.

(** [s.lower()] *)
Fixpoint lower (s : string) : string :=
  match s with
  | EmptyString => EmptyString
  | String a rest => String (lower_ascii a) (lower rest)
  end.

(** [needle in s] for strings *)
Fixpoint contains (needle s : string) : bool :=
  (String.prefix needle s ||
   match s with
   | EmptyString => false
   | String _ rest => contains needle rest
   end)%bool.

(** [x in names] for a list of strings *)
Definition mem (x : string) (names : list string) : bool :=
  existsb (String.eqb x) names.

(** [names.index(x)] *)
Fixpoint index_of (x : string) (names : list string) : option nat :=
  match names with
  | [] => None
  | n :: rest =>
      if String.eqb x n then Some 0%nat
      else option_map S (index_of x rest)
  end.

(** [pd.notna(x)] of a float *)
Definition notna (x : float) : bool := negb (PrimFloat.is_nan x).

Section WithRuntime.
Context {rt : Runtime}.

(** [str(c)] *)
Definition str (c : cell) : string :=
  match c with
  | Num x => str_of_float x
  | Text s => s
  | Missing => "None"
  end.

(** [float(c)] *)
Definition to_float (c : cell) : fetched float :=
  match c with
  | Num x => Returns x
  | Text s => float_of_str s
  | Missing =>
      Raises "float() argument must be a string or a real number, not 'NoneType'"
  end.

(** [pd.to_numeric(c, errors="coerce")]; pandas is taken to read a text
    as [float] does. *)
Definition to_numeric (c : cell) : float :=
  match to_float c with
  | Returns x => x
  | Raises _ => PrimFloat.nan
  end.

(** the truth value of a cell, as [x or default] tests it *)
Definition truthy (c : cell) : bool :=
  match c with
  | Num x => negb (PrimFloat.eqb x 0%float)
  | Text s => negb (String.eqb s "")
  | Missing => false
  end.
End WithRuntime.

(** A pandas table: the row index and the data columns. *)
Record frame : Type := {
  index_name : option string;
  columns : list string;
  records : list (cell * list cell)   (* index value, data cells *)
}.

(** [df is None or df.empty] *)
Definition none_or_empty (df : option frame) : bool :=
  match df with
  | None => true
  | Some f =>
      match records f, columns f with
      | [], _ => true
      | _, [] => true
      | _, _ => false
      end
  end.

(** The table with its index as the first column, under the label
    [label]; the jobs never read the fresh index. *)
Definition index_as_column (label : string) (f : frame) : frame :=
  {| index_name := None;
     columns := label :: columns f;
     records := map (fun r => (Missing, fst r :: snd r)) (records f) |}.

(** The label that [reset_index] gives the index: its name, and for an
    index without a name ["index"], or ["level_0"] when there is a column
    ["index"] already. *)
Definition index_label (f : frame) : string :=
  match index_name f with
  | Some n => n
  | None => if mem "index" (columns f) then "level_0" else "index"
  end.

(** [df.reset_index()]: the index becomes the first column; pandas raises
    ValueError when a column has that label already. *)
Definition reset_index (f : frame) : fetched frame :=
  let label := index_label f in
  if mem label (columns f)
  then Raises ("cannot insert " ++ label ++ ", already exists")
  else Returns (index_as_column label f).

(** [r[col]] for a row [r] of a table with the columns [cols]; the jobs
    only read columns they have found in [cols], whose labels are taken to
    be distinct. *)
Definition at_col (cols : list string) (r : list cell) (col : string) : cell :=
  match index_of col cols with
  | Some i => nth i r Missing
  | None => Missing
  end.

(** The provider.  [yf.download] is introduced with the price job. *)
Record info : Type := {
  marketCap : cell;     (* info.get("marketCap", None) *)
  currency : cell       (* info.get("currency", "") *)
}.

End Py.

Notation "x <- e ;; k" := (Py.bind e (fun x => k))
  (at level 61, e at next level, right associativity).

(** ** common.py: the ClickHouse client and the ingestion state *)

Module Common.

(** A row of [finance_yf.ingest_state]. *)
Record state_row : Type := {
  source : string;
  target : string;
  key : string;
  last_ts : option Z;
  last_asof_date : option Z;
  updated_at : Z
}.

(** Rows of the four canonical tables, in the column order of the
    [client.insert] calls. *)
Record dim_industry_row : Type := {
  di_sector_key : string;
  di_industry_key : string;
  di_industry_name : string;
  di_industry_symbol : string;
  di_market_weight : float;
  di_asof_date : Z;
  di_ingested_at : Z
}.

Record membership_row : Type := {
  im_asof_date : Z;
  im_sector_key : string;
  im_industry_key : string;
  im_ticker : string;
  im_ticker_name : string;
  im_source : string;
  im_ingested_at : Z
}.

Record price_row : Type := {
  sp_ts : Z;
  sp_ticker : string;
  sp_interval : string;
  sp_open : float;
  sp_high : float;
  sp_low : float;
  sp_close : float;
  sp_adj_close : float;
  sp_volume : Z;
  sp_source : string;
  sp_ingested_at : Z
}.

Record market_cap_row : Type := {
  mc_asof_date : Z;
  mc_ticker : string;
  mc_market_cap : float;
  mc_currency : string;
  mc_source : string;
  mc_ingested_at : Z
}.

(** One [client.insert]: the table it goes to and the rows. *)
Inductive write : Type :=
| Into_ingest_state (r : state_row)
| Into_dim_industry (rows : list dim_industry_row)
| Into_industry_membership (rows : list membership_row)
| Into_fact_stock_prices (rows : list price_row)
| Into_fact_market_cap (rows : list market_cap_row).

(** Modelled from the spec: the DDL of [finance_yf.ingest_state] is not in
    the repository.  [set_state] does not pass [updated_at]; the spec calls
    it the write time that resolves the most recent state row.  The store
    stamps each state row with its write clock, and the clock moves on with
    every state row written. *)
Record clickhouse : Type := {
  journal : list write;     (* every insert, oldest first *)
  clock : Z                 (* the write time of the next state row *)
}.

(** [client.insert(table, rows, column_names=...)] for a canonical table *)
Definition insert (client : clickhouse) (w : write) : clickhouse :=
  {| journal := journal client ++ [w]; clock := clock client |}.

(** The tables, as views of the journal. *)
Definition ingest_state (client : clickhouse) : list state_row :=
  flat_map (fun w => match w with Into_ingest_state r => [r] | _ => [] end)
           (journal client).

Definition dim_industry (client : clickhouse) : list dim_industry_row :=
  flat_map (fun w => match w with Into_dim_industry l => l | _ => [] end)
           (journal client).

Definition industry_membership (client : clickhouse) : list membership_row :=
  flat_map (fun w => match w with Into_industry_membership l => l | _ => [] end)
           (journal client).

Definition fact_stock_prices (client : clickhouse) : list price_row :=
  flat_map (fun w => match w with Into_fact_stock_prices l => l | _ => [] end)
           (journal client).

Definition fact_market_cap (client : clickhouse) : list market_cap_row :=
  flat_map (fun w => match w with Into_fact_market_cap l => l | _ => [] end)
           (journal client).

(** [WHERE source=... AND target=... AND key=...] *)
Definition selects (src tgt k : string) (r : state_row) : bool :=
  (String.eqb (source r) src && String.eqb (target r) tgt
   && String.eqb (key r) k)%bool.

(** [ORDER BY updated_at DESC LIMIT 1]: a row whose [updated_at] is the
    greatest.  Among rows written at the same time the store may return
    any; the model returns the one inserted last. *)
Fixpoint newest (rows : list state_row) : option state_row :=
  match rows with
  | [] => None
  | r :: rest =>
      match newest rest with
      | None => Some r
      | Some m => if updated_at m <? updated_at r then Some r else Some m
      end
  end.

(** [get_state(client, source, target, key)]: [r[0] if r else (None, None)]
    over the rows the query returns *)
Definition get_state (client : clickhouse) (src tgt k : string)
  : option Z * option Z :=
  match newest (filter (selects src tgt k) (ingest_state client)) with
  | Some r => (last_ts r, last_asof_date r)
  | None => (None, None)
  end.

(** [set_state(client, source, target, key, last_ts, last_asof_date)]: one
    more row in [finance_yf.ingest_state]; the store fills in
    [updated_at] *)
Definition set_state (client : clickhouse) (src tgt k : string)
    (ts asof : option Z) : clickhouse :=
  {| journal :=
       journal client ++
       [Into_ingest_state
          {| source := src; target := tgt; key := k;
             last_ts := ts; last_asof_date := asof;
             updated_at := clock client |}];
     clock := clock client + 1 |}.

(** The state row that ends a run of an industry job. *)
Definition all_row (tgt : string) (asof stamp : Z) : write :=
  Into_ingest_state
    {| source := "yfinance"; target := tgt; key := "ALL";
       last_ts := None; last_asof_date := Some asof; updated_at := stamp |}.

(** [SELECT max(asof_date) FROM finance_yf.industry_membership] *)
Definition max_asof (rows : list membership_row) : option Z :=
  fold_left
    (fun acc r =>
       match acc with
       | None => Some (im_asof_date r)
       | Some m => Some (Z.max m (im_asof_date r))
       end)
    rows None.

Fixpoint distinct (l : list string) : list string :=
  match l with
  | [] => []
  | x :: rest =>
      x :: filter (fun y => negb (String.eqb x y)) (distinct rest)
  end.

(** [SELECT DISTINCT ticker FROM finance_yf.industry_membership
     WHERE asof_date = (SELECT max(asof_date) ...)]; the tickers come in the
    order of their first row. *)
Definition _get_latest_membership_tickers (client : clickhouse)
  : list string :=
  match max_asof (industry_membership client) with
  | None => []
  | Some m =>
      distinct
        (map im_ticker
           (filter (fun r => im_asof_date r =? m)
                   (industry_membership client)))
  end.

(** A datetime of a state row as the driver hands it to the caller.
    [clickhouse_connect] returns the values of a DateTime column without
    tzinfo (and those of a Date column as dates, which compare with no
    datetime either); [ingest_stock_prices] provides for it with
    [if last_ts.tzinfo is None: last_ts = last_ts.replace(tzinfo=timezone.utc)]. *)
Definition read_back (stored : Z) : Py.datetime := Py.Naive stored.

(** [last_asof and last_asof >= asof] after
    [_, last_asof = get_state(client, "yfinance", tgt, k)]: the test of the
    three snapshot jobs.  [last_asof] is compared as it was read back;
    [asof] is timezone-aware. *)
Definition already_ingested (client : clickhouse) (tgt k : string)
    (asof : Z) : Py.fetched bool :=
  match snd (get_state client "yfinance" tgt k) with
  | Some last_asof => Py.ge (read_back last_asof) (Py.Aware asof)
  | None => Py.Returns false
  end.

(** The test as a snapshot job makes it: with force on the state is not
    read. *)
Definition skips (client : clickhouse) (tgt k : string) (asof : Z)
    (force : bool) : Py.fetched bool :=
  if force then Py.Returns false else already_ingested client tgt k asof.

(** The watermark of a key: [last_ts] for the price job, [last_asof_date]
    for the snapshot jobs. *)
Definition watermark (client : clickhouse) (tgt k : string) : option Z :=
  if String.eqb tgt "fact_stock_prices"
  then fst (get_state client "yfinance" tgt k)
  else snd (get_state client "yfinance" tgt k).

(** A watermark that was there is still there and did not go back. *)
Definition not_before (before after : option Z) : Prop :=
  match before with
  | Some L => exists L', after = Some L' /\ L <= L'
  | None => True
  end.

(** The state rows already stored were written before the store's clock. *)
Definition stamped_before (client : clickhouse) : Prop :=
  Forall (fun r => updated_at r < clock client) (ingest_state client).

End Common.

(** What a job prints. *)
Inductive printed : Type :=
| No_industries (sector_key : string)
| Unexpected_columns (sector_key : string) (cols : list string)
| Failed (job entity msg : string).

(** ** ingest_dim_industry.py *)

Module DimIndustry.
Import Py Common.

Definition DEFAULT_SECTORS : list string :=
  [ "basic-materials"; "communication-services"; "consumer-cyclical";
    "consumer-defensive"; "energy"; "financial-services"; "healthcare";
    "industrials"; "real-estate"; "technology"; "utilities" ].

(** [now.replace(hour=0, minute=0, second=0)] *)
Definition start_of_day (now : Z) : Z := now - now mod 86400.

(** The column that the loop over [df.columns] leaves in a variable: the
    last one whose lowered, stripped label satisfies [p]. *)
Definition last_col (p : string -> bool) (cols : list string)
  : option string :=
  fold_left (fun acc c => if p (strip (lower c)) then Some c else acc)
            cols None.

Definition is_weight (lc : string) : bool :=
  (String.eqb lc "market weight" || String.eqb lc "market_weight"
   || String.eqb lc "weight")%bool.

(** The store after a run of the industry-dimension job that is not
    skipped: the rows, when there are any, and then the state row. *)
Definition written (client : clickhouse)
    (rows : list dim_industry_row) (asof : Z) : clickhouse :=
  set_state
    (match rows with
     | [] => client
     | _ => insert client (Into_dim_industry rows)
     end)
    "yfinance" "dim_industry" "ALL" None (Some asof).

Section Job.
Context {rt : Runtime}.
(** [yf.Sector(sector_key).industries] *)
Variable industries : string -> fetched (option frame).

(** [float(r[weight_col])] under its own try/except *)
Definition market_weight (c : cell) : float :=
  match to_float c with
  | Returns x => x
  | Raises _ => 0%float
  end.

(** The body of [for _, r in df.iterrows()]. *)
Definition row_of (sector_key : string) (cols : list string)
    (industry_key_col name_col symbol_col weight_col : string)
    (asof ingested_at : Z) (r : list cell)
  : list dim_industry_row :=
  let industry_key := strip (str (at_col cols r industry_key_col)) in
  let industry_name := strip (str (at_col cols r name_col)) in
  let symbol := strip (str (at_col cols r symbol_col)) in
  let weight := market_weight (at_col cols r weight_col) in
  if (String.eqb industry_key "" || String.eqb industry_key "nan")%bool
  then []
  else [ {| di_sector_key := sector_key;
            di_industry_key := industry_key;
            di_industry_name := industry_name;
            di_industry_symbol := symbol;
            di_market_weight := weight;
            di_asof_date := asof;
            di_ingested_at := ingested_at |} ].

(** The body of [for sector_key in sectors], with its try/except: the
    rows it appends and what it prints. *)
Definition sector (sector_key : string) (asof ingested_at : Z)
  : list dim_industry_row * list printed :=
  match industries sector_key with
  | Raises e => ([], [Failed "dim_industry" sector_key e])
  | Returns df =>
      if none_or_empty df then ([], [No_industries sector_key])
      else
        match df with
        | None => ([], [No_industries sector_key])
        | Some df0 =>
            match reset_index df0 with
            | Raises e => ([], [Failed "dim_industry" sector_key e])
            | Returns df =>
                let cols := columns df in
                let industry_key_col :=
                  if mem "key" cols then "key" else hd "" cols in
                match last_col (String.eqb "name") cols,
                      last_col (String.eqb "symbol") cols,
                      last_col is_weight cols with
                | Some name_col, Some symbol_col, Some weight_col =>
                    (flat_map
                       (fun r => row_of sector_key cols industry_key_col
                                        name_col symbol_col weight_col
                                        asof ingested_at (snd r))
                       (records df),
                     [])
                | _, _, _ => ([], [Unexpected_columns sector_key cols])
                end
            end
        end
  end.

Fixpoint sectors_loop (sectors : list string) (asof ingested_at : Z)
  : list dim_industry_row * list printed :=
  match sectors with
  | [] => ([], [])
  | sector_key :: rest =>
      let '(rows, out) := sector sector_key asof ingested_at in
      let '(rows', out') := sectors_loop rest asof ingested_at in
      (rows ++ rows', out ++ out')
  end.

(** [ingest_dim_industry(sectors, asof_date, force)] run at the time
    [now] against [client]: the store afterwards, the output, and the
    returned count or the exception that leaves the run.  [sectors = []]
    stands for None as well. *)
Definition ingest_dim_industry (now : Z) (client : clickhouse)
    (sectors : list string) (asof_date : option Z) (force : bool)
  : clickhouse * list printed * fetched nat :=
  let ingested_at := now in
  let asof :=
    match asof_date with Some a => a | None => start_of_day ingested_at end in
  let sectors :=
    match sectors with [] => DEFAULT_SECTORS | _ => sectors end in
  match skips client "dim_industry" "ALL" asof force with
  | Raises e => (client, [], Raises e)
  | Returns true => (client, [], Returns 0%nat)
  | Returns false =>
      let '(rows, out) := sectors_loop sectors asof ingested_at in
      let client :=
        match rows with
        | [] => client
        | _ => insert client (Into_dim_industry rows)
        end in
      let client :=
        set_state client "yfinance" "dim_industry" "ALL" None (Some asof) in
      (client, out, Returns (List.length rows))
  end.
End Job.

End DimIndustry.

(** ** ingest_industry_membership.py *)

Module Membership.
Import Py Common.

Definition same_industry (a b : dim_industry_row) : bool :=
  (String.eqb (di_sector_key a) (di_sector_key b)
   && String.eqb (di_industry_key a) (di_industry_key b))%bool.

(** [argMax(industry_name, asof_date)] over the rows of one group *)
Fixpoint arg_max_name (best : dim_industry_row)
    (rows : list dim_industry_row) : string :=
  match rows with
  | [] => di_industry_name best
  | r :: rest =>
      arg_max_name (if di_asof_date best <? di_asof_date r then r else best)
                   rest
  end.

(** [SELECT sector_key, industry_key, argMax(industry_name, asof_date)
     FROM finance_yf.dim_industry GROUP BY sector_key, industry_key];
    the groups come in the order of their first row. *)
Fixpoint dim_groups (rows : list dim_industry_row)
  : list (string * string * string) :=
  match rows with
  | [] => []
  | r :: rest =>
      (di_sector_key r, di_industry_key r,
       arg_max_name r (filter (same_industry r) rest))
      :: filter
           (fun g =>
              negb (String.eqb (fst (fst g)) (di_sector_key r)
                    && String.eqb (snd (fst g)) (di_industry_key r)))
           (dim_groups rest)
  end.

(** [for cand in cands: if cand in cols: col = columns[cols.index(cand)];
    break] *)
Fixpoint pick (cands cols columns : list string) : option string :=
  match cands with
  | [] => None
  | cand :: rest =>
      match index_of cand cols with
      | Some i => Some (nth i columns "")
      | None => pick rest cols columns
      end
  end.

(** The store after a run of the membership job that is not skipped: the
    rows, when there are any, and then the state row. *)
Definition written (client : clickhouse)
    (rows : list membership_row) (asof : Z) : clickhouse :=
  set_state
    (match rows with
     | [] => client
     | _ => insert client (Into_industry_membership rows)
     end)
    "yfinance" "industry_membership" "ALL" None (Some asof).

Section Job.
Context {rt : Runtime}.
(** [yf.Industry(industry_key).top_companies] *)
Variable top_companies : string -> fetched (option frame).

(** The body of [for _, r in top.iterrows()]. *)
Definition row_of (sector_key industry_key : string)
    (columns : list string) (sym_col : string) (name_col : option string)
    (asof ingested_at : Z) (r : list cell) : list membership_row :=
  let ticker := strip (str (at_col columns r sym_col)) in
  if (String.eqb ticker "" || String.eqb ticker "nan")%bool then []
  else
    let tname :=
      match name_col with
      | Some c =>
          if String.eqb c "" then "" else strip (str (at_col columns r c))
      | None => ""
      end in
    [ {| im_asof_date := asof;
         im_sector_key := sector_key;
         im_industry_key := industry_key;
         im_ticker := ticker;
         im_ticker_name := tname;
         im_source := "yfinance_top_companies";
         im_ingested_at := ingested_at |} ].

(** The ticker column, and the table it was found in: the table itself,
    or the table with its index reset when the index is symbol-like. *)
Definition find_symbol (top : frame) : fetched (frame * option string) :=
  let cols := map lower (columns top) in
  match pick ["symbol"; "ticker"] cols (columns top) with
  | Some c => Returns (top, Some c)
  | None =>
      match index_name top with
      | Some n =>
          if (negb (String.eqb n "") && contains "symbol" (lower n))%bool
          then
            top <- reset_index top ;;
            let cols := map lower (columns top) in
            Returns (top, pick ["symbol"; "ticker"] cols (columns top))
          else Returns (top, None)
      | None => Returns (top, None)
      end
  end.

(** The body of [for sector_key, industry_key, industry_name in dim],
    with its try/except. *)
Definition industry (sector_key industry_key : string)
    (asof ingested_at : Z) : list membership_row * list printed :=
  match top_companies industry_key with
  | Raises e => ([], [Failed "membership" industry_key e])
  | Returns top =>
      if none_or_empty top then ([], [])
      else
        match top with
        | None => ([], [])
        | Some top0 =>
            match find_symbol top0 with
            | Raises e => ([], [Failed "membership" industry_key e])
            | Returns (top, None) => ([], [])
            | Returns (top, Some sym_col) =>
                let cols := map lower (columns top) in
                let name_col :=
                  pick ["name"; "longname"; "shortname"] cols
                       (columns top) in
                (flat_map
                   (fun r => row_of sector_key industry_key (columns top)
                                    sym_col name_col asof ingested_at
                                    (snd r))
                   (records top),
                 [])
            end
        end
  end.

Fixpoint industries_loop (dim : list (string * string * string))
    (asof ingested_at : Z) : list membership_row * list printed :=
  match dim with
  | [] => ([], [])
  | (sector_key, industry_key, _) :: rest =>
      let '(rows, out) := industry sector_key industry_key asof ingested_at in
      let '(rows', out') := industries_loop rest asof ingested_at in
      (rows ++ rows', out ++ out')
  end.

(** [ingest_membership(asof_date, force)] *)
Definition ingest_membership (now : Z) (client : clickhouse)
    (asof_date : option Z) (force : bool)
  : clickhouse * list printed * fetched nat :=
  let ingested_at := now in
  let asof :=
    match asof_date with
    | Some a => a
    | None => DimIndustry.start_of_day ingested_at
    end in
  match skips client "industry_membership" "ALL" asof force with
  | Raises e => (client, [], Raises e)
  | Returns true => (client, [], Returns 0%nat)
  | Returns false =>
      let dim := dim_groups (dim_industry client) in
      let '(rows, out) := industries_loop dim asof ingested_at in
      let client :=
        match rows with
        | [] => client
        | _ => insert client (Into_industry_membership rows)
        end in
      let client :=
        set_state client "yfinance" "industry_membership" "ALL"
                  None (Some asof) in
      (client, out, Returns (List.length rows))
  end.
End Job.

End Membership.

(** ** ingest_fact_market_cap.py *)

Module MarketCap.
Import Py Common.

(** A ticker that the loop does not pass over at once:
    [tkr and tkr != "nan"] after [tkr = str(tkr).strip()]. *)
Definition usable (tkr : string) : bool :=
  negb (String.eqb (strip tkr) "" || String.eqb (strip tkr) "nan").

(** The tickers a run works on. *)
Definition requested (client : clickhouse) (tickers : list string)
  : list string :=
  match tickers with
  | [] => _get_latest_membership_tickers client
  | _ => tickers
  end.

Section Job.
Context {rt : Runtime}.
(** [yf.Ticker(tkr).info or {}] *)
Variable ticker_info : string -> fetched info.

(** The provider returns a market cap for [tkr] that converts to a float. *)
Definition has_market_cap (tkr : string) : Prop :=
  exists i cap,
    ticker_info (strip tkr) = Returns i /\
    to_float (marketCap i) = Returns cap.

(** The loop [for tkr in tickers]; it threads the client (for the state
    rows it writes), the batch, the count and the output.  The last
    component is the exception that leaves the loop, if one does: the
    test of the stored as-of date is outside the try. *)
Fixpoint tickers_loop (tickers : list string) (asof ingested_at : Z)
    (force : bool) (client : clickhouse) (batch : list market_cap_row)
    (total_rows : nat) (out : list printed)
  : clickhouse * list market_cap_row * nat * list printed * option string :=
  match tickers with
  | [] => (client, batch, total_rows, out, None)
  | tkr :: rest =>
      let tkr := strip tkr in
      if (String.eqb tkr "" || String.eqb tkr "nan")%bool
      then tickers_loop rest asof ingested_at force client batch
                        total_rows out
      else
        match skips client "fact_market_cap" tkr asof force with
        | Raises e => (client, batch, total_rows, out, Some e)
        | Returns true =>
            tickers_loop rest asof ingested_at force client batch
                         total_rows out
        | Returns false =>
            match ticker_info tkr with
            | Raises e =>
                tickers_loop rest asof ingested_at force client batch
                             total_rows
                             (out ++ [Failed "market_cap" tkr e])
            | Returns info =>
                let mc := marketCap info in
                let cur :=
                  if truthy (currency info) then currency info
                  else Text "" in
                match mc with
                | Missing =>
                    tickers_loop rest asof ingested_at force client batch
                                 total_rows out
                | _ =>
                    match to_float mc with
                    | Raises e =>
                        tickers_loop rest asof ingested_at force client
                                     batch total_rows
                                     (out ++ [Failed "market_cap" tkr e])
                    | Returns cap =>
                        let row :=
                          {| mc_asof_date := asof;
                             mc_ticker := tkr;
                             mc_market_cap := cap;
                             mc_currency := str cur;
                             mc_source := "yfinance_info";
                             mc_ingested_at := ingested_at |} in
                        let client :=
                          set_state client "yfinance" "fact_market_cap" tkr
                                    None (Some asof) in
                        tickers_loop rest asof ingested_at force client
                                     (batch ++ [row]) (S total_rows) out
                    end
                end
            end
        end
  end.

(** [ingest_market_cap(tickers, asof_date, force)]; [tickers = []] stands
    for None as well. *)
Definition ingest_market_cap (now : Z) (client : clickhouse)
    (tickers : list string) (asof_date : option Z) (force : bool)
  : clickhouse * list printed * fetched nat :=
  let ingested_at := now in
  let asof :=
    match asof_date with
    | Some a => a
    | None => DimIndustry.start_of_day ingested_at
    end in
  let tickers :=
    match tickers with
    | [] => _get_latest_membership_tickers client
    | _ => tickers
    end in
  let '(client, batch, total_rows, out, raised) :=
    tickers_loop tickers asof ingested_at force client [] 0%nat [] in
  match raised with
  | Some e => (client, out, Raises e)
  | None =>
      let client :=
        match batch with
        | [] => client
        | _ => insert client (Into_fact_market_cap batch)
        end in
      (client, out, Returns total_rows)
  end.
End Job.

End MarketCap.

(** ** ingest_fact_stock_prices.py *)

Module StockPrices.
Import Py Common.

(** What [yf.download(..., group_by="ticker")] returns: a table whose
    columns are a MultiIndex with the ticker at level 0, or a flat table. *)
Inductive download : Type :=
| Multi (per_ticker : list (string * frame))
| Flat (df : frame).

(** A row of the normalised table. *)
Record norm_row : Type := {
  ts : Z;
  ticker : string;
  interval : string;
  open : float;
  high : float;
  low : float;
  close : float;
  adj_close : float;
  volume : Z
}.

(** [sub.rename(columns={old: new})] *)
Definition rename (old new : string) (cols : list string) : list string :=
  map (fun c => if String.eqb c old then new else c) cols.

(** [df[t]] when [t in df.columns.get_level_values(0)] *)
Fixpoint level0 (t : string) (per_ticker : list (string * frame))
  : option frame :=
  match per_ticker with
  | [] => None
  | (t', f) :: rest => if String.eqb t t' then Some f else level0 t rest
  end.

(** [df is None or df.empty] for a download *)
Definition download_empty (df : option download) : bool :=
  match df with
  | None => true
  | Some (Flat f) => none_or_empty (Some f)
  | Some (Multi l) => forallb (fun p => none_or_empty (Some (snd p))) l
  end.

(** [def chunked(lst, n)] for [n >= 1]; the recursion is on the length of
    the list. *)
Fixpoint chunked_from (fuel : nat) (lst : list string) (n : nat)
  : list (list string) :=
  match fuel, lst with
  | _, [] => []
  | O, _ => []
  | S fuel', _ => firstn n lst :: chunked_from fuel' (skipn n lst) n
  end.

Definition chunked (lst : list string) (n : nat) : list (list string) :=
  chunked_from (List.length lst) lst n.

(** [f"{t}|{interval}"] *)
Definition state_key (t interval : string) : string :=
  (t ++ "|" ++ interval)%string.

(** How a run ends: it returns the count, or an exception leaves it. *)
Inductive outcome : Type :=
| Returned (total : nat)
| Raised (msg : string).

Section Job.
Context {rt : Runtime}.
(** [yf.download(tickers=" ".join(chunk), start=<date>, interval=...)]:
    the chunk, the start date as days since the epoch, the interval. *)
Variable yf_download :
  list string -> Z -> string -> fetched (option download).

(** The value of a price column [col] in a row of [sub], after
    [if col not in sub.columns: sub[col] = 0.0 if col != "Volume" else 0]. *)
Definition ensured (cols : list string) (r : list cell) (col : string)
  : cell :=
  if mem col cols then at_col cols r col else Num 0%float.

(** A row of [parts]: the timestamp, and the price cells as the provider
    gave them. *)
Record part_row : Type := {
  p_ts : Z;
  p_ticker : string;
  p_interval : string;
  p_open : cell;
  p_high : cell;
  p_low : cell;
  p_close : cell;
  p_adj_close : cell;
  p_volume : option cell    (* None: the table has no such column *)
}.

(** One row of [sub] through the loop body of [normalize_download]: the
    timestamp coercion, the columns ensured, and [dropna(subset=["ts"])]. *)
Definition part_row_of (cols : list string) (t interval : string)
    (r : list cell) : list part_row :=
  match to_datetime (at_col cols r "ts") with
  | None => []
  | Some stamp =>
      [ {| p_ts := stamp; p_ticker := t; p_interval := interval;
           p_open := ensured cols r "Open";
           p_high := ensured cols r "High";
           p_low := ensured cols r "Low";
           p_close := ensured cols r "Close";
           p_adj_close := ensured cols r "Adj_Close";
           p_volume :=
             if mem "Volume" cols then Some (at_col cols r "Volume")
             else None |} ]
  end.

(** The part of the loop body of [normalize_download] after [sub] is
    chosen. *)
Definition normalize_sub (sub : frame) (t interval : string)
  : fetched (list part_row) :=
  sub <- reset_index sub ;;
  let cols := rename "Adj Close" "Adj_Close" (columns sub) in
  let ts_col := if mem "Date" cols then "Date" else hd "" cols in
  let cols := rename ts_col "ts" cols in
  Returns (flat_map (fun r => part_row_of cols t interval (snd r))
                    (records sub)).

Fixpoint normalize_multi (per_ticker : list (string * frame))
    (tickers : list string) (interval : string) : fetched (list part_row) :=
  match tickers with
  | [] => Returns []
  | t :: rest =>
      match level0 t per_ticker with
      | None => normalize_multi per_ticker rest interval
      | Some sub =>
          if none_or_empty (Some sub)
          then normalize_multi per_ticker rest interval
          else
            part <- normalize_sub sub t interval ;;
            parts <- normalize_multi per_ticker rest interval ;;
            Returns (part ++ parts)
      end
  end.

(** [pd.to_numeric(c, errors="coerce").fillna(0).astype("int64")]:
    [astype] raises IntCastingNaNError for an infinite volume. *)
Definition to_volume (c : cell) : fetched Z :=
  let x := to_numeric c in
  if notna x then
    if PrimFloat.is_infinity x
    then Raises "Cannot convert non-finite values (NA or inf) to integer"
    else Returns (int64_of_float x)
  else Returns 0.

(** The volume of a row of [out]; a table without the column got
    [sub["Volume"] = 0]. *)
Definition volume_of (c : option cell) : fetched Z :=
  match c with
  | Some c => to_volume c
  | None => Returns 0
  end.

(** The numerics of one row of [out] sanitised. *)
Definition sanitize_row (p : part_row) : fetched norm_row :=
  v <- volume_of (p_volume p) ;;
  Returns {| ts := p_ts p; ticker := p_ticker p; interval := p_interval p;
             open := to_numeric (p_open p);
             high := to_numeric (p_high p);
             low := to_numeric (p_low p);
             close := to_numeric (p_close p);
             adj_close := to_numeric (p_adj_close p);
             volume := v |}.

(** The numerics of every row of [out] sanitised: one volume that does
    not convert makes the statement raise. *)
Fixpoint sanitize (parts : list part_row) : fetched (list norm_row) :=
  match parts with
  | [] => Returns []
  | p :: rest =>
      r <- sanitize_row p ;;
      rs <- sanitize rest ;;
      Returns (r :: rs)
  end.

(** The list [parts] after the loop [for t in tickers] of
    [normalize_download]; for a flat table the loop ends after the first
    ticker. *)
Definition parts (df : option download) (tickers : list string)
    (interval : string) : fetched (list part_row) :=
  match df with
  | None => Returns []
  | Some (Multi per_ticker) => normalize_multi per_ticker tickers interval
  | Some (Flat sub) =>
      match tickers with
      | [] => Returns []
      | t :: _ => normalize_sub sub t interval
      end
  end.

(** [normalize_download(df, tickers, interval)]: the rows of the
    returned table ([[]] is the empty DataFrame), or the exception that
    leaves it. *)
Definition normalize_download (df : option download)
    (tickers : list string) (interval : string) : fetched (list norm_row) :=
  if download_empty df then Returns []
  else
    out <- parts df tickers interval ;;
    out <- sanitize out ;;
    Returns (filter (fun r => notna (close r)) out).

(** The tuple appended to [records] for a row of [sub]. *)
Definition record_of (t interval : string) (ingested_at : Z)
    (r : norm_row) : price_row :=
  let adj := if notna (adj_close r) then adj_close r else close r in
  {| sp_ts := ts r;
     sp_ticker := t;
     sp_interval := interval;
     sp_open := if notna (open r) then open r else close r;
     sp_high := if notna (high r) then high r else close r;
     sp_low := if notna (low r) then low r else close r;
     sp_close := close r;
     sp_adj_close := adj;
     sp_volume := volume r;
     sp_source := "yfinance";
     sp_ingested_at := ingested_at |}.

(** The first loop over a chunk: the earliest start across the chunk. *)
Fixpoint widen (client : clickhouse) (chunk : list string)
    (interval : string) (overlap_days : Z) (earliest : Z) : Z :=
  match chunk with
  | [] => earliest
  | t :: rest =>
      let earliest :=
        match fst (get_state client "yfinance" "fact_stock_prices"
                             (state_key t interval)) with
        | Some last_ts =>
            let start := last_ts - 86400 * overlap_days in
            if start <? earliest then start else earliest
        | None => earliest
        end in
      widen client rest interval overlap_days earliest
  end.

(** The starts that the watermarks of a chunk ask for: [L - overlap] for
    every ticker of the chunk whose key has a watermark [L]. *)
Definition resume_starts (client : clickhouse) (chunk : list string)
    (interval : string) (overlap_days : Z) : list Z :=
  flat_map
    (fun t =>
       match fst (get_state client "yfinance" "fact_stock_prices"
                            (state_key t interval)) with
       | Some last_ts => [last_ts - 86400 * overlap_days]
       | None => []
       end)
    chunk.

(** [earliest] as it stands when [yf.download] is called. *)
Definition fetch_start (client : clickhouse) (chunk : list string)
    (interval : string) (overlap_days default_lookback_days : Z)
    (force : bool) (ingested_at : Z) : Z :=
  let earliest := ingested_at - 86400 * default_lookback_days in
  if force then earliest
  else widen client chunk interval overlap_days earliest.

(** [earliest.date()], as days since the epoch *)
Definition date (instant : Z) : Z := instant / 86400.

(** [max(rec[0] for rec in records)] of a non-empty list *)
Definition max_ts (first : price_row) (records : list price_row) : Z :=
  fold_left (fun m rec => Z.max m (sp_ts rec)) records (sp_ts first).

(** The rows of [norm] that the second loop keeps for the ticker [t]:
    [norm[norm["ticker"] == t]], and [sub[sub["ts"] > last_ts]] when force
    is off and the key has a watermark. *)
Definition kept (client : clickhouse) (force : bool) (t interval : string)
    (norm : list norm_row) : list norm_row :=
  let sub := filter (fun r => String.eqb (ticker r) t) norm in
  if force then sub
  else
    match fst (get_state client "yfinance" "fact_stock_prices"
                         (state_key t interval)) with
    | Some last_ts => filter (fun r => last_ts <? ts r) sub
    | None => sub
    end.

(** [client.insert("finance_yf.fact_stock_prices", records, ...)] and then
    [set_state(..., f"{t}|{interval}", last_ts=max_ts)] *)
Definition write_prices (client : clickhouse) (t interval : string)
    (first : price_row) (more : list price_row) : clickhouse :=
  set_state (insert client (Into_fact_stock_prices (first :: more)))
            "yfinance" "fact_stock_prices" (state_key t interval)
            (Some (max_ts first more)) None.

(** The second loop over a chunk: insert per ticker. *)
Fixpoint insert_loop (norm : list norm_row) (chunk : list string)
    (interval : string) (force : bool) (ingested_at : Z)
    (client : clickhouse) (total : nat) : clickhouse * nat :=
  match chunk with
  | [] => (client, total)
  | t :: rest =>
      let sub := kept client force t interval norm in
      match map (record_of t interval ingested_at) sub with
      | [] => insert_loop norm rest interval force ingested_at client total
      | first :: more =>
          let records := first :: more in
          let client := write_prices client t interval first more in
          insert_loop norm rest interval force ingested_at client
                      (total + List.length records)%nat
      end
  end.

(** The loop [for chunk in chunked(tickers, chunk_size)]. *)
Fixpoint chunks_loop (chunks : list (list string)) (interval : string)
    (overlap_days default_lookback_days : Z) (force : bool)
    (ingested_at : Z) (client : clickhouse) (total : nat)
  : clickhouse * outcome :=
  match chunks with
  | [] => (client, Returned total)
  | chunk :: rest =>
      let earliest :=
        fetch_start client chunk interval overlap_days
                    default_lookback_days force ingested_at in
      match yf_download chunk (date earliest) interval with
      | Raises e => (client, Raised e)
      | Returns raw =>
          match normalize_download raw chunk interval with
          | Raises e => (client, Raised e)
          | Returns [] =>
              chunks_loop rest interval overlap_days default_lookback_days
                          force ingested_at client total
          | Returns norm =>
              let '(client, total) :=
                insert_loop norm chunk interval force ingested_at client
                            total in
              chunks_loop rest interval overlap_days default_lookback_days
                          force ingested_at client total
          end
      end
  end.

(** [ingest_stock_prices(tickers, interval, overlap_days,
    default_lookback_days, chunk_size, force)]; [tickers = []] stands for
    None as well.  [range(0, len(tickers), chunk_size)] raises for a
    step of 0 and is empty for a negative one. *)
Definition ingest_stock_prices (now : Z) (client : clickhouse)
    (tickers : list string) (interval : string)
    (overlap_days default_lookback_days chunk_size : Z) (force : bool)
  : clickhouse * outcome :=
  let ingested_at := now in
  let tickers :=
    match tickers with
    | [] => _get_latest_membership_tickers client
    | _ => tickers
    end in
  let tickers :=
    map strip
        (filter (fun t => negb (String.eqb (strip t) "")
                          && negb (String.eqb (strip t) "nan"))%bool
                tickers) in
  if chunk_size =? 0 then (client, Raised "range() arg 3 must not be zero")
  else if chunk_size <? 0 then (client, Returned 0%nat)
  else
    chunks_loop (chunked tickers (Z.to_nat chunk_size)) interval
                overlap_days default_lookback_days force ingested_at
                client 0%nat.
End Job.

(** One pass of the insert loop that writes: the records of a ticker, made
    from the rows the loop keeps, and the state row after them. *)
Inductive price_step (interval : string) (force : bool) (ingested_at : Z)
  : clickhouse -> clickhouse -> Prop :=
| price_step_intro client norm t first more :
    map (record_of t interval ingested_at) (kept client force t interval norm)
    = first :: more ->
    price_step interval force ingested_at client
               (write_prices client t interval first more).

(** Any number of such passes. *)
Inductive price_steps (interval : string) (force : bool) (ingested_at : Z)
  : clickhouse -> clickhouse -> Prop :=
| price_steps_done client :
    price_steps interval force ingested_at client client
| price_steps_more client client1 client2 :
    price_step interval force ingested_at client client1 ->
    price_steps interval force ingested_at client1 client2 ->
    price_steps interval force ingested_at client client2.

(** The journal of a price run: each state row comes right after the
    records of its ticker. *)
Inductive prices_then_state (interval : string) : list write -> Prop :=
| prices_then_state_nil : prices_then_state interval []
| prices_then_state_cons t first more stamp ws :
    prices_then_state interval ws ->
    prices_then_state interval
      (Into_fact_stock_prices (first :: more)
       :: Into_ingest_state
            {| source := "yfinance"; target := "fact_stock_prices";
               key := state_key t interval;
               last_ts := Some (max_ts first more); last_asof_date := None;
               updated_at := stamp |}
       :: ws).

End StockPrices.

(** ** Runs of the jobs, one after the other *)

Module Jobs.
Import Py Common.

(** One invocation of a job: the provider as it answers during the run, the
    time of the run and the arguments. *)
Inductive invocation : Type :=
| Dim_industry (industries : string -> fetched (option frame)) (now : Z)
    (sectors : list string) (asof_date : option Z)
| Industry_membership (top_companies : string -> fetched (option frame))
    (now : Z) (asof_date : option Z)
| Stock_prices
    (yf_download :
       list string -> Z -> string -> fetched (option StockPrices.download))
    (now : Z) (tickers : list string) (interval : string)
    (overlap_days default_lookback_days chunk_size : Z)
| Market_cap (ticker_info : string -> fetched info) (now : Z)
    (tickers : list string) (asof_date : option Z).

Section Runs.
Context {rt : Runtime}.

(** The store after an invocation. *)
Definition run (force : bool) (client : clickhouse) (i : invocation)
  : clickhouse :=
  match i with
  | Dim_industry industries now sectors asof_date =>
      fst (fst (DimIndustry.ingest_dim_industry industries now client sectors
                                                asof_date force))
  | Industry_membership top_companies now asof_date =>
      fst (fst (Membership.ingest_membership top_companies now client
                                             asof_date force))
  | Stock_prices yf_download now tickers interval overlap_days
                 default_lookback_days chunk_size =>
      fst (StockPrices.ingest_stock_prices yf_download now client tickers
             interval overlap_days default_lookback_days chunk_size force)
  | Market_cap ticker_info now tickers asof_date =>
      fst (fst (MarketCap.ingest_market_cap ticker_info now client tickers
                                            asof_date force))
  end.

Definition run_all (force : bool) (client : clickhouse)
    (invocations : list invocation) : clickhouse :=
  fold_left (run force) invocations client.
End Runs.

End Jobs.

(** ** Concrete data for the examples *)

Module Examples.
Import Py Common.

(** A small runtime: the conversions on the few values the examples use. *)
Definition runtime : Runtime :=
  {| str_of_float := fun x => if PrimFloat.is_nan x then "nan" else "1.0";
     float_of_str :=
       fun s =>
         if String.eqb s "0.25" then Returns 0.25%float
         else if String.eqb s "inf" then Returns PrimFloat.infinity
         else Raises ("could not convert string to float: '" ++ s ++ "'");
     to_datetime :=
       fun c =>
         match c with
         | Text "2024-01-09" => Some 1704758400
         | Text "2024-01-10" => Some 1704844800
         | Text "2024-01-11" => Some 1704931200
         | Text "2024-01-12" => Some 1705017600
         | _ => None
         end;
     int64_of_float :=
       fun x => if PrimFloat.eqb x 1000%float then 1000 else 0 |}.

(** A store in which nothing was written yet. *)
Definition empty : clickhouse := {| journal := []; clock := 0 |}.

(** 2024-03-01T00:00:00Z and 2024-02-01T00:00:00Z *)
Definition mar_1 : Z := 1709251200.
Definition feb_1 : Z := 1706745600.

(** 2024-06-01T00:00:00Z, 2024-01-10T00:00:00Z and 2022-01-10T00:00:00Z *)
Definition jun_1 : Z := 1717200000.
Definition jan_10 : Z := 1704844800.
Definition jan_10_2022 : Z := 1641772800.

(** A store whose state says a job's key was ingested for [asof]. *)
Definition ingested_for (tgt k : string) (asof : Z) : clickhouse :=
  set_state empty "yfinance" tgt k None (Some asof).

(** A store with a price watermark for ["AAA|1d"], and one with a second,
    older watermark for ["BBB|1d"]. *)
Definition priced : clickhouse :=
  set_state empty "yfinance" "fact_stock_prices" "AAA|1d" (Some jan_10) None.

Definition priced_twice : clickhouse :=
  set_state priced "yfinance" "fact_stock_prices" "BBB|1d"
            (Some jan_10_2022) None.

(** A state table with three rows for one key, the one written last in
    the middle, and a row of another key written after them. *)
Definition thrice : clickhouse :=
  {| journal :=
       [ Into_ingest_state
           {| source := "yfinance"; target := "fact_stock_prices";
              key := "AAA|1d"; last_ts := Some jan_10_2022;
              last_asof_date := None; updated_at := 3 |};
         Into_ingest_state
           {| source := "yfinance"; target := "fact_stock_prices";
              key := "AAA|1d"; last_ts := Some jan_10;
              last_asof_date := None; updated_at := 7 |};
         Into_ingest_state
           {| source := "yfinance"; target := "fact_stock_prices";
              key := "AAA|1d"; last_ts := Some 0;
              last_asof_date := None; updated_at := 5 |};
         Into_ingest_state
           {| source := "yfinance"; target := "fact_market_cap";
              key := "AAA"; last_ts := None;
              last_asof_date := Some mar_1; updated_at := 9 |} ];
     clock := 10 |}.

(** The fetch-window start that the claim gives the key ["AAA|1d"] in
    [priced_twice], and the key ["BBB|1d"], for a run on 2024-06-01 with
    the default 370 days of lookback and 5 days of overlap. *)
Definition start_for_AAA : Z :=
  Z.min (jun_1 - 86400 * 370) (jan_10 - 86400 * 5).
Definition start_for_BBB : Z :=
  Z.min (jun_1 - 86400 * 370) (jan_10_2022 - 86400 * 5).

(** Providers. *)
Definition unreachable {A : Type} (_ : string) : fetched A :=
  Raises "HTTP Error 404".

Definition one_sector (sector_key : string) : fetched (option frame) :=
  if String.eqb sector_key "energy" then
    Returns
      (Some {| index_name := Some "key";
               columns := ["name"; "symbol"; "market weight"];
               records :=
                 [ (Text "oil-gas-drilling",
                    [Text "Oil & Gas Drilling"; Text "^YH30910"; Text "0.25"]);
                   (Text "uranium",
                    [Text "Uranium"; Text "^YH30920"; Text "n/a"]) ] |})
  else Raises "HTTP Error 404".

Definition one_industry (industry_key : string) : fetched (option frame) :=
  if String.eqb industry_key "uranium" then
    Returns
      (Some {| index_name := Some "symbol";
               columns := ["name"; "rating"];
               records := [ (Text "CCJ", [Text "Cameco"; Text "Buy"]) ] |})
  else Raises "HTTP Error 404".

Definition capped (tkr : string) : fetched info :=
  if String.eqb tkr "BBB" then Raises "HTTP Error 404"
  else Returns {| marketCap := Num 5%float; currency := Text "USD" |}.

(** One table of daily prices: the first row is complete, the second has
    no opening price and no adjusted close, the third has a close that is
    not a number. *)
Definition daily : frame :=
  {| index_name := Some "Date";
     columns := ["Open"; "High"; "Low"; "Close"; "Adj Close"; "Volume"];
     records :=
       [ (Text "2024-01-10",
          [Num 10%float; Num 12%float; Num 9%float; Num 11%float;
           Num 11%float; Num 1000%float]);
         (Text "2024-01-11",
          [Num PrimFloat.nan; Num 13%float; Num 10%float; Num 12%float;
           Text "n/a"; Missing]);
         (Text "2024-01-12",
          [Num 12%float; Num 14%float; Num 11%float; Text "n/a";
           Num 13%float; Num 1000%float]) ] |}.

(** The normalised table of the daily prices of one ticker. *)
Definition normalised (t : string) : list StockPrices.norm_row :=
  match StockPrices.normalize_download (rt := runtime)
          (Some (StockPrices.Flat daily)) [t] "1d" with
  | Returns norm => norm
  | Raises _ => []
  end.

(** A download that has a table for every ticker but ["BBB"]. *)
Definition prices (chunk : list string) (start : Z) (interval : string)
  : fetched (option StockPrices.download) :=
  Returns
    (Some (StockPrices.Multi
             (map (fun t => (t, daily))
                  (filter (fun t => negb (String.eqb t "BBB")) chunk)))).

(** A download that raises when ["BBB"] is in the chunk. *)
Definition prices_or_raise (chunk : list string) (start : Z)
    (interval : string) : fetched (option StockPrices.download) :=
  if mem "BBB" chunk then Raises "ConnectionError"
  else prices chunk start interval.

End Examples.

(** ** main.py: waiting for the store at startup *)

Module Main.
Import Py.

(** How [wait_for_clickhouse] ends: it returns, or it raises
    [RuntimeError(f"ClickHouse not ready after waiting: {last_err}")]. *)
Inductive startup : Type :=
| Ready
| Not_ready (last_err : option string).

(** The loop [for _ in range(30)], from the attempt [i] on with [left]
    attempts to go: [probe i] is what getting a client and running
    [SELECT 1] does at the attempt [i] (an exception of [c.close()] is
    swallowed).  The result is how the loop ends and how many times it
    called [time.sleep(1)]. *)
Fixpoint attempts (probe : nat -> fetched unit) (left i : nat)
    (last_err : option string) (slept : nat) : startup * nat :=
  match left with
  | O => (Not_ready last_err, slept)
  | S left' =>
      match probe i with
      | Returns _ => (Ready, slept)
      | Raises e => attempts probe left' (S i) (Some e) (S slept)
      end
  end.

Definition wait_for_clickhouse (probe : nat -> fetched unit)
  : startup * nat :=
  attempts probe 30 0 None 0.

End Main.

(** ** What the properties below speak of *)

Module Facts.
Import Py Common.

(** The rows a list of writes adds to each table. *)
Definition prices_in (ws : list write) : list price_row :=
  flat_map (fun w => match w with Into_fact_stock_prices l => l | _ => [] end)
           ws.

Definition states_in (ws : list write) : list state_row :=
  flat_map (fun w => match w with Into_ingest_state r => [r] | _ => [] end)
           ws.

Definition dims_in (ws : list write) : list dim_industry_row :=
  flat_map (fun w => match w with Into_dim_industry l => l | _ => [] end) ws.

Definition members_in (ws : list write) : list membership_row :=
  flat_map (fun w => match w with Into_industry_membership l => l | _ => [] end)
           ws.

Definition caps_in (ws : list write) : list market_cap_row :=
  flat_map (fun w => match w with Into_fact_market_cap l => l | _ => [] end)
           ws.

(** A price row without a missing number. *)
Definition no_nan (r : price_row) : Prop :=
  notna (sp_open r) = true /\ notna (sp_high r) = true /\
  notna (sp_low r) = true /\ notna (sp_close r) = true /\
  notna (sp_adj_close r) = true.

(** An identifier that is neither empty nor the text of a missing value. *)
Definition identifies (s : string) : Prop := s <> "" /\ s <> "nan".

(** A price row as a run with the interval [i] at the time [now] writes
    it for one of the tickers [tickers]. *)
Definition clean (i : string) (now : Z) (tickers : list string)
    (r : price_row) : Prop :=
  sp_interval r = i /\ sp_source r = "yfinance" /\
  sp_ingested_at r = now /\ In (sp_ticker r) tickers /\ no_nan r.

(** The tickers a price run works on:
    [[str(t).strip() for t in tickers if str(t).strip() and
      str(t).strip() != "nan"]]. *)
Definition normalized_tickers (client : clickhouse) (tickers : list string)
  : list string :=
  map strip
      (filter (fun t => negb (String.eqb (strip t) "")
                        && negb (String.eqb (strip t) "nan"))%bool
              (match tickers with
               | [] => _get_latest_membership_tickers client
               | _ => tickers
               end)).

(** The writes an invocation may issue: rows of its own table, and state
    rows of its own target. *)
Definition own (i : Jobs.invocation) (w : write) : Prop :=
  match i, w with
  | Jobs.Dim_industry _ _ _ _, Into_dim_industry _ => True
  | Jobs.Dim_industry _ _ _ _, Into_ingest_state r =>
      source r = "yfinance" /\ target r = "dim_industry" /\ key r = "ALL"
  | Jobs.Industry_membership _ _ _, Into_industry_membership _ => True
  | Jobs.Industry_membership _ _ _, Into_ingest_state r =>
      source r = "yfinance" /\ target r = "industry_membership" /\
      key r = "ALL"
  | Jobs.Stock_prices _ _ _ _ _ _ _, Into_fact_stock_prices _ => True
  | Jobs.Stock_prices _ _ _ _ _ _ _, Into_ingest_state r =>
      source r = "yfinance" /\ target r = "fact_stock_prices"
  | Jobs.Market_cap _ _ _ _, Into_fact_market_cap _ => True
  | Jobs.Market_cap _ _ _ _, Into_ingest_state r =>
      source r = "yfinance" /\ target r = "fact_market_cap"
  | _, _ => False
  end.

(** The table an invocation ingests into. *)
Definition table_of (i : Jobs.invocation) : string :=
  match i with
  | Jobs.Dim_industry _ _ _ _ => "dim_industry"
  | Jobs.Industry_membership _ _ _ => "industry_membership"
  | Jobs.Stock_prices _ _ _ _ _ _ _ => "fact_stock_prices"
  | Jobs.Market_cap _ _ _ _ => "fact_market_cap"
  end.

(** Fetching or parsing one entity raises [e]: the call into the
    provider raises, or the table it returns does not go through
    [reset_index]; for a ticker, the market cap does not convert. *)
Definition sector_fails (industries : string -> fetched (option frame))
    (sector_key e : string) : Prop :=
  industries sector_key = Raises e \/
  exists df,
    industries sector_key = Returns (Some df) /\
    none_or_empty (Some df) = false /\
    reset_index df = Raises e.

Definition industry_fails (top_companies : string -> fetched (option frame))
    (industry_key e : string) : Prop :=
  top_companies industry_key = Raises e \/
  exists top,
    top_companies industry_key = Returns (Some top) /\
    none_or_empty (Some top) = false /\
    Membership.find_symbol top = Raises e.

Section Failures.
Context {rt : Runtime}.

Definition ticker_fails (ticker_info : string -> fetched info)
    (tkr e : string) : Prop :=
  ticker_info tkr = Raises e \/
  exists i,
    ticker_info tkr = Returns i /\
    marketCap i <> Missing /\
    to_float (marketCap i) = Raises e.

(** A volume that [astype("int64")] takes: a number that is not
    infinite, or one that is missing or does not parse, which [fillna(0)]
    replaces. *)
Definition volume_converts (c : option cell) : Prop :=
  match c with
  | Some c => PrimFloat.is_infinity (to_numeric c) = false
  | None => True
  end.

End Failures.

End Facts.

(** * Properties *)

(** ** The state store *)

Section StateStore.
Import Common.

Lemma selects_true src tgt k r :
  selects src tgt k r = true <->
  source r = src /\ target r = tgt /\ key r = k.
Proof.
  unfold selects. rewrite !andb_true_iff, !String.eqb_eq. tauto.
Qed.

Lemma newest_none rows : newest rows = None -> rows = [].
Proof.
  destruct rows as [|r rest]; [reflexivity|]. simpl.
  destruct (newest rest) as [m|]; [|discriminate].
  destruct (updated_at m <? updated_at r); discriminate.
Qed.

Lemma newest_in rows r : newest rows = Some r -> In r rows.
Proof.
  revert r. induction rows as [|x rest IH]; intros r; simpl; [discriminate|].
  destruct (newest rest) as [m|] eqn:E.
  - destruct (updated_at m <? updated_at x); intros [= <-]; auto.
  - intros [= <-]. auto.
Qed.

Lemma newest_max rows r :
  newest rows = Some r ->
  forall r', In r' rows -> updated_at r' <= updated_at r.
Proof.
  revert r. induction rows as [|x rest IH]; intros r; simpl; [discriminate|].
  destruct (newest rest) as [m|] eqn:E.
  - destruct (updated_at m <? updated_at x) eqn:C; intros [= <-] r' [<-|Hin].
    + lia.
    + apply Z.ltb_lt in C. specialize (IH m eq_refl r' Hin). lia.
    + apply Z.ltb_ge in C. exact C.
    + exact (IH m eq_refl r' Hin).
  - apply newest_none in E. subst rest.
    intros [= <-] r' [<-|[]]. lia.
Qed.

(** A row stamped after every other row is the newest one. *)
Lemma newest_snoc rows r :
  (forall r', In r' rows -> updated_at r' < updated_at r) ->
  newest (rows ++ [r]) = Some r.
Proof.
  induction rows as [|x rest IH]; intros H; simpl; [reflexivity|].
  rewrite IH by (intros; apply H; right; assumption).
  assert (updated_at x < updated_at r) by (apply H; left; reflexivity).
  destruct (updated_at r <? updated_at x) eqn:C; [|reflexivity].
  apply Z.ltb_lt in C. lia.
Qed.

(** The newest row after one more row: the new row, unless an older one
    has a later stamp. *)
Lemma newest_snoc_eq rows r :
  newest (rows ++ [r]) =
  match newest rows with
  | None => Some r
  | Some m => if updated_at r <? updated_at m then Some m else Some r
  end.
Proof.
  induction rows as [|x rest IH]; [reflexivity|].
  cbn [app newest]. rewrite IH.
  destruct (newest rest) as [m|].
  - destruct (updated_at r <? updated_at m) eqn:C1;
      destruct (updated_at m <? updated_at x) eqn:C2;
      try rewrite C1;
      destruct (updated_at r <? updated_at x) eqn:C3;
      try reflexivity;
      apply Z.ltb_lt in C1 || apply Z.ltb_ge in C1;
      apply Z.ltb_lt in C2 || apply Z.ltb_ge in C2;
      apply Z.ltb_lt in C3 || apply Z.ltb_ge in C3;
      lia.
  - destruct (updated_at r <? updated_at x); reflexivity.
Qed.

Lemma ingest_state_insert client w :
  (forall r, w <> Into_ingest_state r) ->
  ingest_state (insert client w) = ingest_state client.
Proof.
  intros H. unfold ingest_state, insert. simpl.
  rewrite flat_map_app. simpl.
  destruct w; try (rewrite app_nil_r; reflexivity).
  exfalso. exact (H r eq_refl).
Qed.

Lemma ingest_state_set_state client src tgt k t a :
  ingest_state (set_state client src tgt k t a) =
  ingest_state client ++
  [ {| source := src; target := tgt; key := k; last_ts := t;
       last_asof_date := a; updated_at := clock client |} ].
Proof.
  unfold ingest_state, set_state. simpl.
  rewrite flat_map_app. reflexivity.
Qed.

Lemma get_state_insert client w src tgt k :
  (forall r, w <> Into_ingest_state r) ->
  get_state (insert client w) src tgt k = get_state client src tgt k.
Proof.
  intros H. unfold get_state. rewrite ingest_state_insert by exact H.
  reflexivity.
Qed.

Lemma stamped_before_insert client w :
  (forall r, w <> Into_ingest_state r) ->
  stamped_before client -> stamped_before (insert client w).
Proof.
  intros H S. unfold stamped_before.
  rewrite ingest_state_insert by exact H. exact S.
Qed.

Lemma stamped_before_set_state client src tgt k t a :
  stamped_before client ->
  stamped_before (set_state client src tgt k t a).
Proof.
  unfold stamped_before. intros S.
  rewrite ingest_state_set_state. apply Forall_app. split.
  - eapply Forall_impl; [|exact S]. simpl. intros; lia.
  - constructor; [simpl; lia|constructor].
Qed.

(** What was just set is what is read back. *)
Lemma get_state_set_state_same client src tgt k t a :
  stamped_before client ->
  get_state (set_state client src tgt k t a) src tgt k = (t, a).
Proof.
  intros S. unfold get_state. rewrite ingest_state_set_state.
  rewrite filter_app. simpl.
  assert (E : selects src tgt k
                {| source := src; target := tgt; key := k; last_ts := t;
                   last_asof_date := a; updated_at := clock client |}
              = true) by (apply selects_true; simpl; auto).
  rewrite E. rewrite newest_snoc; [reflexivity|].
  intros r' Hin. apply filter_In in Hin. destruct Hin as [Hin _].
  unfold stamped_before in S. rewrite Forall_forall in S.
  simpl. apply S. exact Hin.
Qed.

(** Whatever the stamps in the store, the state read after a write is the
    state written or the state that was read before. *)
Lemma get_state_set_state_either client src tgt k t a :
  get_state (set_state client src tgt k t a) src tgt k = (t, a) \/
  get_state (set_state client src tgt k t a) src tgt k =
  get_state client src tgt k.
Proof.
  unfold get_state. rewrite ingest_state_set_state.
  rewrite filter_app. simpl.
  assert (E : selects src tgt k
                {| source := src; target := tgt; key := k; last_ts := t;
                   last_asof_date := a; updated_at := clock client |}
              = true) by (apply selects_true; simpl; auto).
  rewrite E. rewrite newest_snoc_eq.
  destruct (newest (filter (selects src tgt k) (ingest_state client)))
    as [m|]; [|left; reflexivity].
  simpl. destruct (clock client <? updated_at m); [right|left]; reflexivity.
Qed.

(** Setting the state of one key leaves every other key as it was. *)
Lemma get_state_set_state_other client src tgt k t a src' tgt' k' :
  (src', tgt', k') <> (src, tgt, k) ->
  get_state (set_state client src tgt k t a) src' tgt' k' =
  get_state client src' tgt' k'.
Proof.
  intros N. unfold get_state. rewrite ingest_state_set_state.
  rewrite filter_app. simpl.
  destruct (selects src' tgt' k' _) eqn:E.
  - apply selects_true in E. simpl in E. destruct E as (-> & -> & ->).
    exfalso. apply N. reflexivity.
  - rewrite app_nil_r. reflexivity.
Qed.

(** The other tables do not change when a state row is written. *)
Lemma industry_membership_set_state client src tgt k t a :
  industry_membership (set_state client src tgt k t a) =
  industry_membership client.
Proof.
  unfold industry_membership, set_state. simpl.
  rewrite flat_map_app. simpl. apply app_nil_r.
Qed.

End StateStore.

(** C7. [get_state(source, target, key)] returns the watermarks of a state
    row of that key whose [updated_at] is the greatest among all the state
    rows of the key, however many there are, and [(None, None)] when the
    key has no state row. *)
Theorem get_state_reads_latest_row (client : Common.clickhouse)
    (src tgt k : string) :
  (exists r,
      In r (Common.ingest_state client) /\
      Common.source r = src /\ Common.target r = tgt /\ Common.key r = k /\
      (forall r',
          In r' (Common.ingest_state client) ->
          Common.source r' = src -> Common.target r' = tgt ->
          Common.key r' = k ->
          Common.updated_at r' <= Common.updated_at r) /\
      Common.get_state client src tgt k =
        (Common.last_ts r, Common.last_asof_date r))
  \/
  ((forall r,
       In r (Common.ingest_state client) ->
       ~ (Common.source r = src /\ Common.target r = tgt /\
          Common.key r = k)) /\
   Common.get_state client src tgt k = (None, None)).
Proof.
  unfold Common.get_state.
  destruct (Common.newest _) as [r|] eqn:E.
  - left. exists r.
    pose proof (newest_in _ E) as Hin. apply filter_In in Hin.
    destruct Hin as [Hin Hsel]. apply selects_true in Hsel.
    destruct Hsel as (Hs & Ht & Hk).
    repeat split; try assumption.
    intros r' Hin' Hs' Ht' Hk'.
    apply (newest_max _ E). apply filter_In. split; [assumption|].
    apply selects_true. auto.
  - right. apply newest_none in E. split; [|reflexivity].
    intros r Hin Hsel. apply selects_true in Hsel.
    assert (In r (filter (Common.selects src tgt k)
                         (Common.ingest_state client)))
      by (apply filter_In; auto).
    rewrite E in H. destruct H.
Qed.

(** The theorem at work on a state table with three rows for the key: the
    row stamped 7 is read, and a key without a row reads as nothing. *)
Lemma get_state_reads_latest_row_witness :
  Common.get_state Examples.thrice "yfinance" "fact_stock_prices" "AAA|1d"
  = (Some Examples.jan_10, None) /\
  Common.get_state Examples.thrice "yfinance" "fact_stock_prices" "BBB|1d"
  = (None, None) /\
  exists r,
    In r (Common.ingest_state Examples.thrice) /\
    Common.updated_at r = 7 /\
    Common.get_state Examples.thrice "yfinance" "fact_stock_prices" "AAA|1d"
    = (Common.last_ts r, Common.last_asof_date r).
Proof.
  split; [reflexivity|]. split; [reflexivity|].
  destruct (get_state_reads_latest_row Examples.thrice "yfinance"
              "fact_stock_prices" "AAA|1d")
    as [(r & Hin & _ & _ & _ & _ & E)|[H _]].
  - exists r. split; [exact Hin|]. split; [|exact E].
    simpl in Hin.
    destruct Hin as [<-|[<-|[<-|[<-|[]]]]]; try discriminate E.
    reflexivity.
  - exfalso.
    apply (H {| Common.source := "yfinance";
                Common.target := "fact_stock_prices";
                Common.key := "AAA|1d";
                Common.last_ts := Some Examples.jan_10;
                Common.last_asof_date := None;
                Common.updated_at := 7 |}).
    + simpl. auto.
    + simpl. auto.
Defined.

(** ** The tables after some more writes *)

Section Tables.
Import Py Common Facts.

Lemma tables_after client client' ws :
  journal client' = journal client ++ ws ->
  dim_industry client' = dim_industry client ++ dims_in ws /\
  industry_membership client' = industry_membership client ++ members_in ws /\
  fact_stock_prices client' = fact_stock_prices client ++ prices_in ws /\
  fact_market_cap client' = fact_market_cap client ++ caps_in ws /\
  ingest_state client' = ingest_state client ++ states_in ws.
Proof.
  intros J.
  unfold dim_industry, industry_membership, fact_stock_prices,
    fact_market_cap, ingest_state.
  rewrite J. repeat split; apply flat_map_app.
Qed.

Lemma dims_in_states states : dims_in (map Into_ingest_state states) = [].
Proof. induction states; [reflexivity|exact IHstates]. Qed.

Lemma caps_in_states states : caps_in (map Into_ingest_state states) = [].
Proof. induction states; [reflexivity|exact IHstates]. Qed.

Lemma members_in_states states :
  members_in (map Into_ingest_state states) = [].
Proof. induction states; [reflexivity|exact IHstates]. Qed.

Lemma states_in_states states :
  states_in (map Into_ingest_state states) = states.
Proof.
  induction states as [|s rest IH]; [reflexivity|].
  simpl. f_equal. exact IH.
Qed.

Lemma members_in_app ws ws' :
  members_in (ws ++ ws') = members_in ws ++ members_in ws'.
Proof. apply flat_map_app. Qed.

Lemma caps_in_app ws ws' : caps_in (ws ++ ws') = caps_in ws ++ caps_in ws'.
Proof. apply flat_map_app. Qed.

Lemma dims_in_app ws ws' : dims_in (ws ++ ws') = dims_in ws ++ dims_in ws'.
Proof. apply flat_map_app. Qed.

Lemma states_in_app ws ws' :
  states_in (ws ++ ws') = states_in ws ++ states_in ws'.
Proof. apply flat_map_app. Qed.

Lemma prices_in_app ws ws' :
  prices_in (ws ++ ws') = prices_in ws ++ prices_in ws'.
Proof. apply flat_map_app. Qed.

(** The state read from a store depends on its state table only. *)
Lemma get_state_same_states client client' src tgt k :
  ingest_state client' = ingest_state client ->
  get_state client' src tgt k = get_state client src tgt k.
Proof. intros E. unfold get_state. rewrite E. reflexivity. Qed.

End Tables.

(** ** The snapshot policy: industry dimension and membership *)

Section SnapshotAll.
Import Py Common.
Context {rt : Runtime}.

(** The test never says yes: a stored as-of date comes back without
    tzinfo and the comparison with the aware [asof] raises. *)
Lemma already_ingested_cases client tgt k asof :
  (snd (get_state client "yfinance" tgt k) = None /\
   already_ingested client tgt k asof = Returns false) \/
  (exists L e,
      snd (get_state client "yfinance" tgt k) = Some L /\
      already_ingested client tgt k asof = Raises e).
Proof.
  unfold already_ingested.
  destruct (snd (get_state client "yfinance" tgt k)) as [L|].
  - right. exists L. eexists. split; reflexivity.
  - left. split; reflexivity.
Qed.

Lemma skips_cases client tgt k asof force :
  ((force = true \/ snd (get_state client "yfinance" tgt k) = None) /\
   skips client tgt k asof force = Returns false) \/
  (exists L e,
      force = false /\
      snd (get_state client "yfinance" tgt k) = Some L /\
      skips client tgt k asof force = Raises e).
Proof.
  unfold skips. destruct force; [left; auto|].
  destruct (already_ingested_cases client tgt k asof)
    as [[N E]|(L & e & HL & E)].
  - left. auto.
  - right. exists L, e. auto.
Qed.

Lemma skips_stored client tgt k asof L :
  snd (get_state client "yfinance" tgt k) = Some L ->
  exists e, skips client tgt k asof false = Raises e.
Proof.
  intros HL.
  destruct (skips_cases client tgt k asof false)
    as [[[F|N] _]|(L' & e & _ & _ & E)];
    [discriminate|congruence|eauto].
Qed.

Lemma skips_free client tgt k asof force :
  force = true \/ snd (get_state client "yfinance" tgt k) = None ->
  skips client tgt k asof force = Returns false.
Proof.
  intros H.
  destruct (skips_cases client tgt k asof force)
    as [[_ E]|(L & e & F & HL & _)]; [exact E|].
  destruct H; congruence.
Qed.

Lemma get_state_set_state_asof client tgt k asof :
  stamped_before client ->
  snd (get_state (set_state client "yfinance" tgt k None (Some asof))
                 "yfinance" tgt k) = Some asof.
Proof.
  intros S. rewrite get_state_set_state_same by exact S. reflexivity.
Qed.

(** A run with force off that finds an as-of date stored for the key ALL
    is left by the exception of the comparison, before anything is
    fetched or written. *)
Lemma ingest_dim_industry_stored industries now client sectors asof_date L :
  snd (get_state client "yfinance" "dim_industry" "ALL") = Some L ->
  exists e,
    DimIndustry.ingest_dim_industry industries now client sectors
                                    asof_date false
    = (client, [], Raises e).
Proof.
  intros HL. unfold DimIndustry.ingest_dim_industry. cbv zeta.
  match goal with
  | |- context [skips client ?t ?k ?a false] =>
      destruct (@skips_stored client t k a L HL) as [e E]
  end.
  rewrite E. eauto.
Qed.

Lemma ingest_dim_industry_not_skipped industries now client sectors asof
      force :
  force = true \/
  snd (get_state client "yfinance" "dim_industry" "ALL") = None ->
  let sectors' :=
    match sectors with [] => DimIndustry.DEFAULT_SECTORS | _ => sectors end in
  let rows := fst (DimIndustry.sectors_loop industries sectors' asof now) in
  let out := snd (DimIndustry.sectors_loop industries sectors' asof now) in
  DimIndustry.ingest_dim_industry industries now client sectors
                                  (Some asof) force
  = (DimIndustry.written client rows asof, out, Returns (List.length rows)).
Proof.
  intros H. unfold DimIndustry.ingest_dim_industry. cbv zeta.
  rewrite skips_free by exact H.
  destruct (DimIndustry.sectors_loop _ _ _ _) as [rows out]. reflexivity.
Qed.

Lemma dim_industry_written_current client rows asof :
  stamped_before client ->
  snd (get_state (DimIndustry.written client rows asof)
                 "yfinance" "dim_industry" "ALL") = Some asof.
Proof.
  intros S. unfold DimIndustry.written.
  apply get_state_set_state_asof.
  destruct rows; [exact S|].
  apply stamped_before_insert; [discriminate|exact S].
Qed.

Lemma ingest_membership_stored top now client asof_date L :
  snd (get_state client "yfinance" "industry_membership" "ALL") = Some L ->
  exists e,
    Membership.ingest_membership top now client asof_date false
    = (client, [], Raises e).
Proof.
  intros HL. unfold Membership.ingest_membership. cbv zeta.
  match goal with
  | |- context [skips client ?t ?k ?a false] =>
      destruct (@skips_stored client t k a L HL) as [e E]
  end.
  rewrite E. eauto.
Qed.

Lemma ingest_membership_not_skipped top now client asof force :
  force = true \/
  snd (get_state client "yfinance" "industry_membership" "ALL") = None ->
  let dim := Membership.dim_groups (dim_industry client) in
  let rows := fst (Membership.industries_loop top dim asof now) in
  let out := snd (Membership.industries_loop top dim asof now) in
  Membership.ingest_membership top now client (Some asof) force
  = (Membership.written client rows asof, out, Returns (List.length rows)).
Proof.
  intros H. unfold Membership.ingest_membership. cbv zeta.
  rewrite skips_free by exact H.
  destruct (Membership.industries_loop _ _ _ _) as [rows out]. reflexivity.
Qed.

Lemma membership_written_current client rows asof :
  stamped_before client ->
  snd (get_state (Membership.written client rows asof)
                 "yfinance" "industry_membership" "ALL") = Some asof.
Proof.
  intros S. unfold Membership.written.
  apply get_state_set_state_asof.
  destruct rows; [exact S|].
  apply stamped_before_insert; [discriminate|exact S].
Qed.

(** When every fetch raises, the loops collect no row. *)
Lemma sectors_loop_all_raise industries sectors asof now :
  (forall s, In s sectors -> exists e, industries s = Raises e) ->
  fst (DimIndustry.sectors_loop industries sectors asof now) = [].
Proof.
  induction sectors as [|s rest IH]; intros H; [reflexivity|].
  simpl. destruct (H s (or_introl eq_refl)) as [e He].
  unfold DimIndustry.sector at 1. rewrite He.
  specialize (IH (fun s' Hin => H s' (or_intror Hin))).
  destruct (DimIndustry.sectors_loop industries rest asof now).
  simpl in *. exact IH.
Qed.

Lemma industries_loop_all_raise top dim asof now :
  (forall g, In g dim -> exists e, top (snd (fst g)) = Raises e) ->
  fst (Membership.industries_loop top dim asof now) = [].
Proof.
  induction dim as [|[[s i] n] rest IH]; intros H; [reflexivity|].
  simpl. destruct (H (s, i, n) (or_introl eq_refl)) as [e He].
  simpl in He. unfold Membership.industry at 1. rewrite He.
  specialize (IH (fun g Hin => H g (or_intror Hin))).
  destruct (Membership.industries_loop top rest asof now).
  simpl in *. exact IH.
Qed.

End SnapshotAll.

(** ** The snapshot policy: market cap *)

Section SnapshotPerTicker.
Import Py Common Facts.
Context {rt : Runtime}.

Lemma latest_membership_tickers_eq client client' :
  industry_membership client' = industry_membership client ->
  _get_latest_membership_tickers client'
  = _get_latest_membership_tickers client.
Proof.
  intros E. unfold _get_latest_membership_tickers. rewrite E. reflexivity.
Qed.

Lemma industry_membership_insert client w :
  (forall rows, w <> Into_industry_membership rows) ->
  industry_membership (insert client w) = industry_membership client.
Proof.
  intros H. unfold industry_membership, insert. simpl.
  rewrite flat_map_app. simpl.
  destruct w; try (rewrite app_nil_r; reflexivity).
  exfalso. exact (H rows eq_refl).
Qed.

(** With force off, a ticker that has an as-of date stored ends the loop:
    the comparison raises outside the try. *)
Lemma tickers_loop_stored ticker_info tkr rest asof now client batch total
      out L :
  MarketCap.usable tkr = true ->
  snd (get_state client "yfinance" "fact_market_cap" (strip tkr)) = Some L ->
  exists e,
    MarketCap.tickers_loop ticker_info (tkr :: rest) asof now false client
                           batch total out
    = (client, batch, total, out, Some e).
Proof.
  unfold MarketCap.usable. intros U HL. cbn [MarketCap.tickers_loop].
  cbv zeta.
  destruct (String.eqb (strip tkr) "" || String.eqb (strip tkr) "nan")%bool;
    [discriminate|].
  destruct (@skips_stored client "fact_market_cap" (strip tkr) asof L HL)
    as [e E].
  rewrite E. eauto.
Qed.

Lemma tickers_loop_unusable ticker_info tkr rest asof now force client batch
      total out :
  MarketCap.usable tkr = false ->
  MarketCap.tickers_loop ticker_info (tkr :: rest) asof now force client
                         batch total out
  = MarketCap.tickers_loop ticker_info rest asof now force client
                           batch total out.
Proof.
  unfold MarketCap.usable. intros U. cbn [MarketCap.tickers_loop]. cbv zeta.
  destruct (String.eqb (strip tkr) "" || String.eqb (strip tkr) "nan")%bool;
    [reflexivity|discriminate].
Qed.

(** What the market-cap loop adds: a state row and a batch row per ticker
    it got a market cap for.  With force off it writes state rows only for
    keys that had no as-of date stored. *)
Lemma tickers_loop_rows ticker_info tickers asof now force :
  forall client batch total out,
    let result :=
      MarketCap.tickers_loop ticker_info tickers asof now force client
                             batch total out in
    exists states rows,
      journal (fst (fst (fst (fst result)))) =
        journal client ++ map Into_ingest_state states /\
      snd (fst (fst (fst result))) = batch ++ rows /\
      snd (fst (fst result)) = (total + List.length rows)%nat /\
      map key states = map mc_ticker rows /\
      Forall (fun s => source s = "yfinance" /\
                       target s = "fact_market_cap" /\
                       last_ts s = None /\
                       last_asof_date s = Some asof) states /\
      Forall (fun r => mc_asof_date r = asof /\
                       mc_source r = "yfinance_info" /\
                       mc_ingested_at r = now /\
                       identifies (mc_ticker r) /\
                       exists t, In t tickers /\ mc_ticker r = strip t) rows /\
      (force = false ->
       Forall (fun s => snd (get_state client "yfinance" "fact_market_cap"
                                       (key s)) = None) states) /\
      (force = true -> snd result = None).
Proof.
  induction tickers as [|t rest IH]; intros client batch total out.
  - exists [], []. simpl. rewrite !app_nil_r, Nat.add_0_r. auto 9.
  - cbn zeta. cbn [MarketCap.tickers_loop].
    assert (Skip : forall b n o,
      let result :=
        MarketCap.tickers_loop ticker_info rest asof now force client b n o in
      exists states rows,
        journal (fst (fst (fst (fst result)))) =
          journal client ++ map Into_ingest_state states /\
        snd (fst (fst (fst result))) = b ++ rows /\
        snd (fst (fst result)) = (n + List.length rows)%nat /\
        map key states = map mc_ticker rows /\
        Forall (fun s => source s = "yfinance" /\
                         target s = "fact_market_cap" /\
                         last_ts s = None /\
                         last_asof_date s = Some asof) states /\
        Forall (fun r => mc_asof_date r = asof /\
                         mc_source r = "yfinance_info" /\
                         mc_ingested_at r = now /\
                         identifies (mc_ticker r) /\
                         exists t', In t' (t :: rest) /\
                                    mc_ticker r = strip t') rows /\
        (force = false ->
         Forall (fun s => snd (get_state client "yfinance" "fact_market_cap"
                                         (key s)) = None) states) /\
        (force = true -> snd result = None)).
    { intros b n o.
      destruct (IH client b n o) as (states & rows & J & B & N & K & F & R & W & C).
      exists states, rows. cbv zeta in *.
      split; [exact J|]. split; [exact B|]. split; [exact N|].
      split; [exact K|]. split; [exact F|].
      split; [|split; [exact W|exact C]].
      eapply Forall_impl; [|exact R]. cbv beta.
      intros r (A1 & A2 & A3 & A4 & t' & A5 & A6).
      split; [exact A1|]. split; [exact A2|]. split; [exact A3|].
      split; [exact A4|]. exists t'. split; [right; exact A5|exact A6]. }
    destruct (String.eqb (strip t) "" || String.eqb (strip t) "nan")%bool
      eqn:U; [apply Skip|].
    destruct (skips_cases client "fact_market_cap" (strip t) asof force)
      as [[Free E]|(L & e & F & HL & E)]; rewrite E.
    2:{ exists [], []. simpl. rewrite !app_nil_r, Nat.add_0_r.
        repeat (split; [solve [auto]|]). intros; congruence. }
    destruct (ticker_info (strip t)) as [e|i]; [apply Skip|].
    apply orb_false_iff in U. destruct U as [U1 U2].
    apply String.eqb_neq in U1, U2.
    destruct (marketCap i) as [x|s|]; [| |apply Skip].
    all: destruct (to_float _) as [e|cap]; [apply Skip|].
    all:
      match goal with
      | |- context [MarketCap.tickers_loop _ _ _ _ _ ?c (_ ++ [?r]) ?n ?o] =>
          destruct (IH c (batch ++ [r]) n o)
            as (states & rows & J & B & N & K & F & R & W & C);
          exists ({| source := "yfinance"; target := "fact_market_cap";
                     key := strip t; last_ts := None;
                     last_asof_date := Some asof;
                     updated_at := clock client |} :: states), (r :: rows)
      end;
      cbv zeta in *; rewrite J, B, N; simpl;
      rewrite <- !app_assoc; simpl;
      (split; [reflexivity|]);
      (split; [reflexivity|]);
      (split; [lia|]);
      (split; [f_equal; exact K|]);
      (split; [constructor; [simpl; auto|exact F]|]);
      (split;
       [ constructor;
         [ simpl; split; [reflexivity|]; split; [reflexivity|];
           split; [reflexivity|]; split; [split; assumption|];
           exists t; auto
         | eapply Forall_impl; [|exact R]; cbv beta;
           intros r' (A1 & A2 & A3 & A4 & t' & A5 & A6);
           split; [exact A1|]; split; [exact A2|]; split; [exact A3|];
           split; [exact A4|]; exists t'; split; [right; exact A5|exact A6] ]
       | ]);
      (split; [|exact C]);
      intros Off; destruct Free as [On|Free]; [congruence|];
      constructor; [exact Free|];
      specialize (W Off); eapply Forall_impl; [|exact W]; cbv beta;
      intros s' Hs';
      destruct (String.eqb (key s') (strip t)) eqn:Q;
      [ apply String.eqb_eq in Q; rewrite Q; exact Free
      | rewrite get_state_set_state_other in Hs'; [exact Hs'|];
        intros [= Q']; rewrite Q', String.eqb_refl in Q; discriminate ].
Qed.

(** With force off the loop leaves every stored as-of date as it is. *)
Lemma tickers_loop_keeps ticker_info tickers asof now k L :
  forall client batch total out,
    snd (get_state client "yfinance" "fact_market_cap" k) = Some L ->
    get_state
      (fst (fst (fst (fst (MarketCap.tickers_loop ticker_info tickers asof
                             now false client batch total out)))))
      "yfinance" "fact_market_cap" k
    = get_state client "yfinance" "fact_market_cap" k.
Proof.
  induction tickers as [|t rest IH]; intros client batch total out HL;
    [reflexivity|].
  cbn [MarketCap.tickers_loop]. cbv zeta.
  destruct (String.eqb (strip t) "" || String.eqb (strip t) "nan")%bool;
    [apply IH; exact HL|].
  destruct (skips_cases client "fact_market_cap" (strip t) asof false)
    as [[Free E]|(L' & e & F & HL' & E)]; rewrite E; [|reflexivity].
  destruct Free as [On|Free]; [discriminate|].
  destruct (ticker_info (strip t)) as [e|i]; [apply IH; exact HL|].
  assert (Other : forall ts a,
             get_state (set_state client "yfinance" "fact_market_cap"
                                  (strip t) ts a)
                       "yfinance" "fact_market_cap" k
             = get_state client "yfinance" "fact_market_cap" k).
  { intros ts a. apply get_state_set_state_other.
    intros [= Q]. rewrite Q, Free in HL. discriminate. }
  destruct (marketCap i) as [x|s|]; [| |apply IH; exact HL].
  all: destruct (to_float _) as [e|cap]; [apply IH; exact HL|].
  all: rewrite IH; [apply Other|rewrite Other; exact HL].
Qed.

(** The writes of a run of the market-cap job: the state rows of the
    loop, and then the batch when the loop was not left by an exception. *)
Lemma ingest_market_cap_writes ticker_info now client tickers asof_date
      force :
  let asof :=
    match asof_date with
    | Some a => a
    | None => DimIndustry.start_of_day now
    end in
  let result :=
    MarketCap.ingest_market_cap ticker_info now client tickers asof_date
                                force in
  exists states batch,
    map key states = map mc_ticker batch /\
    Forall (fun s => source s = "yfinance" /\
                     target s = "fact_market_cap" /\
                     last_ts s = None /\
                     last_asof_date s = Some asof) states /\
    Forall (fun r => mc_asof_date r = asof /\
                     mc_source r = "yfinance_info" /\
                     mc_ingested_at r = now /\
                     identifies (mc_ticker r) /\
                     exists t, In t (MarketCap.requested client tickers) /\
                               mc_ticker r = strip t) batch /\
    (force = false ->
     Forall (fun s => snd (get_state client "yfinance" "fact_market_cap"
                                     (key s)) = None) states) /\
    ((snd result = Returns (List.length batch) /\
      journal (fst (fst result)) =
        journal client ++ map Into_ingest_state states
        ++ match batch with [] => [] | _ => [Into_fact_market_cap batch] end)
     \/
     (exists e,
         snd result = Raises e /\ force = false /\
         journal (fst (fst result)) =
           journal client ++ map Into_ingest_state states)).
Proof.
  intros asof result. subst result.
  unfold MarketCap.ingest_market_cap. cbv zeta.
  fold (MarketCap.requested client tickers). fold asof.
  destruct (@tickers_loop_rows ticker_info
              (MarketCap.requested client tickers) asof now force client
              [] 0%nat [])
    as (states & rows & J & B & N & K & F & R & W & C).
  cbv zeta in *.
  destruct (MarketCap.tickers_loop _ _ _ _ _ _ _ _ _)
    as [[[[c b] n] o] raised].
  simpl in *. subst b n. exists states, rows.
  split; [exact K|]. split; [exact F|]. split; [exact R|].
  split; [exact W|].
  destruct raised as [e|].
  - right. exists e. cbn [fst snd]. split; [reflexivity|].
    split; [|exact J].
    destruct force; [|reflexivity]. discriminate (C eq_refl).
  - left. destruct rows as [|r rows]; cbn [fst snd].
    + rewrite app_nil_r. auto.
    + unfold insert. simpl. rewrite J, <- app_assoc. auto.
Qed.

End SnapshotPerTicker.

(** ** The rows of the industry jobs *)

Section RowsOfSnapshots.
Import Py Common Facts.
Context {rt : Runtime}.

Lemma journal_dim_industry_written client rows asof :
  journal (DimIndustry.written client rows asof) =
  journal client
  ++ match rows with [] => [] | _ => [Into_dim_industry rows] end
  ++ [Common.all_row "dim_industry" asof (clock client)].
Proof.
  unfold DimIndustry.written, set_state, insert, all_row.
  destruct rows; simpl; [reflexivity|].
  rewrite <- app_assoc. reflexivity.
Qed.

Lemma journal_membership_written client rows asof :
  journal (Membership.written client rows asof) =
  journal client
  ++ match rows with [] => [] | _ => [Into_industry_membership rows] end
  ++ [Common.all_row "industry_membership" asof (clock client)].
Proof.
  unfold Membership.written, set_state, insert, all_row.
  destruct rows; simpl; [reflexivity|].
  rewrite <- app_assoc. reflexivity.
Qed.

(** The rows of a run are the rows of its sectors, each on its own. *)
Lemma sectors_loop_rows industries sectors asof now :
  fst (DimIndustry.sectors_loop industries sectors asof now) =
  flat_map (fun s => fst (DimIndustry.sector industries s asof now)) sectors.
Proof.
  induction sectors as [|s rest IH]; [reflexivity|]. simpl.
  destruct (DimIndustry.sector industries s asof now) as [rows out].
  destruct (DimIndustry.sectors_loop industries rest asof now) as [rows' out'].
  simpl in *. rewrite IH. reflexivity.
Qed.

Lemma sectors_loop_out industries sectors asof now :
  snd (DimIndustry.sectors_loop industries sectors asof now) =
  flat_map (fun s => snd (DimIndustry.sector industries s asof now)) sectors.
Proof.
  induction sectors as [|s rest IH]; [reflexivity|]. simpl.
  destruct (DimIndustry.sector industries s asof now) as [rows out].
  destruct (DimIndustry.sectors_loop industries rest asof now) as [rows' out'].
  simpl in *. rewrite IH. reflexivity.
Qed.

Lemma industries_loop_rows top dim asof now :
  fst (Membership.industries_loop top dim asof now) =
  flat_map
    (fun g => fst (Membership.industry top (fst (fst g)) (snd (fst g))
                                       asof now))
    dim.
Proof.
  induction dim as [|[[s i] n] rest IH]; [reflexivity|]. simpl.
  destruct (Membership.industry top s i asof now) as [rows out].
  destruct (Membership.industries_loop top rest asof now) as [rows' out'].
  simpl in *. rewrite IH. reflexivity.
Qed.

Lemma industries_loop_out top dim asof now :
  snd (Membership.industries_loop top dim asof now) =
  flat_map
    (fun g => snd (Membership.industry top (fst (fst g)) (snd (fst g))
                                       asof now))
    dim.
Proof.
  induction dim as [|[[s i] n] rest IH]; [reflexivity|]. simpl.
  destruct (Membership.industry top s i asof now) as [rows out].
  destruct (Membership.industries_loop top rest asof now) as [rows' out'].
  simpl in *. rewrite IH. reflexivity.
Qed.

Lemma dim_row_of_sound sector_key cols k n s w asof now r row :
  In row (DimIndustry.row_of sector_key cols k n s w asof now r) ->
  di_sector_key row = sector_key /\ di_asof_date row = asof /\
  di_ingested_at row = now /\ identifies (di_industry_key row).
Proof.
  unfold DimIndustry.row_of.
  destruct (String.eqb _ "" || String.eqb _ "nan")%bool eqn:E; [intros []|].
  intros [<-|[]]. simpl. apply orb_false_iff in E. destruct E as [E1 E2].
  apply String.eqb_neq in E1, E2. repeat split; assumption.
Qed.

Lemma sector_sound industries sector_key asof now row :
  In row (fst (DimIndustry.sector industries sector_key asof now)) ->
  di_sector_key row = sector_key /\ di_asof_date row = asof /\
  di_ingested_at row = now /\ identifies (di_industry_key row).
Proof.
  unfold DimIndustry.sector.
  destruct (industries sector_key) as [e|df]; [intros []|].
  destruct (none_or_empty df); [intros []|].
  destruct df as [df|]; [|intros []].
  destruct (reset_index df) as [e|df']; [intros []|].
  destruct (DimIndustry.last_col (String.eqb "name") _); [|intros []].
  destruct (DimIndustry.last_col (String.eqb "symbol") _); [|intros []].
  destruct (DimIndustry.last_col DimIndustry.is_weight _); [|intros []].
  cbn [fst]. intros H. apply in_flat_map in H. destruct H as (r & _ & H).
  eapply dim_row_of_sound. exact H.
Qed.

Lemma sectors_loop_sound industries sectors asof now row :
  In row (fst (DimIndustry.sectors_loop industries sectors asof now)) ->
  In (di_sector_key row) sectors /\ di_asof_date row = asof /\
  di_ingested_at row = now /\ identifies (di_industry_key row).
Proof.
  rewrite sectors_loop_rows. intros H. apply in_flat_map in H.
  destruct H as (s & Hs & H). apply sector_sound in H.
  destruct H as (<- & A & B & C). auto.
Qed.

Lemma membership_row_of_sound sector_key industry_key cols sym name asof now
      r row :
  In row (Membership.row_of sector_key industry_key cols sym name asof now r) ->
  im_sector_key row = sector_key /\ im_industry_key row = industry_key /\
  im_asof_date row = asof /\ im_ingested_at row = now /\
  im_source row = "yfinance_top_companies" /\ identifies (im_ticker row).
Proof.
  unfold Membership.row_of.
  destruct (String.eqb _ "" || String.eqb _ "nan")%bool eqn:E; [intros []|].
  intros [<-|[]]. simpl. apply orb_false_iff in E. destruct E as [E1 E2].
  apply String.eqb_neq in E1, E2. repeat split; assumption.
Qed.

Lemma industry_sound top sector_key industry_key asof now row :
  In row (fst (Membership.industry top sector_key industry_key asof now)) ->
  im_sector_key row = sector_key /\ im_industry_key row = industry_key /\
  im_asof_date row = asof /\ im_ingested_at row = now /\
  im_source row = "yfinance_top_companies" /\ identifies (im_ticker row).
Proof.
  unfold Membership.industry.
  destruct (top industry_key) as [e|df]; [intros []|].
  destruct (none_or_empty df); [intros []|].
  destruct df as [df|]; [|intros []].
  destruct (Membership.find_symbol df) as [e|[top' [sym|]]];
    [intros []| |intros []].
  cbn [fst]. intros H. apply in_flat_map in H. destruct H as (r & _ & H).
  eapply membership_row_of_sound. exact H.
Qed.

Lemma industries_loop_sound top dim asof now row :
  In row (fst (Membership.industries_loop top dim asof now)) ->
  In (im_sector_key row, im_industry_key row) (map fst dim) /\
  im_asof_date row = asof /\ im_ingested_at row = now /\
  im_source row = "yfinance_top_companies" /\ identifies (im_ticker row).
Proof.
  rewrite industries_loop_rows. intros H. apply in_flat_map in H.
  destruct H as ([[s i] n] & Hg & H). simpl in H. apply industry_sound in H.
  destruct H as (E1 & E2 & A & B & C & D).
  split; [|auto]. apply in_map_iff. exists (s, i, n).
  simpl. rewrite E1, E2. auto.
Qed.

(** A group of the industry dimension comes from one of its rows. *)
Lemma dim_groups_in rows s i :
  In (s, i) (map fst (Membership.dim_groups rows)) ->
  exists d, In d rows /\ di_sector_key d = s /\ di_industry_key d = i.
Proof.
  induction rows as [|r rest IH]; [intros []|].
  cbn [Membership.dim_groups map]. intros [E|H].
  - injection E as <- <-. exists r. split; [left; reflexivity|auto].
  - apply in_map_iff in H. destruct H as (g & Eg & Hg).
    apply filter_In in Hg. destruct Hg as [Hg _].
    destruct IH as (d & Hd & A & B).
    + apply in_map_iff. exists g. auto.
    + exists d. split; [right; exact Hd|auto].
Qed.

Lemma dims_in_written rows stamp asof tgt :
  dims_in (match rows with [] => [] | _ => [Into_dim_industry rows] end
           ++ [all_row tgt asof stamp]) = rows.
Proof. destruct rows; [reflexivity|]. simpl. rewrite !app_nil_r. reflexivity. Qed.

Lemma members_in_written rows stamp asof tgt :
  members_in (match rows with
              | [] => []
              | _ => [Into_industry_membership rows]
              end ++ [all_row tgt asof stamp]) = rows.
Proof. destruct rows; [reflexivity|]. simpl. rewrite !app_nil_r. reflexivity. Qed.

Lemma caps_in_written states batch :
  caps_in (map Into_ingest_state states
           ++ match batch with [] => [] | _ => [Into_fact_market_cap batch] end)
  = batch.
Proof.
  rewrite caps_in_app, caps_in_states. destruct batch; [reflexivity|]. simpl.
  rewrite app_nil_r. reflexivity.
Qed.

(** The writes of a run of the industry-dimension job: none when the
    run is left at the test, else the rows and the state row. *)
Lemma ingest_dim_industry_writes industries now client sectors asof_date
      force :
  let asof :=
    match asof_date with
    | Some a => a
    | None => DimIndustry.start_of_day now
    end in
  let sectors' :=
    match sectors with [] => DimIndustry.DEFAULT_SECTORS | _ => sectors end in
  let result :=
    DimIndustry.ingest_dim_industry industries now client sectors asof_date
                                    force in
  (exists e L,
      result = (client, [], Raises e) /\ force = false /\
      snd (get_state client "yfinance" "dim_industry" "ALL") = Some L)
  \/
  ((force = true \/
    snd (get_state client "yfinance" "dim_industry" "ALL") = None) /\
   exists rows,
     rows = fst (DimIndustry.sectors_loop industries sectors' asof now) /\
     snd (fst result) =
       snd (DimIndustry.sectors_loop industries sectors' asof now) /\
     snd result = Returns (List.length rows) /\
     journal (fst (fst result)) =
     journal client
     ++ match rows with [] => [] | _ => [Into_dim_industry rows] end
     ++ [all_row "dim_industry" asof (clock client)]).
Proof.
  intros asof sectors' result. subst result.
  change (DimIndustry.ingest_dim_industry industries now client sectors
                                          asof_date force)
    with (DimIndustry.ingest_dim_industry industries now client sectors
                                          (Some asof) force).
  destruct (skips_cases client "dim_industry" "ALL" asof force)
    as [[Free _]|(L & e & -> & HL & _)].
  - right. split; [exact Free|].
    rewrite ingest_dim_industry_not_skipped by exact Free.
    eexists. split; [reflexivity|]. cbn [fst snd].
    split; [reflexivity|]. split; [reflexivity|].
    apply journal_dim_industry_written.
  - left.
    destruct (@ingest_dim_industry_stored _ industries now client sectors
                (Some asof) L HL) as [e' E].
    exists e', L. auto.
Qed.

Lemma ingest_membership_writes top now client asof_date force :
  let asof :=
    match asof_date with
    | Some a => a
    | None => DimIndustry.start_of_day now
    end in
  let dim := Membership.dim_groups (dim_industry client) in
  let result :=
    Membership.ingest_membership top now client asof_date force in
  (exists e L,
      result = (client, [], Raises e) /\ force = false /\
      snd (get_state client "yfinance" "industry_membership" "ALL") = Some L)
  \/
  ((force = true \/
    snd (get_state client "yfinance" "industry_membership" "ALL") = None) /\
   exists rows,
     rows = fst (Membership.industries_loop top dim asof now) /\
     snd (fst result) = snd (Membership.industries_loop top dim asof now) /\
     snd result = Returns (List.length rows) /\
     journal (fst (fst result)) =
     journal client
     ++ match rows with [] => [] | _ => [Into_industry_membership rows] end
     ++ [all_row "industry_membership" asof (clock client)]).
Proof.
  intros asof dim result. subst result dim.
  change (Membership.ingest_membership top now client asof_date force)
    with (Membership.ingest_membership top now client (Some asof) force).
  destruct (skips_cases client "industry_membership" "ALL" asof force)
    as [[Free _]|(L & e & -> & HL & _)].
  - right. split; [exact Free|].
    rewrite ingest_membership_not_skipped by exact Free.
    eexists. split; [reflexivity|]. cbn [fst snd].
    split; [reflexivity|]. split; [reflexivity|].
    apply journal_membership_written.
  - left.
    destruct (@ingest_membership_stored _ top now client (Some asof) L HL)
      as [e' E].
    exists e', L. auto.
Qed.

End RowsOfSnapshots.

(** ** A key whose as-of date is stored, and running again *)

Section Rerun.
Import Py Common Facts.
Context {rt : Runtime}.

(** After a run of the industry-dimension job on a store whose state rows
    are stamped before its clock, the key ALL has an as-of date stored. *)
Lemma ingest_dim_industry_leaves_state industries now client sectors
      asof_date force :
  stamped_before client ->
  exists L,
    snd (get_state
           (fst (fst (DimIndustry.ingest_dim_industry industries now client
                        sectors asof_date force)))
           "yfinance" "dim_industry" "ALL") = Some L.
Proof.
  intros S.
  set (asof := match asof_date with
               | Some a => a
               | None => DimIndustry.start_of_day now
               end).
  change (DimIndustry.ingest_dim_industry industries now client sectors
                                          asof_date force)
    with (DimIndustry.ingest_dim_industry industries now client sectors
                                          (Some asof) force).
  destruct (skips_cases client "dim_industry" "ALL" asof force)
    as [[Free _]|(L & e & -> & HL & _)].
  - rewrite ingest_dim_industry_not_skipped by exact Free. cbn [fst].
    exists asof. apply dim_industry_written_current. exact S.
  - destruct (@ingest_dim_industry_stored _ industries now client sectors
                (Some asof) L HL) as [e' E].
    rewrite E. exists L. exact HL.
Qed.

Lemma ingest_membership_leaves_state top now client asof_date force :
  stamped_before client ->
  exists L,
    snd (get_state
           (fst (fst (Membership.ingest_membership top now client asof_date
                                                   force)))
           "yfinance" "industry_membership" "ALL") = Some L.
Proof.
  intros S.
  set (asof := match asof_date with
               | Some a => a
               | None => DimIndustry.start_of_day now
               end).
  change (Membership.ingest_membership top now client asof_date force)
    with (Membership.ingest_membership top now client (Some asof) force).
  destruct (skips_cases client "industry_membership" "ALL" asof force)
    as [[Free _]|(L & e & -> & HL & _)].
  - rewrite ingest_membership_not_skipped by exact Free. cbn [fst].
    exists asof. apply membership_written_current. exact S.
  - destruct (@ingest_membership_stored _ top now client (Some asof) L HL)
      as [e' E].
    rewrite E. exists L. exact HL.
Qed.

(** A run with force off after any run: left at the test, with the store
    as the first run left it. *)
Lemma ingest_dim_industry_rerun ind1 ind2 now1 now2 sectors1 sectors2
      client asof1 asof2 force :
  stamped_before client ->
  let client1 :=
    fst (fst (DimIndustry.ingest_dim_industry ind1 now1 client sectors1
                                              asof1 force)) in
  exists e,
    DimIndustry.ingest_dim_industry ind2 now2 client1 sectors2 asof2 false
    = (client1, [], Raises e).
Proof.
  intros S client1.
  destruct (@ingest_dim_industry_leaves_state ind1 now1 client sectors1
              asof1 force S) as [L HL].
  exact (@ingest_dim_industry_stored _ ind2 now2 client1 sectors2 asof2 L HL).
Qed.

Lemma ingest_membership_rerun top1 top2 now1 now2 client asof1 asof2 force :
  stamped_before client ->
  let client1 :=
    fst (fst (Membership.ingest_membership top1 now1 client asof1 force)) in
  exists e,
    Membership.ingest_membership top2 now2 client1 asof2 false
    = (client1, [], Raises e).
Proof.
  intros S client1.
  destruct (@ingest_membership_leaves_state top1 now1 client asof1 force S)
    as [L HL].
  exact (@ingest_membership_stored _ top2 now2 client1 asof2 L HL).
Qed.

(** With force off the market-cap loop does not call the provider for a
    ticker that has an as-of date stored. *)
Lemma tickers_loop_ext info1 info2 tickers asof now t L :
  (forall t', t' <> t -> info1 t' = info2 t') ->
  forall client batch total out,
    snd (get_state client "yfinance" "fact_market_cap" t) = Some L ->
    MarketCap.tickers_loop info1 tickers asof now false client batch total out
    = MarketCap.tickers_loop info2 tickers asof now false client batch total
                             out.
Proof.
  intros Same.
  induction tickers as [|tkr rest IH]; intros client batch total out HL;
    [reflexivity|].
  cbn [MarketCap.tickers_loop]. cbv zeta.
  destruct (String.eqb (strip tkr) "" || String.eqb (strip tkr) "nan")%bool;
    [apply IH; exact HL|].
  destruct (skips_cases client "fact_market_cap" (strip tkr) asof false)
    as [[Free E]|(L' & e & F & HL' & E)]; rewrite E; [|reflexivity].
  destruct Free as [On|Free]; [discriminate|].
  assert (N : strip tkr <> t).
  { intros Q. rewrite Q, HL in Free. discriminate. }
  rewrite (Same _ N).
  destruct (info2 (strip tkr)) as [e|i]; [apply IH; exact HL|].
  destruct (marketCap i) as [x|s|]; [| |apply IH; exact HL].
  all: destruct (to_float _) as [e|cap]; [apply IH; exact HL|].
  all: apply IH; rewrite get_state_set_state_other; [exact HL|];
    intros [= Q]; apply N; symmetry; exact Q.
Qed.

(** The market-cap loop with force off on a store with the state table
    that an earlier loop over the same tickers left, when the earlier loop
    got a market cap for every ticker it asked for: it ends where it
    starts. *)
Lemma tickers_loop_again info1 info2 tickers asof1 asof2 now1 now2 :
  forall client batch1 total1 out1 client1 batch total out,
    stamped_before client ->
    (forall t, In t tickers -> MarketCap.usable t = true ->
               MarketCap.has_market_cap info1 t) ->
    ingest_state client1 =
    ingest_state
      (fst (fst (fst (fst (MarketCap.tickers_loop info1 tickers asof1 now1
                             false client batch1 total1 out1))))) ->
    exists raised,
      MarketCap.tickers_loop info2 tickers asof2 now2 false client1 batch
                             total out
      = (client1, batch, total, out, raised).
Proof.
  induction tickers as [|t rest IH];
    intros client batch1 total1 out1 client1 batch total out S H E.
  - exists None. reflexivity.
  - destruct (MarketCap.usable t) eqn:U.
    { assert (Stored : exists L,
                 snd (get_state client1 "yfinance" "fact_market_cap"
                                (strip t)) = Some L).
      { rewrite (get_state_same_states _ _ _ _ _ E).
        cbn [MarketCap.tickers_loop]. cbv zeta.
        pose proof U as U'. unfold MarketCap.usable in U'.
        destruct (String.eqb (strip t) "" || String.eqb (strip t) "nan")%bool;
          [discriminate|].
        destruct (skips_cases client "fact_market_cap" (strip t) asof1 false)
          as [[Free Q]|(L' & e & F & HL' & Q)]; rewrite Q;
          [|exists L'; exact HL'].
        destruct Free as [On|Free]; [discriminate|].
        destruct (H t (or_introl eq_refl) U) as (i & cap & Hi & Hc).
        rewrite Hi.
        assert (Set_ :
          snd (get_state (set_state client "yfinance" "fact_market_cap"
                                    (strip t) None (Some asof1))
                         "yfinance" "fact_market_cap" (strip t))
          = Some asof1)
          by (apply get_state_set_state_asof; exact S).
        destruct (marketCap i) as [x|s|]; [| |discriminate Hc].
        all: rewrite Hc; exists asof1;
          rewrite (@tickers_loop_keeps _ info1 rest asof1 now1 (strip t)
                     asof1) by exact Set_;
          exact Set_. }
      destruct Stored as [L HL].
      destruct (@tickers_loop_stored _ info2 t rest asof2 now2 client1 batch
                  total out L U HL) as [e Q].
      exists (Some e). exact Q. }
    rewrite tickers_loop_unusable in E by exact U.
    rewrite tickers_loop_unusable by exact U.
    apply (IH client batch1 total1 out1); [exact S| |exact E].
    intros t' Hin. apply H. right. exact Hin.
Qed.

Lemma ingest_market_cap_rerun info1 info2 now1 now2 client tickers
      asof1 asof2 :
  stamped_before client ->
  (forall t, In t (MarketCap.requested client tickers) ->
             MarketCap.usable t = true ->
             MarketCap.has_market_cap info1 t) ->
  let client1 :=
    fst (fst (MarketCap.ingest_market_cap info1 now1 client tickers asof1
                                          false)) in
  fst (MarketCap.ingest_market_cap info2 now2 client1 tickers asof2 false)
  = (client1, []).
Proof.
  intros S H client1.
  set (a1 := match asof1 with
             | Some a => a
             | None => DimIndustry.start_of_day now1
             end).
  set (a2 := match asof2 with
             | Some a => a
             | None => DimIndustry.start_of_day now2
             end).
  (* the first run ends with the batch, which leaves the state table and the
     membership table as the loop left them *)
  assert (P : ingest_state client1 =
              ingest_state
                (fst (fst (fst (fst (MarketCap.tickers_loop info1
                                       (MarketCap.requested client tickers)
                                       a1 now1 false client [] 0%nat [])))))
              /\ industry_membership client1 = industry_membership client).
  { subst client1. unfold MarketCap.ingest_market_cap. cbv zeta.
    fold (MarketCap.requested client tickers). fold a1.
    destruct (@tickers_loop_rows _ info1 (MarketCap.requested client tickers)
                a1 now1 false client [] 0%nat [])
      as (states & rows & J & _).
    cbv zeta in J.
    destruct (MarketCap.tickers_loop _ _ _ _ _ _ _ _ _)
      as [[[[c b] n] o] raised].
    cbn [fst snd] in *.
    assert (M : industry_membership c = industry_membership client).
    { destruct (@tables_after _ _ _ J) as (_ & M & _).
      rewrite M, members_in_states. apply app_nil_r. }
    destruct raised as [e|]; cbn [fst]; [auto|].
    destruct b; cbn [fst]; [auto|]. split.
    - apply ingest_state_insert. discriminate.
    - rewrite industry_membership_insert by discriminate. exact M. }
  destruct P as (St & Mem).
  assert (R : MarketCap.requested client1 tickers
              = MarketCap.requested client tickers).
  { unfold MarketCap.requested. destruct tickers; [|reflexivity].
    apply latest_membership_tickers_eq. exact Mem. }
  destruct (@tickers_loop_again info1 info2
              (MarketCap.requested client tickers) a1 a2 now1 now2 client
              [] 0%nat [] client1 [] 0%nat [] S H St) as [raised Again].
  unfold MarketCap.ingest_market_cap. cbv zeta.
  fold (MarketCap.requested client1 tickers). fold a2.
  rewrite R, Again. destruct raised; reflexivity.
Qed.

End Rerun.

Section StoredKey.
Import Py Common Facts.
Context {rt : Runtime}.

(** What a run of the market-cap job with force off writes has nothing
    for a ticker whose as-of date is stored. *)
Lemma ingest_market_cap_stored_key ticker_info now client tickers asof_date
      t L :
  snd (get_state client "yfinance" "fact_market_cap" t) = Some L ->
  exists ws,
    journal (fst (fst (MarketCap.ingest_market_cap ticker_info now client
                         tickers asof_date false)))
    = journal client ++ ws /\
    Forall (fun s => key s <> t) (states_in ws) /\
    Forall (fun r => mc_ticker r <> t) (caps_in ws).
Proof.
  intros HL.
  destruct (@ingest_market_cap_writes _ ticker_info now client tickers
              asof_date false)
    as (states & batch & K & _ & _ & W & Ends).
  cbv zeta in Ends.
  specialize (W eq_refl).
  assert (Ks : Forall (fun s => key s <> t) states).
  { eapply Forall_impl; [|exact W]. cbv beta. intros s Hs Q.
    rewrite Q, HL in Hs. discriminate. }
  assert (Kb : Forall (fun r => mc_ticker r <> t) batch).
  { apply Forall_forall. intros r Hr.
    assert (In (mc_ticker r) (map key states))
      by (rewrite K; apply in_map; exact Hr).
    apply in_map_iff in H. destruct H as (s & Q & Hs). rewrite <- Q.
    rewrite Forall_forall in Ks. apply Ks. exact Hs. }
  destruct Ends as [[_ J]|(e & _ & _ & J)].
  - eexists. split; [exact J|].
    rewrite states_in_app, caps_in_app, states_in_states, caps_in_states.
    destruct batch as [|r batch]; simpl; rewrite ?app_nil_r; auto.
  - eexists. split; [exact J|].
    rewrite states_in_states, caps_in_states. auto.
Qed.

End StoredKey.

(** C1 (as amended).  With force off, a key whose stored [last_asof_date]
    [L] is at or after the requested as-of date is not ingested by the
    three snapshot jobs: the industry-dimension and the membership job
    leave the store as it was and print nothing, whatever the provider
    would answer; the market-cap job does not call the provider for the
    ticker and writes no row and no state row for it.  A second run for
    the same as-of date with force off writes nothing for the
    industry-dimension and the membership job, and for the market-cap job
    when the first run got a market cap for every requested ticker. *)
Theorem snapshot_skip_and_rerun {rt : Py.Runtime}
    (client : Common.clickhouse) (asof : Z) :
  Common.stamped_before client ->
  (forall industries now sectors L,
      snd (Common.get_state client "yfinance" "dim_industry" "ALL") = Some L ->
      asof <= L ->
      fst (DimIndustry.ingest_dim_industry industries now client sectors
                                           (Some asof) false)
      = (client, []))
  /\
  (forall top now L,
      snd (Common.get_state client "yfinance" "industry_membership" "ALL")
      = Some L ->
      asof <= L ->
      fst (Membership.ingest_membership top now client (Some asof) false)
      = (client, []))
  /\
  (forall info1 info2 now tickers t L,
      snd (Common.get_state client "yfinance" "fact_market_cap" t) = Some L ->
      asof <= L ->
      (forall t', t' <> t -> info1 t' = info2 t') ->
      let result :=
        MarketCap.ingest_market_cap info1 now client tickers (Some asof)
                                    false in
      result =
        MarketCap.ingest_market_cap info2 now client tickers (Some asof)
                                    false /\
      exists ws,
        Common.journal (fst (fst result)) = Common.journal client ++ ws /\
        Forall (fun s => Common.key s <> t) (Facts.states_in ws) /\
        Forall (fun r => Common.mc_ticker r <> t) (Facts.caps_in ws))
  /\
  (forall ind1 ind2 now1 now2 sectors1 sectors2,
      let client1 :=
        fst (fst (DimIndustry.ingest_dim_industry ind1 now1 client sectors1
                                                  (Some asof) false)) in
      fst (DimIndustry.ingest_dim_industry ind2 now2 client1 sectors2
                                           (Some asof) false)
      = (client1, []))
  /\
  (forall top1 top2 now1 now2,
      let client1 :=
        fst (fst (Membership.ingest_membership top1 now1 client
                                               (Some asof) false)) in
      fst (Membership.ingest_membership top2 now2 client1 (Some asof) false)
      = (client1, []))
  /\
  (forall info1 info2 now1 now2 tickers,
      (forall t, In t (MarketCap.requested client tickers) ->
                 MarketCap.usable t = true ->
                 MarketCap.has_market_cap info1 t) ->
      let client1 :=
        fst (fst (MarketCap.ingest_market_cap info1 now1 client tickers
                                              (Some asof) false)) in
      fst (MarketCap.ingest_market_cap info2 now2 client1 tickers
                                       (Some asof) false)
      = (client1, [])).
Proof.
  intros S. repeat apply conj.
  - intros industries now sectors L HL _.
    destruct (@ingest_dim_industry_stored _ industries now client sectors
                (Some asof) L HL) as [e E].
    rewrite E. reflexivity.
  - intros top now L HL _.
    destruct (@ingest_membership_stored _ top now client (Some asof) L HL)
      as [e E].
    rewrite E. reflexivity.
  - intros info1 info2 now tickers t L HL _ Same result. subst result.
    split.
    + unfold MarketCap.ingest_market_cap. cbv zeta.
      rewrite (@tickers_loop_ext _ info1 info2 _ asof now t L Same) by exact HL.
      reflexivity.
    + eapply ingest_market_cap_stored_key. exact HL.
  - intros ind1 ind2 now1 now2 sectors1 sectors2 client1.
    destruct (@ingest_dim_industry_rerun _ ind1 ind2 now1 now2 sectors1
                sectors2 client (Some asof) (Some asof) false S) as [e E].
    cbv zeta in E. subst client1. rewrite E. reflexivity.
  - intros top1 top2 now1 now2 client1.
    destruct (@ingest_membership_rerun _ top1 top2 now1 now2 client
                (Some asof) (Some asof) false S) as [e E].
    cbv zeta in E. subst client1. rewrite E. reflexivity.
  - intros info1 info2 now1 now2 tickers H.
    apply ingest_market_cap_rerun; assumption.
Qed.

(** The theorem at work: a store that holds 2024-03-01 for the key ALL and
    a run asked for 2024-03-01; and the market-cap job run twice from an
    empty store with a provider that answers. *)
Lemma snapshot_skip_and_rerun_witness :
  Common.stamped_before
    (Examples.ingested_for "dim_industry" "ALL" Examples.mar_1) /\
  fst (DimIndustry.ingest_dim_industry (rt := Examples.runtime)
         Examples.one_sector Examples.jun_1
         (Examples.ingested_for "dim_industry" "ALL" Examples.mar_1)
         ["energy"] (Some Examples.mar_1) false)
  = (Examples.ingested_for "dim_industry" "ALL" Examples.mar_1, []) /\
  Common.stamped_before Examples.empty /\
  let client1 :=
    fst (fst (MarketCap.ingest_market_cap (rt := Examples.runtime)
                Examples.capped Examples.jun_1 Examples.empty ["AAA"]
                (Some Examples.mar_1) false)) in
  Common.fact_market_cap client1 <> [] /\
  fst (MarketCap.ingest_market_cap (rt := Examples.runtime)
         Examples.capped Examples.jun_1 client1 ["AAA"]
         (Some Examples.mar_1) false)
  = (client1, []).
Proof.
  assert (S : Common.stamped_before
                (Examples.ingested_for "dim_industry" "ALL" Examples.mar_1)).
  { repeat constructor. }
  assert (S0 : Common.stamped_before Examples.empty) by constructor.
  split; [exact S|]. split; [|split; [exact S0|]].
  - exact (proj1 (snapshot_skip_and_rerun (rt := Examples.runtime)
                    Examples.mar_1 S)
                 Examples.one_sector Examples.jun_1 ["energy"] Examples.mar_1
                 eq_refl (Z.le_refl _)).
  - split; [discriminate|].
    destruct (snapshot_skip_and_rerun (rt := Examples.runtime)
                Examples.mar_1 S0) as (_ & _ & _ & _ & _ & H).
    apply H. intros t [<-|[]] _.
    exists {| Py.marketCap := Py.Num 5%float; Py.currency := Py.Text "USD" |}.
    exists 5%float. split; reflexivity.
Defined.

(** C1, as first stated, fails for the market-cap job: the first run could
    not fetch the ticker and recorded no state for it, so the second run
    for the same as-of date fetches it, writes a row and returns 1. *)
Lemma market_cap_rerun_writes_after_failure :
  let first :=
    MarketCap.ingest_market_cap (rt := Examples.runtime)
      Examples.unreachable Examples.jun_1 Examples.empty ["AAA"]
      (Some Examples.mar_1) false in
  let second :=
    MarketCap.ingest_market_cap (rt := Examples.runtime)
      Examples.capped Examples.jun_1 (fst (fst first)) ["AAA"]
      (Some Examples.mar_1) false in
  snd first = Py.Returns 0%nat /\
  fst (fst first) = Examples.empty /\
  snd second = Py.Returns 1%nat /\
  List.length (Common.fact_market_cap (fst (fst second))) = 1%nat /\
  List.length (Common.ingest_state (fst (fst second))) = 1%nat.
Proof. vm_compute. repeat split. Qed.

(** ** The ALL key of the industry jobs *)

(** C10.  A run of the industry-dimension or of the membership job that
    gets past the test of the stored as-of date ends by appending the
    state row that sets the [last_asof_date] of the key ALL to the
    requested as-of date, whatever the fetches did: when every fetch
    raised, that state row is the only thing written and the run returns
    0.  A later run for the same as-of date with force off is not skipped
    with 0: the stored as-of date is read back without tzinfo, its
    comparison with the requested one raises, and the exception leaves
    the run with the store as it is. *)
Theorem all_state_row_written_even_without_rows {rt : Py.Runtime}
    (client : Common.clickhouse) (asof : Z) (force : bool) :
  Common.stamped_before client ->
  (forall industries now sectors,
      force = true \/
      snd (Common.get_state client "yfinance" "dim_industry" "ALL") = None ->
      let run :=
        DimIndustry.ingest_dim_industry industries now client sectors
                                        (Some asof) force in
      let client1 := fst (fst run) in
      (exists rows,
          Common.journal client1 =
          Common.journal client
          ++ match rows with [] => [] | _ => [Common.Into_dim_industry rows] end
          ++ [Common.all_row "dim_industry" asof (Common.clock client)] /\
          snd run = Py.Returns (List.length rows)) /\
      ((forall s, exists e, industries s = Py.Raises e) ->
       Common.journal client1 =
       Common.journal client
       ++ [Common.all_row "dim_industry" asof (Common.clock client)] /\
       snd run = Py.Returns 0%nat) /\
      snd (Common.get_state client1 "yfinance" "dim_industry" "ALL")
      = Some asof /\
      (forall industries' now' sectors',
          exists e,
            DimIndustry.ingest_dim_industry industries' now' client1 sectors'
                                            (Some asof) false
            = (client1, [], Py.Raises e)))
  /\
  (forall top now,
      force = true \/
      snd (Common.get_state client "yfinance" "industry_membership" "ALL")
      = None ->
      let run :=
        Membership.ingest_membership top now client (Some asof) force in
      let client1 := fst (fst run) in
      (exists rows,
          Common.journal client1 =
          Common.journal client
          ++ match rows with
             | [] => []
             | _ => [Common.Into_industry_membership rows]
             end
          ++ [Common.all_row "industry_membership" asof (Common.clock client)] /\
          snd run = Py.Returns (List.length rows)) /\
      ((forall i, exists e, top i = Py.Raises e) ->
       Common.journal client1 =
       Common.journal client
       ++ [Common.all_row "industry_membership" asof (Common.clock client)] /\
       snd run = Py.Returns 0%nat) /\
      snd (Common.get_state client1 "yfinance" "industry_membership" "ALL")
      = Some asof /\
      (forall top' now',
          exists e,
            Membership.ingest_membership top' now' client1 (Some asof) false
            = (client1, [], Py.Raises e))).
Proof.
  intros S. split.
  - intros industries now sectors N run client1.
    subst client1 run.
    pose proof (@ingest_dim_industry_not_skipped _ industries now client
                  sectors asof force N) as E.
    cbv zeta in E.
    assert (Stored :
      snd (Common.get_state
             (fst (fst (DimIndustry.ingest_dim_industry industries now client
                          sectors (Some asof) force)))
             "yfinance" "dim_industry" "ALL") = Some asof).
    { rewrite E. cbn [fst snd].
      apply dim_industry_written_current. exact S. }
    repeat apply conj.
    + eexists. rewrite E. cbn [fst snd]. split; [|reflexivity].
      apply journal_dim_industry_written.
    + intros F. rewrite E. cbn [fst snd].
      rewrite journal_dim_industry_written.
      rewrite (@sectors_loop_all_raise _ industries) by (intros s _; apply F).
      split; reflexivity.
    + exact Stored.
    + intros industries' now' sectors'.
      eapply ingest_dim_industry_stored. exact Stored.
  - intros top now N run client1.
    subst client1 run.
    pose proof (@ingest_membership_not_skipped _ top now client asof force N)
      as E.
    cbv zeta in E.
    assert (Stored :
      snd (Common.get_state
             (fst (fst (Membership.ingest_membership top now client
                          (Some asof) force)))
             "yfinance" "industry_membership" "ALL") = Some asof).
    { rewrite E. cbn [fst snd].
      apply membership_written_current. exact S. }
    repeat apply conj.
    + eexists. rewrite E. cbn [fst snd]. split; [|reflexivity].
      apply journal_membership_written.
    + intros F. rewrite E. cbn [fst snd].
      rewrite journal_membership_written.
      rewrite (@industries_loop_all_raise _ top) by (intros g _; apply F).
      split; reflexivity.
    + exact Stored.
    + intros top' now'.
      eapply ingest_membership_stored. exact Stored.
Qed.

(** The theorem at work: from an empty store, a run in which no sector can
    be fetched, and the same run again. *)
Lemma all_state_row_written_even_without_rows_witness :
  Common.stamped_before Examples.empty /\
  let run :=
    DimIndustry.ingest_dim_industry (rt := Examples.runtime)
      Examples.unreachable Examples.jun_1 Examples.empty []
      (Some Examples.mar_1) false in
  (Common.journal (fst (fst run)) =
   [Common.all_row "dim_industry" Examples.mar_1 0] /\
   snd run = Py.Returns 0%nat) /\
  exists e,
    DimIndustry.ingest_dim_industry (rt := Examples.runtime)
      Examples.unreachable Examples.jun_1 (fst (fst run)) []
      (Some Examples.mar_1) false
    = (fst (fst run), [], Py.Raises e).
Proof.
  assert (S : Common.stamped_before Examples.empty) by constructor.
  split; [exact S|].
  destruct (proj1 (all_state_row_written_even_without_rows
                     (rt := Examples.runtime) Examples.mar_1 false S)
                  Examples.unreachable Examples.jun_1 []
                  (or_intror eq_refl))
    as (_ & Only & _ & Again).
  split.
  - exact (Only (fun s => ex_intro _ "HTTP Error 404" eq_refl)).
  - exact (Again Examples.unreachable Examples.jun_1 []).
Defined.

(** ** The fetch window of the price job *)

Section FetchWindow.
Import Py Common StockPrices.

Lemma widen_min client chunk interval overlap_days :
  forall earliest,
    widen client chunk interval overlap_days earliest =
    fold_left Z.min (resume_starts client chunk interval overlap_days)
              earliest.
Proof.
  induction chunk as [|t rest IH]; intros earliest; [reflexivity|].
  cbn [widen resume_starts flat_map]. rewrite fold_left_app.
  fold (resume_starts client rest interval overlap_days).
  rewrite IH.
  destruct (fst (get_state client "yfinance" "fact_stock_prices"
                           (state_key t interval))) as [l|];
    [|reflexivity].
  cbn [fold_left]. f_equal.
  destruct (l - 86400 * overlap_days <? earliest) eqn:C.
  - apply Z.ltb_lt in C. lia.
  - apply Z.ltb_ge in C. lia.
Qed.

Lemma fold_min_le starts :
  forall e, fold_left Z.min starts e <= e.
Proof.
  induction starts as [|s rest IH]; intros e; simpl; [lia|].
  specialize (IH (Z.min e s)). lia.
Qed.

Lemma fold_min_le_each starts :
  forall e s, In s starts -> fold_left Z.min starts e <= s.
Proof.
  induction starts as [|x rest IH]; intros e s []; simpl.
  - subst x. pose proof (fold_min_le rest (Z.min e s)). lia.
  - apply IH. assumption.
Qed.

Lemma resume_starts_none client chunk interval overlap_days :
  (forall t, In t chunk ->
             fst (get_state client "yfinance" "fact_stock_prices"
                            (state_key t interval)) = None) ->
  resume_starts client chunk interval overlap_days = [].
Proof.
  induction chunk as [|t rest IH]; intros H; [reflexivity|].
  cbn [resume_starts flat_map]. rewrite (H t (or_introl eq_refl)).
  apply IH. intros t' Hin. apply H. right. exact Hin.
Qed.

Lemma date_floor instant : 86400 * date instant <= instant.
Proof. unfold date. apply Z.mul_div_le. lia. Qed.

End FetchWindow.

(** C2 (as amended).  In a price run with force off the fetch window is
    computed per chunk: its start is the least of [now - default_lookback]
    and [L - overlap] over every key of the chunk that has a watermark [L].
    For a chunk of one key with the watermark [L] that is
    [min(now - default_lookback, L - overlap)], for a chunk without
    watermarks it is [now - default_lookback]; for every key of the chunk
    it is at most the key's own [min(now - default_lookback, L - overlap)],
    and it is always at most [now - default_lookback], as is the start date
    handed to the provider. *)
Theorem fetch_start_widens_per_chunk (client : Common.clickhouse)
    (chunk : list string) (interval : string)
    (overlap_days default_lookback_days now : Z) :
  let start :=
    StockPrices.fetch_start client chunk interval overlap_days
                            default_lookback_days false now in
  let lookback := now - 86400 * default_lookback_days in
  start =
    fold_left Z.min
      (StockPrices.resume_starts client chunk interval overlap_days)
      lookback
  /\ (forall t L,
         chunk = [t] ->
         fst (Common.get_state client "yfinance" "fact_stock_prices"
                               (StockPrices.state_key t interval)) = Some L ->
         start = Z.min lookback (L - 86400 * overlap_days))
  /\ ((forall t, In t chunk ->
                 fst (Common.get_state client "yfinance" "fact_stock_prices"
                                       (StockPrices.state_key t interval))
                 = None) ->
      start = lookback)
  /\ (forall t L,
         In t chunk ->
         fst (Common.get_state client "yfinance" "fact_stock_prices"
                               (StockPrices.state_key t interval)) = Some L ->
         start <= Z.min lookback (L - 86400 * overlap_days))
  /\ start <= lookback
  /\ 86400 * StockPrices.date start <= lookback.
Proof.
  intros start lookback.
  assert (E : start =
              fold_left Z.min
                (StockPrices.resume_starts client chunk interval overlap_days)
                lookback).
  { subst start lookback. unfold StockPrices.fetch_start.
    apply widen_min. }
  assert (B : start <= lookback) by (rewrite E; apply fold_min_le).
  repeat apply conj.
  - exact E.
  - intros t L -> HL. rewrite E.
    cbn [StockPrices.resume_starts flat_map]. rewrite HL. reflexivity.
  - intros H. rewrite E.
    rewrite resume_starts_none by exact H. reflexivity.
  - intros t L Hin HL.
    assert (start <= L - 86400 * overlap_days).
    { rewrite E. apply fold_min_le_each.
      unfold StockPrices.resume_starts. apply in_flat_map.
      exists t. split; [exact Hin|]. rewrite HL. left. reflexivity. }
    lia.
  - exact B.
  - pose proof (date_floor start). lia.
Qed.

(** The theorem at work on the store that holds 2024-01-10 for ["AAA|1d"]:
    a run on 2024-06-01 for the chunk [["AAA"]]. *)
Lemma fetch_start_widens_per_chunk_witness :
  let start :=
    StockPrices.fetch_start Examples.priced ["AAA"] "1d" 5 370 false
                            Examples.jun_1 in
  start = Examples.start_for_AAA /\ start = 1685232000.
Proof.
  split; [|reflexivity].
  exact (proj1 (proj2 (fetch_start_widens_per_chunk Examples.priced ["AAA"]
                         "1d" 5 370 Examples.jun_1))
               "AAA" Examples.jan_10 eq_refl eq_refl).
Defined.

(** C2, as first stated, fails when a chunk holds several keys: the start
    is the least over the chunk, so the key ["AAA|1d"], whose watermark is
    2024-01-10, is fetched from the start that the older watermark of
    ["BBB|1d"] asks for and not from its own
    [min(now - default_lookback, L - overlap)]. *)
Lemma fetch_start_of_chunk_not_of_key :
  fst (Common.get_state Examples.priced_twice "yfinance" "fact_stock_prices"
                        (StockPrices.state_key "AAA" "1d"))
  = Some Examples.jan_10 /\
  StockPrices.fetch_start Examples.priced_twice ["AAA"; "BBB"] "1d" 5 370
                          false Examples.jun_1
  <> Examples.start_for_AAA /\
  StockPrices.fetch_start Examples.priced_twice ["AAA"; "BBB"] "1d" 5 370
                          false Examples.jun_1
  = Examples.start_for_BBB.
Proof. vm_compute. repeat split; discriminate. Qed.

(** C4 (as amended).  With force on, the watermark filter is bypassed and
    so is the widening: the fetch-window start of every chunk is
    [now - default_lookback], whatever the watermarks, and the records
    written for a ticker are made from all its normalised rows. *)
Theorem force_bypasses_filter_and_widening
    (client : Common.clickhouse) (chunk : list string) (interval : string)
    (overlap_days default_lookback_days now : Z) :
  StockPrices.fetch_start client chunk interval overlap_days
                          default_lookback_days true now
  = now - 86400 * default_lookback_days
  /\
  forall norm t rest total,
    StockPrices.insert_loop norm (t :: rest) interval true now client total
    = match
        map (StockPrices.record_of t interval now)
            (filter (fun r => String.eqb (StockPrices.ticker r) t) norm)
      with
      | [] =>
          StockPrices.insert_loop norm rest interval true now client total
      | first :: more =>
          StockPrices.insert_loop norm rest interval true now
            (StockPrices.write_prices client t interval first more)
            (total + List.length (first :: more))%nat
      end.
Proof. split; reflexivity. Qed.

(** C4, as first stated, fails: with force on, the key ["BBB|1d"], whose
    watermark is 2022-01-10, is fetched from [now - default_lookback] and
    not from [min(now - default_lookback, L - overlap)]. *)
Lemma forced_fetch_start_not_widened :
  fst (Common.get_state Examples.priced_twice "yfinance" "fact_stock_prices"
                        (StockPrices.state_key "BBB" "1d"))
  = Some Examples.jan_10_2022 /\
  StockPrices.fetch_start Examples.priced_twice ["BBB"] "1d" 5 370 true
                          Examples.jun_1
  <> Examples.start_for_BBB /\
  StockPrices.fetch_start Examples.priced_twice ["BBB"] "1d" 5 370 true
                          Examples.jun_1
  = Examples.jun_1 - 86400 * 370.
Proof. vm_compute. repeat split; discriminate. Qed.

(** ** The price run as a sequence of writes *)

Section PriceRun.
Import Py Common StockPrices.

Lemma price_steps_trans interval force now c1 c2 c3 :
  price_steps interval force now c1 c2 ->
  price_steps interval force now c2 c3 ->
  price_steps interval force now c1 c3.
Proof.
  induction 1 as [|a b c Hstep Hsteps IH]; intros H; [exact H|].
  eapply price_steps_more; [exact Hstep|]. apply IH. exact H.
Qed.

Lemma insert_loop_steps norm chunk interval force now :
  forall client total,
    price_steps interval force now client
      (fst (insert_loop norm chunk interval force now client total)).
Proof.
  induction chunk as [|t rest IH]; intros client total; simpl.
  - constructor.
  - destruct (map _ (kept client force t interval norm)) as [|first more]
      eqn:E.
    + apply IH.
    + eapply price_steps_more; [|apply IH].
      econstructor. exact E.
Qed.

Lemma chunks_loop_steps {rt : Runtime} yf_download chunks interval
      overlap_days default_lookback_days force now :
  forall client total,
    price_steps interval force now client
      (fst (chunks_loop yf_download chunks interval overlap_days
                        default_lookback_days force now client total)).
Proof.
  induction chunks as [|chunk rest IH]; intros client total; simpl.
  - constructor.
  - destruct (yf_download chunk _ interval) as [e|raw]; [constructor|].
    destruct (normalize_download raw chunk interval) as [e|[|n norm]];
      [constructor|apply IH|].
    pose proof (insert_loop_steps (n :: norm) chunk interval force now
                                  client total) as H.
    destruct (insert_loop (n :: norm) chunk interval force now client total)
      as [client1 total1].
    eapply price_steps_trans; [exact H|]. apply IH.
Qed.

Lemma ingest_stock_prices_steps {rt : Runtime} yf_download now client
      tickers interval overlap_days default_lookback_days chunk_size force :
  price_steps interval force now client
    (fst (ingest_stock_prices yf_download now client tickers interval
                              overlap_days default_lookback_days chunk_size
                              force)).
Proof.
  unfold ingest_stock_prices.
  destruct (chunk_size =? 0); [constructor|].
  destruct (chunk_size <? 0); [constructor|].
  apply chunks_loop_steps.
Qed.

Lemma fold_max_ge (l : list price_row) :
  forall m,
    m <= fold_left (fun m rec => Z.max m (sp_ts rec)) l m /\
    forall r, In r l ->
              sp_ts r <= fold_left (fun m rec => Z.max m (sp_ts rec)) l m.
Proof.
  induction l as [|x l IH]; intros m; simpl.
  - split; [lia|]. intros r [].
  - destruct (IH (Z.max m (sp_ts x))) as [H1 H2]. split; [lia|].
    intros r [<-|Hin]; [lia|]. apply H2. exact Hin.
Qed.

Lemma max_ts_ge first more r :
  In r (first :: more) -> sp_ts r <= max_ts first more.
Proof.
  unfold max_ts. destruct (fold_max_ge more (sp_ts first)) as [H1 H2].
  intros [<-|Hin]; [exact H1|]. apply H2. exact Hin.
Qed.

(** What the loop keeps with force off lies after the watermark. *)
Lemma kept_after_watermark client t interval norm r :
  In r (kept client false t interval norm) ->
  ticker r = t /\
  forall L,
    fst (get_state client "yfinance" "fact_stock_prices"
                   (state_key t interval)) = Some L ->
    L < ts r.
Proof.
  unfold kept. intros H.
  destruct (fst (get_state client "yfinance" "fact_stock_prices"
                           (state_key t interval))) as [l|].
  - apply filter_In in H. destruct H as [H C].
    apply filter_In in H. destruct H as [_ T].
    apply String.eqb_eq in T. apply Z.ltb_lt in C.
    split; [exact T|]. intros L [= <-]. exact C.
  - apply filter_In in H. destruct H as [_ T].
    apply String.eqb_eq in T. split; [exact T|]. intros L [=].
Qed.

Lemma journal_write_prices client t interval first more :
  journal (write_prices client t interval first more) =
  journal client ++
  [ Into_fact_stock_prices (first :: more);
    Into_ingest_state
      {| source := "yfinance"; target := "fact_stock_prices";
         key := state_key t interval;
         last_ts := Some (max_ts first more); last_asof_date := None;
         updated_at := clock client |} ].
Proof.
  unfold write_prices, set_state, insert. simpl.
  rewrite <- app_assoc. reflexivity.
Qed.

Lemma get_state_write_prices_either client t interval first more :
  get_state (write_prices client t interval first more)
            "yfinance" "fact_stock_prices" (state_key t interval)
  = (Some (max_ts first more), None) \/
  get_state (write_prices client t interval first more)
            "yfinance" "fact_stock_prices" (state_key t interval)
  = get_state client "yfinance" "fact_stock_prices" (state_key t interval).
Proof.
  unfold write_prices.
  destruct (get_state_set_state_either
              (insert client (Into_fact_stock_prices (first :: more)))
              "yfinance" "fact_stock_prices" (state_key t interval)
              (Some (max_ts first more)) None) as [E|E].
  - left. exact E.
  - right. rewrite E. apply get_state_insert. discriminate.
Qed.

Lemma get_state_write_prices_other client t interval first more src tgt k :
  (src, tgt, k) <> ("yfinance", "fact_stock_prices", state_key t interval) ->
  get_state (write_prices client t interval first more) src tgt k
  = get_state client src tgt k.
Proof.
  intros N. unfold write_prices.
  rewrite get_state_set_state_other by exact N.
  apply get_state_insert. discriminate.
Qed.

Lemma not_before_refl w : not_before w w.
Proof. destruct w as [l|]; simpl; [|exact I]. exists l. split; [reflexivity|lia]. Qed.

Lemma not_before_trans a b c :
  not_before a b -> not_before b c -> not_before a c.
Proof.
  destruct a as [x|]; simpl; [|trivial].
  intros (y & -> & Hxy). simpl. intros (z & -> & Hyz).
  exists z. split; [reflexivity|lia].
Qed.

(** One writing pass, force off: the records are those of one ticker and
    lie after its watermark, and no watermark goes back. *)
Lemma price_step_sound interval now client client1 :
  price_step interval false now client client1 ->
  (forall tgt k, not_before (watermark client tgt k)
                            (watermark client1 tgt k)) /\
  exists t first more stamp,
    journal client1 =
    journal client ++
    [ Into_fact_stock_prices (first :: more);
      Into_ingest_state
        {| source := "yfinance"; target := "fact_stock_prices";
           key := state_key t interval;
           last_ts := Some (max_ts first more); last_asof_date := None;
           updated_at := stamp |} ] /\
    forall r, In r (first :: more) ->
      sp_ticker r = t /\
      forall L,
        fst (get_state client "yfinance" "fact_stock_prices"
                       (state_key t interval)) = Some L ->
        L < sp_ts r.
Proof.
  intros H. destruct H as [client norm t first more E].
  assert (R : forall r, In r (first :: more) ->
                sp_ticker r = t /\
                forall L,
                  fst (get_state client "yfinance" "fact_stock_prices"
                                 (state_key t interval)) = Some L ->
                  L < sp_ts r).
  { intros r Hin. rewrite <- E in Hin. apply in_map_iff in Hin.
    destruct Hin as (n & <- & Hn). simpl.
    apply kept_after_watermark in Hn. destruct Hn as [_ Hn].
    split; [reflexivity|exact Hn]. }
  split.
  - intros tgt k. unfold watermark.
    destruct (String.eqb tgt "fact_stock_prices") eqn:T.
    + apply String.eqb_eq in T. subst tgt.
      destruct (String.eqb k (state_key t interval)) eqn:K.
      * apply String.eqb_eq in K. subst k.
        destruct (get_state_write_prices_either client t interval first more)
          as [W1|W1]; rewrite W1; [|apply not_before_refl].
        simpl.
        destruct (fst (get_state client _ _ _)) as [L|] eqn:W; simpl;
          [|exact I].
        exists (max_ts first more). split; [reflexivity|].
        destruct (R first (or_introl eq_refl)) as [_ HL].
        specialize (HL L eq_refl).
        pose proof (@max_ts_ge first more first (or_introl eq_refl)). lia.
      * rewrite get_state_write_prices_other; [apply not_before_refl|].
        intros [= ->]. rewrite String.eqb_refl in K. discriminate.
    + rewrite get_state_write_prices_other; [apply not_before_refl|].
      intros [= ->]. discriminate.
  - exists t, first, more, (clock client).
    split; [apply journal_write_prices|exact R].
Qed.

(** A whole run, force off. *)
Lemma price_steps_sound interval now client client2 :
  price_steps interval false now client client2 ->
  (forall tgt k, not_before (watermark client tgt k)
                            (watermark client2 tgt k)) /\
  exists ws,
    journal client2 = journal client ++ ws /\
    forall t L,
      fst (get_state client "yfinance" "fact_stock_prices"
                     (state_key t interval)) = Some L ->
      forall rows r,
        In (Into_fact_stock_prices rows) ws -> In r rows ->
        sp_ticker r = t -> L < sp_ts r.
Proof.
  induction 1 as [client|client client1 client2 Hstep Hsteps IH].
  - split; [intros; apply not_before_refl|].
    exists []. split; [symmetry; apply app_nil_r|].
    intros t L _ rows r [].
  - destruct (price_step_sound Hstep)
      as (M1 & t0 & first & more & stamp & J1 & R1).
    destruct IH as (M2 & ws & J2 & R2).
    split.
    + intros tgt k. eapply not_before_trans; [apply M1|apply M2].
    + eexists. split.
      * rewrite J2, J1, <- app_assoc. reflexivity.
      * intros t L W rows r Hin Hr Ht.
        apply in_app_or in Hin. destruct Hin as [Hin|Hin].
        -- destruct Hin as [Hin|[Hin|[]]]; [|discriminate].
           injection Hin as <-.
           destruct (R1 r Hr) as [T0 HL]. subst t. subst t0.
           apply HL. exact W.
        -- pose proof (M1 "fact_stock_prices" (state_key t interval)) as M.
           unfold watermark in M. simpl in M. rewrite W in M.
           destruct M as (L1 & W1 & Hle).
           specialize (R2 t L1 W1 rows r Hin Hr Ht). lia.
Qed.

(** The journal of a run, force on or off. *)
Lemma price_steps_journal interval force now client client2 :
  price_steps interval force now client client2 ->
  exists ws,
    journal client2 = journal client ++ ws /\ prices_then_state interval ws.
Proof.
  induction 1 as [client|client client1 client2 Hstep Hsteps IH].
  - exists []. split; [symmetry; apply app_nil_r|constructor].
  - destruct IH as (ws & J2 & P2).
    destruct Hstep as [client norm t first more E].
    rewrite journal_write_prices in J2.
    eexists. split.
    + rewrite J2, <- app_assoc. reflexivity.
    + simpl. constructor. exact P2.
Qed.

End PriceRun.

(** ** The normalised table *)

Section Normalised.
Import Py Common StockPrices Facts.
Context {rt : Runtime}.

Lemma bind_returns (A B : Type) (x : fetched A) (k : A -> fetched B) b :
  bind x k = Returns b -> exists a, x = Returns a /\ k a = Returns b.
Proof. destruct x as [e|a]; [discriminate|]. intros H. exists a. auto. Qed.

Lemma bind_raises (A B : Type) (x : fetched A) (k : A -> fetched B) e :
  bind x k = Raises e ->
  x = Raises e \/ exists a, x = Returns a /\ k a = Raises e.
Proof.
  destruct x as [e'|a]; simpl.
  - intros [= ->]. left. reflexivity.
  - intros H. right. exists a. auto.
Qed.

Lemma part_row_of_sound cols t i r p :
  In p (part_row_of cols t i r) ->
  p_ticker p = t /\ p_interval p = i /\
  to_datetime (at_col cols r "ts") = Some (p_ts p) /\
  p_open p = ensured cols r "Open" /\ p_high p = ensured cols r "High" /\
  p_low p = ensured cols r "Low" /\ p_close p = ensured cols r "Close" /\
  p_adj_close p = ensured cols r "Adj_Close" /\
  p_volume p =
    if mem "Volume" cols then Some (at_col cols r "Volume") else None.
Proof.
  unfold part_row_of. destruct (to_datetime _) as [stamp|]; [|intros []].
  intros [<-|[]]. simpl. auto 10.
Qed.

Lemma normalize_sub_sound sub t i parts p :
  normalize_sub sub t i = Returns parts -> In p parts ->
  p_ticker p = t /\ p_interval p = i.
Proof.
  unfold normalize_sub. intros H Hin. apply bind_returns in H.
  destruct H as (sub' & _ & H). injection H as <-.
  apply in_flat_map in Hin. destruct Hin as (r & _ & Hin).
  apply part_row_of_sound in Hin. destruct Hin as (A & B & _). auto.
Qed.

Lemma normalize_multi_sound per_ticker tickers i :
  forall parts p,
    normalize_multi per_ticker tickers i = Returns parts -> In p parts ->
    In (p_ticker p) tickers /\ p_interval p = i /\
    exists sub, level0 (p_ticker p) per_ticker = Some sub.
Proof.
  induction tickers as [|t rest IH]; intros parts p; cbn [normalize_multi In].
  - intros [= <-] [].
  - assert (K : normalize_multi per_ticker rest i = Returns parts ->
                In p parts ->
                (t = p_ticker p \/ In (p_ticker p) rest) /\ p_interval p = i /\
                exists sub, level0 (p_ticker p) per_ticker = Some sub).
    { intros H Hin. destruct (IH _ _ H Hin) as (A & B & C). auto. }
    destruct (level0 t per_ticker) as [sub|] eqn:L; [|exact K].
    destruct (none_or_empty (Some sub)); [exact K|].
    intros H Hin. apply bind_returns in H. destruct H as (part & Hp & H).
    apply bind_returns in H. destruct H as (more & Hm & H).
    injection H as <-. apply in_app_or in Hin. destruct Hin as [Hin|Hin].
    + destruct (@normalize_sub_sound _ _ _ _ _ Hp Hin) as [A B].
      rewrite A. split; [auto|]. split; [exact B|]. exists sub. exact L.
    + destruct (IH _ _ Hm Hin) as (A & B & C). auto.
Qed.

Lemma sanitize_row_sound p n :
  sanitize_row p = Returns n ->
  ts n = p_ts p /\ ticker n = p_ticker p /\ interval n = p_interval p /\
  open n = to_numeric (p_open p) /\ high n = to_numeric (p_high p) /\
  low n = to_numeric (p_low p) /\ close n = to_numeric (p_close p) /\
  adj_close n = to_numeric (p_adj_close p) /\
  volume_of (p_volume p) = Returns (volume n).
Proof.
  unfold sanitize_row. intros H. apply bind_returns in H.
  destruct H as (v & Hv & H). injection H as <-. simpl. auto 10.
Qed.

Lemma sanitize_sound parts :
  forall out n,
    sanitize parts = Returns out -> In n out ->
    exists p, In p parts /\ sanitize_row p = Returns n.
Proof.
  induction parts as [|p rest IH]; intros out n; cbn [sanitize].
  - intros [= <-] [].
  - intros H Hin. apply bind_returns in H. destruct H as (r & Hr & H).
    apply bind_returns in H. destruct H as (rs & Hrs & H).
    injection H as <-. destruct Hin as [<-|Hin].
    + exists p. split; [left; reflexivity|exact Hr].
    + destruct (IH _ _ Hrs Hin) as (p' & A & B). exists p'.
      split; [right; exact A|exact B].
Qed.

(** Every row of the table goes through when its volume converts. *)
Lemma sanitize_complete parts :
  Forall (fun p => exists v, volume_of (p_volume p) = Returns v) parts ->
  exists out,
    sanitize parts = Returns out /\
    Forall2 (fun p n => sanitize_row p = Returns n) parts out.
Proof.
  induction 1 as [|p rest (v & Hv) _ (out & E & F)].
  - exists []. split; [reflexivity|constructor].
  - eexists. cbn [sanitize]. unfold sanitize_row at 1. rewrite Hv.
    cbn [bind]. rewrite E. cbn [bind]. split; [reflexivity|].
    constructor; [|exact F]. unfold sanitize_row. rewrite Hv. reflexivity.
Qed.

(** One volume that does not convert makes the whole table fail. *)
Lemma sanitize_raises parts p e :
  In p parts -> volume_of (p_volume p) = Raises e ->
  exists e', sanitize parts = Raises e'.
Proof.
  induction parts as [|q rest IH]; [intros []|].
  intros [->|Hin] Hv; cbn [sanitize].
  - unfold sanitize_row. rewrite Hv. cbn [bind]. eauto.
  - destruct (sanitize_row q) as [e'|r]; cbn [bind]; [eauto|].
    destruct (IH Hin Hv) as [e' E]. rewrite E. cbn [bind]. eauto.
Qed.

(** A row that leaves [normalize_download] belongs to a ticker of the
    chunk, carries the interval, and has a close; in a table with a
    column level per ticker it belongs to a ticker the table has. *)
Lemma normalize_download_sound df tickers i norm n :
  normalize_download df tickers i = Returns norm -> In n norm ->
  In (ticker n) tickers /\ interval n = i /\ notna (close n) = true /\
  forall per_ticker,
    df = Some (Multi per_ticker) ->
    exists sub, level0 (ticker n) per_ticker = Some sub.
Proof.
  unfold normalize_download.
  destruct (download_empty df); [intros [= <-] []|].
  intros H Hin. apply bind_returns in H. destruct H as (ps & Hp & H).
  apply bind_returns in H. destruct H as (out & Ho & H).
  injection H as <-. apply filter_In in Hin. destruct Hin as [Hin C].
  destruct (@sanitize_sound _ _ _ Ho Hin) as (p & Hpin & Hs).
  apply sanitize_row_sound in Hs.
  destruct Hs as (_ & T & I & _).
  rewrite T, I. unfold parts in Hp.
  destruct df as [[per_ticker|sub]|].
  - destruct (@normalize_multi_sound _ _ _ _ _ Hp Hpin) as (A & B & L).
    repeat split; auto. intros per_ticker' [= <-]. exact L.
  - destruct tickers as [|t rest]; [injection Hp as <-; destruct Hpin|].
    destruct (@normalize_sub_sound _ _ _ _ _ Hp Hpin) as (A & B).
    rewrite A. repeat split; auto; [left; reflexivity|]. intros ? [=].
  - injection Hp as <-. destruct Hpin.
Qed.

Lemma volume_converts_returns c :
  volume_converts c -> exists v, volume_of c = Returns v.
Proof.
  destruct c as [c|]; simpl; [|eauto]. unfold to_volume. intros ->.
  destruct (notna (to_numeric c)); eauto.
Qed.

(** The table that [normalize_download] returns when every volume
    converts: the rows of [parts] whose close is a number, sanitised. *)
Lemma normalize_download_complete df tickers i ps :
  download_empty df = false ->
  StockPrices.parts df tickers i = Returns ps ->
  Forall (fun p => volume_converts (p_volume p)) ps ->
  exists norm,
    normalize_download df tickers i = Returns norm /\
    (forall p, In p ps -> notna (to_numeric (p_close p)) = true ->
               exists n, In n norm /\ sanitize_row p = Returns n) /\
    (forall n, In n norm ->
               notna (close n) = true /\
               exists p, In p ps /\ sanitize_row p = Returns n).
Proof.
  intros E Hp V.
  destruct (@sanitize_complete ps) as (out & Ho & F).
  { eapply Forall_impl; [|exact V]. intros p. apply volume_converts_returns. }
  unfold normalize_download. rewrite E, Hp. cbn [bind]. rewrite Ho.
  cbn [bind]. eexists. split; [reflexivity|]. split.
  - intros p Hin C. clear Ho Hp V.
    induction F as [|q n qs ns Hq _ IH]; [destruct Hin|].
    destruct Hin as [->|Hin].
    + exists n. split; [|exact Hq]. apply filter_In.
      split; [left; reflexivity|].
      apply sanitize_row_sound in Hq. destruct Hq as (_ & _ & _ & _ & _ & _ & Q & _).
      rewrite Q. exact C.
    + destruct (IH Hin) as (n' & A & B). exists n'. split; [|exact B].
      apply filter_In in A. destruct A as [A1 A2]. apply filter_In.
      split; [right; exact A1|exact A2].
  - intros n Hin. apply filter_In in Hin. destruct Hin as [Hin C].
    split; [exact C|]. eapply sanitize_sound; [exact Ho|exact Hin].
Qed.

(** One volume that is infinite, in a row whose timestamp parses, and the
    table is not returned. *)
Lemma normalize_download_raises df tickers i ps p e :
  download_empty df = false ->
  StockPrices.parts df tickers i = Returns ps ->
  In p ps -> volume_of (p_volume p) = Raises e ->
  exists e', normalize_download df tickers i = Raises e'.
Proof.
  intros E Hp Hin Hv.
  destruct (@sanitize_raises ps p e Hin Hv) as [e' Q].
  unfold normalize_download. rewrite E, Hp. cbn [bind]. rewrite Q.
  cbn [bind]. eauto.
Qed.

Lemma notna_or_close x c :
  notna c = true -> notna (if notna x then x else c) = true.
Proof. intros H. destruct (notna x) eqn:E; [exact E|exact H]. Qed.

Lemma record_of_no_nan t i now n :
  notna (close n) = true -> no_nan (record_of t i now n).
Proof.
  intros H. unfold no_nan, record_of. simpl.
  repeat split; try apply notna_or_close; exact H.
Qed.

Lemma kept_in client force t i norm n :
  In n (kept client force t i norm) -> In n norm /\ ticker n = t.
Proof.
  unfold kept. intros H.
  assert (F : In n (filter (fun r => String.eqb (ticker r) t) norm) ->
              In n norm /\ ticker n = t).
  { intros K. apply filter_In in K. destruct K as [K E].
    apply String.eqb_eq in E. auto. }
  destruct force; [exact (F H)|].
  destruct (fst (get_state _ _ _ _)); [|exact (F H)].
  apply filter_In in H. destruct H as [H _]. exact (F H).
Qed.

(** A ticker without a row in the normalised table is passed over. *)
Lemma kept_absent client force t interval norm :
  (forall r, In r norm -> StockPrices.ticker r <> t) ->
  StockPrices.kept client force t interval norm = [].
Proof.
  intros H.
  assert (E : filter (fun r => String.eqb (StockPrices.ticker r) t) norm = []).
  { induction norm as [|r norm IH]; [reflexivity|]. simpl.
    destruct (String.eqb (StockPrices.ticker r) t) eqn:C.
    - apply String.eqb_eq in C. exfalso. exact (H r (or_introl eq_refl) C).
    - apply IH. intros r' Hin. apply H. right. exact Hin. }
  unfold StockPrices.kept. rewrite E.
  destruct force; [reflexivity|].
  destruct (fst (get_state _ _ _ _)); reflexivity.
Qed.


End Normalised.

(** C3.  In a price run with force off, every row the run writes to the
    price fact table for a ticker whose key had the watermark [L] before
    the run has a timestamp strictly after [L], whatever the provider
    returned for the fetch window and whether the run returns or is left
    by an exception. *)
Theorem written_prices_after_watermark {rt : Py.Runtime}
    (yf_download :
       list string -> Z -> string ->
       Py.fetched (option StockPrices.download))
    (now : Z) (client : Common.clickhouse) (tickers : list string)
    (interval : string) (overlap_days default_lookback_days chunk_size : Z)
    (t : string) (L : Z) :
  fst (Common.get_state client "yfinance" "fact_stock_prices"
                        (StockPrices.state_key t interval)) = Some L ->
  let client' :=
    fst (StockPrices.ingest_stock_prices yf_download now client tickers
           interval overlap_days default_lookback_days chunk_size false) in
  exists written,
    Common.fact_stock_prices client' =
    Common.fact_stock_prices client ++ written /\
    forall r, In r written -> Common.sp_ticker r = t -> L < Common.sp_ts r.
Proof.
  intros W client'.
  pose proof (@ingest_stock_prices_steps rt yf_download now client tickers
                interval overlap_days default_lookback_days chunk_size false)
    as Hsteps.
  fold client' in Hsteps.
  destruct (price_steps_sound Hsteps) as (_ & ws & J & R).
  exists (flat_map
            (fun w =>
               match w with
               | Common.Into_fact_stock_prices l => l
               | _ => []
               end) ws).
  split.
  - unfold Common.fact_stock_prices. rewrite J. apply flat_map_app.
  - intros r Hin Ht. apply in_flat_map in Hin.
    destruct Hin as (w & Hw & Hr).
    destruct w; try contradiction.
    exact (R t L W rows r Hw Hr Ht).
Qed.

(** The theorem at work on the store that holds 2024-01-10 for ["AAA|1d"]:
    of the three daily rows the provider returns, the one of 2024-01-11 is
    written. *)
Lemma written_prices_after_watermark_witness :
  fst (Common.get_state Examples.priced "yfinance" "fact_stock_prices"
                        (StockPrices.state_key "AAA" "1d"))
  = Some Examples.jan_10 /\
  (exists written,
      Common.fact_stock_prices
        (fst (StockPrices.ingest_stock_prices (rt := Examples.runtime)
                Examples.prices Examples.jun_1 Examples.priced ["AAA"] "1d"
                5 370 50 false))
      = Common.fact_stock_prices Examples.priced ++ written /\
      forall r, In r written -> Common.sp_ticker r = "AAA" ->
                Examples.jan_10 < Common.sp_ts r) /\
  map Common.sp_ts
      (Common.fact_stock_prices
         (fst (StockPrices.ingest_stock_prices (rt := Examples.runtime)
                 Examples.prices Examples.jun_1 Examples.priced ["AAA"] "1d"
                 5 370 50 false)))
  = [1704931200].
Proof.
  split; [reflexivity|]. split; [|reflexivity].
  exact (@written_prices_after_watermark Examples.runtime Examples.prices
           Examples.jun_1 Examples.priced ["AAA"] "1d" 5 370 50 "AAA"
           Examples.jan_10 eq_refl).
Defined.

(** ** Watermarks do not go back *)

Section Monotone.
Import Py Common.
Context {rt : Runtime}.

Lemma watermark_insert client w tgt k :
  (forall r, w <> Into_ingest_state r) ->
  watermark (insert client w) tgt k = watermark client tgt k.
Proof.
  intros H. unfold watermark. rewrite get_state_insert by exact H.
  reflexivity.
Qed.

(** A snapshot job records [asof] for a key that has no as-of date
    stored: no watermark goes back, whatever the stamps in the store. *)
Lemma not_before_snapshot client own key0 asof tgt k :
  String.eqb own "fact_stock_prices" = false ->
  snd (get_state client "yfinance" own key0) = None ->
  not_before (watermark client tgt k)
             (watermark (set_state client "yfinance" own key0 None (Some asof))
                        tgt k).
Proof.
  intros O A. unfold watermark.
  destruct (String.eqb tgt own && String.eqb k key0)%bool eqn:E.
  - apply andb_true_iff in E. destruct E as [E1 E2].
    apply String.eqb_eq in E1, E2. subst tgt k. rewrite O.
    rewrite A. exact I.
  - rewrite get_state_set_state_other; [apply not_before_refl|].
    intros [= -> ->]. rewrite !String.eqb_refl in E. discriminate.
Qed.

Lemma ingest_dim_industry_not_before industries now client sectors
      asof_date tgt k :
  not_before
    (watermark client tgt k)
    (watermark
       (fst (fst (DimIndustry.ingest_dim_industry industries now client
                                                  sectors asof_date false)))
       tgt k).
Proof.
  set (asof := match asof_date with
               | Some a => a
               | None => DimIndustry.start_of_day now
               end).
  change (DimIndustry.ingest_dim_industry industries now client sectors
                                          asof_date false)
    with (DimIndustry.ingest_dim_industry industries now client sectors
                                          (Some asof) false).
  destruct (snd (get_state client "yfinance" "dim_industry" "ALL"))
    as [L|] eqn:A.
  - destruct (@ingest_dim_industry_stored _ industries now client sectors
                (Some asof) L A) as [e E].
    rewrite E. apply not_before_refl.
  - rewrite ingest_dim_industry_not_skipped by (right; exact A).
    cbn [fst snd]. unfold DimIndustry.written.
    destruct (fst (DimIndustry.sectors_loop _ _ _ _)) as [|r rows].
    + apply not_before_snapshot; auto.
    + rewrite <- (@watermark_insert client (Into_dim_industry (r :: rows))
                                    tgt k) by discriminate.
      apply not_before_snapshot; auto.
      rewrite get_state_insert by discriminate. exact A.
Qed.

Lemma ingest_membership_not_before top now client asof_date tgt k :
  not_before
    (watermark client tgt k)
    (watermark
       (fst (fst (Membership.ingest_membership top now client asof_date
                                               false)))
       tgt k).
Proof.
  set (asof := match asof_date with
               | Some a => a
               | None => DimIndustry.start_of_day now
               end).
  change (Membership.ingest_membership top now client asof_date false)
    with (Membership.ingest_membership top now client (Some asof) false).
  destruct (snd (get_state client "yfinance" "industry_membership" "ALL"))
    as [L|] eqn:A.
  - destruct (@ingest_membership_stored _ top now client (Some asof) L A)
      as [e E].
    rewrite E. apply not_before_refl.
  - rewrite ingest_membership_not_skipped by (right; exact A).
    cbn [fst snd]. unfold Membership.written.
    destruct (fst (Membership.industries_loop _ _ _ _)) as [|r rows].
    + apply not_before_snapshot; auto.
    + rewrite <- (@watermark_insert client
                    (Into_industry_membership (r :: rows)) tgt k)
        by discriminate.
      apply not_before_snapshot; auto.
      rewrite get_state_insert by discriminate. exact A.
Qed.

Lemma tickers_loop_not_before ticker_info tickers asof now tgt k :
  forall client batch total out,
    not_before
      (watermark client tgt k)
      (watermark
         (fst (fst (fst (fst (MarketCap.tickers_loop ticker_info tickers asof
                                now false client batch total out)))))
         tgt k).
Proof.
  induction tickers as [|t rest IH]; intros client batch total out.
  - simpl. apply not_before_refl.
  - cbn [MarketCap.tickers_loop]. cbv zeta.
    destruct (String.eqb (strip t) "" || String.eqb (strip t) "nan")%bool;
      [apply IH|].
    destruct (skips_cases client "fact_market_cap" (strip t) asof false)
      as [[Free E]|(L & e & _ & _ & E)]; rewrite E;
      [|apply not_before_refl].
    destruct Free as [On|Free]; [discriminate|].
    destruct (ticker_info (strip t)) as [e|i]; [apply IH|].
    destruct (marketCap i) as [x|s|]; [| |apply IH].
    all: destruct (to_float _) as [e|cap]; [apply IH|].
    all: eapply not_before_trans; [|apply IH];
      apply not_before_snapshot; auto.
Qed.

Lemma ingest_market_cap_not_before ticker_info now client tickers
      asof_date tgt k :
  not_before
    (watermark client tgt k)
    (watermark
       (fst (fst (MarketCap.ingest_market_cap ticker_info now client tickers
                                              asof_date false)))
       tgt k).
Proof.
  unfold MarketCap.ingest_market_cap. cbv zeta.
  match goal with
  | |- context [MarketCap.tickers_loop _ ?ts ?a _ _ _ _ _ _] =>
      pose proof (@tickers_loop_not_before ticker_info ts a now tgt k
                    client [] 0%nat []) as L
  end.
  destruct (MarketCap.tickers_loop _ _ _ _ _ _ _ _ _)
    as [[[[c b] n] o] raised].
  cbn [fst snd] in *.
  destruct raised as [e|]; [exact L|].
  destruct b as [|r b]; [exact L|].
  cbn [fst]. rewrite watermark_insert by discriminate. exact L.
Qed.

Lemma run_not_before client i tgt k :
  not_before (watermark client tgt k)
             (watermark (Jobs.run false client i) tgt k).
Proof.
  destruct i; simpl.
  - apply ingest_dim_industry_not_before.
  - apply ingest_membership_not_before.
  - pose proof (@ingest_stock_prices_steps rt yf_download now client tickers
                  interval overlap_days default_lookback_days chunk_size
                  false) as Hsteps.
    destruct (price_steps_sound Hsteps) as (M' & _). apply M'.
  - apply ingest_market_cap_not_before.
Qed.

Lemma run_all_not_before invocations :
  forall client tgt k,
    not_before (watermark client tgt k)
               (watermark (Jobs.run_all false client invocations) tgt k).
Proof.
  induction invocations as [|i rest IH]; intros client tgt k; simpl.
  - apply not_before_refl.
  - eapply not_before_trans; [apply (run_not_before client i)|].
    apply IH.
Qed.

(** The stamps stay before the clock through every run, forced or not:
    every store reached from an empty one is stamped before its clock. *)
Lemma price_steps_stamped interval force now client client2 :
  StockPrices.price_steps interval force now client client2 ->
  stamped_before client -> stamped_before client2.
Proof.
  induction 1 as [client|client client1 client2 Hstep Hsteps IH]; intros S;
    [exact S|].
  apply IH. destruct Hstep as [client norm t first more E].
  unfold StockPrices.write_prices. apply stamped_before_set_state.
  apply stamped_before_insert; [discriminate|exact S].
Qed.

Lemma tickers_loop_stamped ticker_info tickers asof now force :
  forall client batch total out,
    stamped_before client ->
    stamped_before
      (fst (fst (fst (fst (MarketCap.tickers_loop ticker_info tickers asof
                             now force client batch total out))))).
Proof.
  induction tickers as [|t rest IH]; intros client batch total out S;
    [exact S|].
  cbn [MarketCap.tickers_loop]. cbv zeta.
  destruct (String.eqb (strip t) "" || String.eqb (strip t) "nan")%bool;
    [apply IH; exact S|].
  destruct (skips client "fact_market_cap" (strip t) asof force)
    as [e|[|]]; [exact S|apply IH; exact S|].
  destruct (ticker_info (strip t)) as [e|i]; [apply IH; exact S|].
  destruct (marketCap i) as [x|s|]; [| |apply IH; exact S].
  all: destruct (to_float _) as [e|cap]; [apply IH; exact S|].
  all: apply IH; apply stamped_before_set_state; exact S.
Qed.

Lemma run_stamped force client i :
  stamped_before client -> stamped_before (Jobs.run force client i).
Proof.
  intros S. destruct i; simpl.
  - unfold DimIndustry.ingest_dim_industry. cbv zeta.
    destruct (skips client _ _ _ force) as [e|[|]]; [exact S|exact S|].
    destruct (DimIndustry.sectors_loop _ _ _ _) as [rows out]. simpl.
    apply stamped_before_set_state.
    destruct rows; [exact S|].
    apply stamped_before_insert; [discriminate|exact S].
  - unfold Membership.ingest_membership. cbv zeta.
    destruct (skips client _ _ _ force) as [e|[|]]; [exact S|exact S|].
    destruct (Membership.industries_loop _ _ _ _) as [rows out]. simpl.
    apply stamped_before_set_state.
    destruct rows; [exact S|].
    apply stamped_before_insert; [discriminate|exact S].
  - eapply price_steps_stamped; [apply ingest_stock_prices_steps|exact S].
  - unfold MarketCap.ingest_market_cap. cbv zeta.
    match goal with
    | |- context [MarketCap.tickers_loop _ ?ts ?a _ _ _ _ _ _] =>
        pose proof (@tickers_loop_stamped ticker_info ts a now force client
                      [] 0%nat [] S) as L
    end.
    destruct (MarketCap.tickers_loop _ _ _ _ _ _ _ _ _)
      as [[[[c b] n] o] raised].
    cbn [fst snd] in *.
    destruct raised as [e|]; [exact L|].
    destruct b; [exact L|].
    apply stamped_before_insert; [discriminate|exact L].
Qed.

Lemma run_all_stamped force invocations :
  forall client,
    stamped_before client ->
    stamped_before (Jobs.run_all force client invocations).
Proof.
  induction invocations as [|i rest IH]; intros client S; simpl;
    [exact S|].
  apply IH. apply run_stamped. exact S.
Qed.

End Monotone.

(** C6 (as amended).  Across any sequence of runs of the jobs with force
    off, the watermark of every key ([last_ts] for the price job,
    [last_asof_date] for the snapshot jobs) never goes back: the value
    recorded after any number of the runs is still there and at least as
    great after the runs that follow.  Nothing is said about runs with
    force on. *)
Theorem watermarks_do_not_go_back_without_force {rt : Py.Runtime}
    (client : Common.clickhouse) (earlier later : list Jobs.invocation)
    (tgt k : string) :
  Common.not_before
    (Common.watermark (Jobs.run_all false client earlier) tgt k)
    (Common.watermark (Jobs.run_all false client (earlier ++ later)) tgt k).
Proof.
  unfold Jobs.run_all. rewrite fold_left_app.
  apply (@run_all_not_before rt later).
Qed.

(** C6, as first stated, fails for a run with force on: the store holds
    2024-03-01 for the key ALL of the industry dimension, a forced run for
    2024-02-01 is not skipped and records 2024-02-01. *)
Lemma forced_run_moves_watermark_back :
  let before := Examples.ingested_for "dim_industry" "ALL" Examples.mar_1 in
  let after :=
    Jobs.run (rt := Examples.runtime) true before
      (Jobs.Dim_industry Examples.one_sector Examples.jun_1 ["energy"]
                         (Some Examples.feb_1)) in
  Common.watermark before "dim_industry" "ALL" = Some Examples.mar_1 /\
  Common.watermark after "dim_industry" "ALL" = Some Examples.feb_1 /\
  Examples.feb_1 < Examples.mar_1 /\
  ~ Common.not_before (Common.watermark before "dim_industry" "ALL")
                      (Common.watermark after "dim_industry" "ALL").
Proof.
  vm_compute. repeat split.
  intros (L' & H & Hle). injection H as <-. apply Hle. reflexivity.
Qed.



(** ** A failure of one entity *)

Section Isolation.
Import Py Common Facts.
Context {rt : Runtime}.

Lemma sector_fails_rows industries s e asof now :
  sector_fails industries s e ->
  DimIndustry.sector industries s asof now
  = ([], [Failed "dim_industry" s e]).
Proof.
  unfold DimIndustry.sector.
  intros [E|(df & E & N & R)]; rewrite E; [reflexivity|].
  rewrite N, R. reflexivity.
Qed.

Lemma industry_fails_rows top sector_key industry_key e asof now :
  industry_fails top industry_key e ->
  Membership.industry top sector_key industry_key asof now
  = ([], [Failed "membership" industry_key e]).
Proof.
  unfold Membership.industry.
  intros [E|(df & E & N & R)]; rewrite E; [reflexivity|].
  rewrite N, R. reflexivity.
Qed.

(** State rows of other keys do not change what is read for a key. *)
Lemma get_state_other_keys client client' states src tgt k :
  ingest_state client' = ingest_state client ++ states ->
  Forall (fun s => key s <> k) states ->
  get_state client' src tgt k = get_state client src tgt k.
Proof.
  intros E F. unfold get_state. rewrite E, filter_app. clear E.
  assert (N : filter (selects src tgt k) states = []).
  { induction F as [|s rest Hs _ IH]; [reflexivity|]. simpl.
    destruct (selects src tgt k s) eqn:Q; [|exact IH].
    apply selects_true in Q. destruct Q as (_ & _ & Q). contradiction. }
  rewrite N, app_nil_r. reflexivity.
Qed.

(** One pass of the market-cap loop at a ticker it does not pass over. *)
Lemma tickers_loop_step ticker_info t rest asof now force client batch total
      out :
  MarketCap.usable t = true ->
  skips client "fact_market_cap" (strip t) asof force = Returns false ->
  (exists e,
      ticker_fails ticker_info (strip t) e /\
      MarketCap.tickers_loop ticker_info (t :: rest) asof now force client
                             batch total out
      = MarketCap.tickers_loop ticker_info rest asof now force client batch
          total (out ++ [Failed "market_cap" (strip t) e]))
  \/
  (exists i,
      ticker_info (strip t) = Returns i /\ marketCap i = Missing /\
      MarketCap.tickers_loop ticker_info (t :: rest) asof now force client
                             batch total out
      = MarketCap.tickers_loop ticker_info rest asof now force client batch
          total out)
  \/
  (exists i cap row,
      ticker_info (strip t) = Returns i /\
      to_float (marketCap i) = Returns cap /\
      mc_ticker row = strip t /\ mc_market_cap row = cap /\
      MarketCap.tickers_loop ticker_info (t :: rest) asof now force client
                             batch total out
      = MarketCap.tickers_loop ticker_info rest asof now force
          (set_state client "yfinance" "fact_market_cap" (strip t) None
                     (Some asof))
          (batch ++ [row]) (S total) out).
Proof.
  unfold MarketCap.usable. intros U E. cbn [MarketCap.tickers_loop].
  cbv zeta.
  destruct (String.eqb (strip t) "" || String.eqb (strip t) "nan")%bool;
    [discriminate|].
  rewrite E.
  destruct (ticker_info (strip t)) as [e|i] eqn:F.
  { left. exists e. split; [left; exact F|reflexivity]. }
  destruct (marketCap i) as [x|s|] eqn:M.
  3:{ right. left. exists i. auto. }
  all: destruct (to_float _) as [e|cap] eqn:C.
  1,3:
    left; exists e; split; [|reflexivity];
    right; exists i; split; [exact F|];
    split; [rewrite M; discriminate|rewrite M; exact C].
  all: right; right; exists i, cap; eexists;
    split; [reflexivity|]; split; [rewrite M; exact C|];
    split; [|split; [|reflexivity]]; reflexivity.
Qed.

Lemma ticker_fails_no_cap ticker_info t e i cap :
  ticker_fails ticker_info t e ->
  ticker_info t = Returns i -> to_float (marketCap i) = Returns cap -> False.
Proof.
  intros [F|(i' & F & _ & C)] Hi Hc; [congruence|].
  assert (i' = i) by congruence. subst i'. congruence.
Qed.

(** A market-cap loop that is not left by an exception has visited every
    ticker: the failure of one is printed, the others have their row. *)
Lemma tickers_loop_visits ticker_info tickers asof now force :
  forall client batch total out,
    let result :=
      MarketCap.tickers_loop ticker_info tickers asof now force client
                             batch total out in
    snd result = None ->
    exists rows lines,
      snd (fst (fst (fst result))) = batch ++ rows /\
      snd (fst result) = out ++ lines /\
      (forall t e,
          In t tickers -> MarketCap.usable t = true ->
          ticker_fails ticker_info (strip t) e ->
          In (Failed "market_cap" (strip t) e) lines) /\
      (forall t i cap,
          In t tickers -> MarketCap.usable t = true ->
          ticker_info (strip t) = Returns i ->
          to_float (marketCap i) = Returns cap ->
          exists r,
            In r rows /\ mc_ticker r = strip t /\ mc_market_cap r = cap) /\
      (forall r,
          In r rows ->
          exists i,
            ticker_info (mc_ticker r) = Returns i /\
            to_float (marketCap i) = Returns (mc_market_cap r)).
Proof.
  induction tickers as [|t rest IH]; intros client batch total out;
    cbv zeta.
  - intros _. exists [], []. simpl. rewrite !app_nil_r.
    split; [reflexivity|]. split; [reflexivity|].
    split; [intros ? ? []|]. split; [intros ? ? ? []|intros ? []].
  - destruct (MarketCap.usable t) eqn:U.
    2:{ rewrite tickers_loop_unusable by exact U. intros R.
        destruct (IH client batch total out R)
          as (rows & lines & B & O & Fl & Ok & Src).
        exists rows, lines. split; [exact B|]. split; [exact O|].
        split; [|split; [|exact Src]].
        - intros t' e [<-|Hin] U'; [congruence|]. apply Fl; assumption.
        - intros t' i cap [<-|Hin] U'; [congruence|]. apply Ok; assumption. }
    destruct (skips_cases client "fact_market_cap" (strip t) asof force)
      as [[_ E]|(L & e & _ & HL & E)].
    2:{ cbn [MarketCap.tickers_loop]. cbv zeta.
        pose proof U as U'. unfold MarketCap.usable in U'.
        destruct (String.eqb (strip t) "" || String.eqb (strip t) "nan")%bool;
          [discriminate|].
        rewrite E. cbn [snd]. discriminate. }
    destruct (@tickers_loop_step ticker_info t rest asof now force client
                batch total out U E)
      as [(e & Fe & Q)|[(i & Hi & Hm & Q)|(i & cap & row & Hi & Hc & T & M & Q)]];
      rewrite Q; intros R.
    + destruct (IH _ _ _ _ R) as (rows & lines & B & O & Fl & Ok & Src).
      exists rows, (Failed "market_cap" (strip t) e :: lines).
      split; [exact B|].
      split; [rewrite O, <- app_assoc; reflexivity|].
      split; [|split; [|exact Src]].
      * intros t' e' [<-|Hin] U' F'.
        -- left. f_equal.
           destruct Fe as [F1|(i1 & F1 & _ & C1)];
             destruct F' as [F2|(i2 & F2 & _ & C2)]; try congruence;
             assert (i2 = i1) by congruence; subst i2; congruence.
        -- right. apply Fl; assumption.
      * intros t' i cap [<-|Hin] U' Hi Hc.
        -- exfalso. exact (ticker_fails_no_cap Fe Hi Hc).
        -- apply Ok with (i := i); assumption.
    + destruct (IH _ _ _ _ R) as (rows & lines & B & O & Fl & Ok & Src).
      exists rows, lines. split; [exact B|]. split; [exact O|].
      split; [|split; [|exact Src]].
      * intros t' e' [<-|Hin] U' F'; [|apply Fl; assumption].
        exfalso. destruct F' as [F2|(i2 & F2 & N2 & _)]; [congruence|].
        assert (i2 = i) by congruence. subst i2. contradiction.
      * intros t' i' cap [<-|Hin] U' Hi' Hc;
          [|apply Ok with (i := i'); assumption].
        exfalso. assert (i' = i) by congruence. subst i'.
        rewrite Hm in Hc. discriminate.
    + destruct (IH _ _ _ _ R) as (rows & lines & B & O & Fl & Ok & Src).
      exists (row :: rows), lines.
      split; [rewrite B, <- app_assoc; reflexivity|]. split; [exact O|].
      split; [|split].
      * intros t' e' [<-|Hin] U' F'; [|apply Fl; assumption].
        exfalso. exact (ticker_fails_no_cap F' Hi Hc).
      * intros t' i' cap' [<-|Hin] U' Hi' Hc'.
        -- exists row. split; [left; reflexivity|]. split; [exact T|].
           assert (i' = i) by congruence. subst i'. congruence.
        -- destruct (Ok t' i' cap' Hin U' Hi' Hc') as (r & A1 & A2 & A3).
           exists r. split; [right; exact A1|auto].
      * intros r [<-|Hin]; [|apply Src; exact Hin].
        exists i. rewrite T, M. auto.
Qed.

End Isolation.

(** C8 (as amended).  In a run of the industry-dimension, the membership
    or the market-cap job that is not left by an exception of its own, an
    exception raised while one entity is fetched or parsed is caught and
    printed with its message, no row of that entity is written, and the
    rows of every other entity are written; in the market-cap job the
    state of the failed ticker is left as it was.  The price job has no
    exception handler: a ticker that is missing from the downloaded table
    has no row in the normalised table and is passed over with the store
    untouched, but an exception raised by the download of a chunk leaves
    the run, and the chunks after it are not processed. *)
Theorem entity_failure_isolation {rt : Py.Runtime}
    (client : Common.clickhouse) (force : bool) :
  (forall industries now sectors asof s e,
      force = true \/
      snd (Common.get_state client "yfinance" "dim_industry" "ALL") = None ->
      In s sectors ->
      Facts.sector_fails industries s e ->
      let result :=
        DimIndustry.ingest_dim_industry industries now client sectors
                                        (Some asof) force in
      exists added,
        Common.dim_industry (fst (fst result)) =
        Common.dim_industry client ++ added /\
        snd result = Py.Returns (List.length added) /\
        In (Failed "dim_industry" s e) (snd (fst result)) /\
        (forall r, In r added -> Common.di_sector_key r <> s) /\
        (forall s' r,
            In s' sectors ->
            In r (fst (DimIndustry.sector industries s' asof now)) ->
            In r added))
  /\
  (forall top now asof sector_key industry_key name e,
      force = true \/
      snd (Common.get_state client "yfinance" "industry_membership" "ALL")
      = None ->
      In (sector_key, industry_key, name)
         (Membership.dim_groups (Common.dim_industry client)) ->
      Facts.industry_fails top industry_key e ->
      let result :=
        Membership.ingest_membership top now client (Some asof) force in
      exists added,
        Common.industry_membership (fst (fst result)) =
        Common.industry_membership client ++ added /\
        snd result = Py.Returns (List.length added) /\
        In (Failed "membership" industry_key e) (snd (fst result)) /\
        (forall r, In r added -> Common.im_industry_key r <> industry_key) /\
        (forall sector_key' industry_key' name' r,
            In (sector_key', industry_key', name')
               (Membership.dim_groups (Common.dim_industry client)) ->
            In r (fst (Membership.industry top sector_key' industry_key'
                                           asof now)) ->
            In r added))
  /\
  (forall ticker_info now tickers asof_date t e n,
      let result :=
        MarketCap.ingest_market_cap ticker_info now client tickers asof_date
                                    force in
      snd result = Py.Returns n ->
      In t (MarketCap.requested client tickers) ->
      MarketCap.usable t = true ->
      Facts.ticker_fails ticker_info (Py.strip t) e ->
      exists added,
        Common.fact_market_cap (fst (fst result)) =
        Common.fact_market_cap client ++ added /\
        n = List.length added /\
        In (Failed "market_cap" (Py.strip t) e) (snd (fst result)) /\
        (forall r, In r added -> Common.mc_ticker r <> Py.strip t) /\
        Common.get_state (fst (fst result)) "yfinance" "fact_market_cap"
                         (Py.strip t)
        = Common.get_state client "yfinance" "fact_market_cap" (Py.strip t) /\
        (forall t' i cap,
            In t' (MarketCap.requested client tickers) ->
            MarketCap.usable t' = true ->
            ticker_info (Py.strip t') = Py.Returns i ->
            Py.to_float (Py.marketCap i) = Py.Returns cap ->
            exists r,
              In r added /\ Common.mc_ticker r = Py.strip t' /\
              Common.mc_market_cap r = cap))
  /\
  (force = true ->
   forall ticker_info now tickers asof_date,
   exists n,
     snd (MarketCap.ingest_market_cap ticker_info now client tickers
                                      asof_date force) = Py.Returns n)
  /\
  (forall per_ticker chunk interval norm t,
      StockPrices.level0 t per_ticker = None ->
      StockPrices.normalize_download (Some (StockPrices.Multi per_ticker))
                                     chunk interval = Py.Returns norm ->
      forall r, In r norm -> StockPrices.ticker r <> t)
  /\
  (forall norm t rest interval now total,
      (forall r, In r norm -> StockPrices.ticker r <> t) ->
      StockPrices.insert_loop norm (t :: rest) interval force now client total
      = StockPrices.insert_loop norm rest interval force now client total)
  /\
  (forall yf_download chunk rest interval overlap_days default_lookback_days
          now total e,
      yf_download chunk
        (StockPrices.date
           (StockPrices.fetch_start client chunk interval overlap_days
                                    default_lookback_days force now))
        interval
      = Py.Raises e ->
      StockPrices.chunks_loop yf_download (chunk :: rest) interval
        overlap_days default_lookback_days force now client total
      = (client, StockPrices.Raised e)).
Proof.
  repeat apply conj.
  - intros industries now sectors asof s e Free Hs Fs result. subst result.
    destruct (@ingest_dim_industry_writes _ industries now client sectors
                (Some asof) force)
      as [(e' & L & _ & F & HL)|(_ & rows & Hrows & Hout & Hret & J)].
    { exfalso. destruct Free; congruence. }
    cbv zeta in *.
    assert (Same : match sectors with
                   | [] => DimIndustry.DEFAULT_SECTORS
                   | _ => sectors
                   end = sectors)
      by (destruct sectors; [destruct Hs|reflexivity]).
    rewrite Same in Hrows, Hout. rewrite sectors_loop_rows in Hrows.
    rewrite sectors_loop_out in Hout.
    destruct (@tables_after _ _ _ J) as (D & _).
    rewrite dims_in_written in D.
    exists rows. split; [exact D|]. split; [exact Hret|]. split; [|split].
    + rewrite Hout. apply in_flat_map. exists s. split; [exact Hs|].
      rewrite (sector_fails_rows asof now Fs). left. reflexivity.
    + intros r Hr Q. rewrite Hrows in Hr. apply in_flat_map in Hr.
      destruct Hr as (s' & _ & Hr).
      pose proof (sector_sound _ _ _ _ _ Hr) as (K & _).
      rewrite Q in K. subst s'.
      rewrite (sector_fails_rows asof now Fs) in Hr. destruct Hr.
    + intros s' r Hs' Hr. rewrite Hrows. apply in_flat_map.
      exists s'. auto.
  - intros top now asof sector_key industry_key name e Free Hg Fi result.
    subst result.
    destruct (@ingest_membership_writes _ top now client (Some asof) force)
      as [(e' & L & _ & F & HL)|(_ & rows & Hrows & Hout & Hret & J)].
    { exfalso. destruct Free; congruence. }
    cbv zeta in *.
    rewrite industries_loop_rows in Hrows.
    rewrite industries_loop_out in Hout.
    destruct (@tables_after _ _ _ J) as (_ & M & _).
    rewrite members_in_written in M.
    exists rows. split; [exact M|]. split; [exact Hret|]. split; [|split].
    + rewrite Hout. apply in_flat_map.
      exists (sector_key, industry_key, name). split; [exact Hg|].
      cbn [fst snd].
      rewrite (industry_fails_rows sector_key asof now Fi).
      left. reflexivity.
    + intros r Hr Q. rewrite Hrows in Hr. apply in_flat_map in Hr.
      destruct Hr as ([[s' i'] n'] & _ & Hr). cbn [fst snd] in Hr.
      pose proof (industry_sound _ _ _ _ _ _ Hr) as (_ & K & _).
      rewrite Q in K. subst i'.
      rewrite (industry_fails_rows s' asof now Fi) in Hr. destruct Hr.
    + intros s' i' n' r Hg' Hr. rewrite Hrows. apply in_flat_map.
      exists (s', i', n'). auto.
  - intros ticker_info now tickers asof_date t e n result. subst result.
    unfold MarketCap.ingest_market_cap. cbv zeta.
    fold (MarketCap.requested client tickers).
    set (asof := match asof_date with
                 | Some a => a
                 | None => DimIndustry.start_of_day now
                 end).
    destruct (@tickers_loop_rows _ ticker_info
                (MarketCap.requested client tickers) asof now force client
                [] 0%nat [])
      as (states & rows & J & B & N & K & _).
    pose proof (@tickers_loop_visits _ ticker_info
                  (MarketCap.requested client tickers) asof now force client
                  [] 0%nat []) as V.
    cbv zeta in *.
    destruct (MarketCap.tickers_loop _ _ _ _ _ _ _ _ _)
      as [[[[c b] total] o] raised].
    cbn [fst snd] in *.
    destruct raised as [e'|]; [discriminate|].
    cbn [fst snd]. intros [= <-] Hin U Ft.
    destruct (V eq_refl) as (rows' & lines & B' & O & Fl & Ok & Src).
    cbn [app] in B, B', O. subst b. subst rows'. subst o. subst total.
    assert (Keys : Forall (fun s => Common.key s <> Py.strip t) states).
    { apply Forall_forall. intros s Hs Q.
      assert (In (Common.key s) (map Common.mc_ticker rows))
        by (rewrite <- K; apply in_map; exact Hs).
      apply in_map_iff in H. destruct H as (r & Qr & Hr).
      destruct (Src r Hr) as (i & Hi & Hc).
      rewrite Qr, Q in Hi. exact (ticker_fails_no_cap Ft Hi Hc). }
    assert (Final :
      Common.journal
        match rows with
        | [] => c
        | _ :: _ => Common.insert c (Common.Into_fact_market_cap rows)
        end
      = Common.journal client
        ++ (map Common.Into_ingest_state states
            ++ match rows with
               | [] => []
               | _ => [Common.Into_fact_market_cap rows]
               end)).
    { destruct rows; [rewrite app_nil_r; exact J|].
      unfold Common.insert. cbn [Common.journal]. rewrite J, <- app_assoc.
      reflexivity. }
    destruct (@tables_after _ _ _ Final) as (_ & _ & _ & C & St).
    rewrite caps_in_written in C.
    exists rows. split; [exact C|]. split; [reflexivity|].
    split; [apply Fl; assumption|]. split; [|split].
    + intros r Hr Q. destruct (Src r Hr) as (i & Hi & Hc).
      rewrite Q in Hi. exact (ticker_fails_no_cap Ft Hi Hc).
    + eapply get_state_other_keys; [exact St|].
      rewrite states_in_app, states_in_states.
      apply Forall_app. split; [exact Keys|].
      destruct rows; constructor.
    + intros t' i cap Hin' U' Hi Hc. exact (Ok t' i cap Hin' U' Hi Hc).
  - intros On ticker_info now tickers asof_date.
    destruct (@ingest_market_cap_writes _ ticker_info now client tickers
                asof_date force)
      as (states & batch & _ & _ & _ & _ & [[R _]|(e & _ & Off & _)]).
    + eexists. exact R.
    + congruence.
  - intros per_ticker chunk interval norm t L H r Hr Q.
    destruct (@normalize_download_sound _ _ _ _ _ _ H Hr) as (_ & _ & _ & Has).
    destruct (Has per_ticker eq_refl) as [sub Hsub].
    rewrite Q, L in Hsub. discriminate.
  - intros norm t rest interval now total H.
    cbn [StockPrices.insert_loop]. rewrite kept_absent by exact H.
    reflexivity.
  - intros yf_download chunk rest interval overlap_days default_lookback_days
           now total e F.
    cbn [StockPrices.chunks_loop]. rewrite F. reflexivity.
Qed.

(** The theorem at work: from an empty store, a run of the
    industry-dimension job over a sector that cannot be fetched and one
    that can, and a run of the market-cap job over a ticker that cannot
    be fetched and one that can. *)
Lemma entity_failure_isolation_witness :
  Facts.sector_fails Examples.one_sector "technology" "HTTP Error 404" /\
  (let result :=
     DimIndustry.ingest_dim_industry (rt := Examples.runtime)
       Examples.one_sector Examples.jun_1 Examples.empty
       ["technology"; "energy"] (Some Examples.mar_1) false in
   snd result = Py.Returns 2%nat /\
   exists added,
     Common.dim_industry (fst (fst result)) =
     Common.dim_industry Examples.empty ++ added /\
     snd result = Py.Returns (List.length added) /\
     In (Failed "dim_industry" "technology" "HTTP Error 404")
        (snd (fst result)) /\
     (forall r, In r added -> Common.di_sector_key r <> "technology") /\
     (forall s' r,
         In s' ["technology"; "energy"] ->
         In r (fst (DimIndustry.sector (rt := Examples.runtime)
                      Examples.one_sector s' Examples.mar_1
                      Examples.jun_1)) ->
         In r added)) /\
  Facts.ticker_fails (rt := Examples.runtime) Examples.capped
                     (Py.strip "BBB") "HTTP Error 404" /\
  (let result :=
     MarketCap.ingest_market_cap (rt := Examples.runtime) Examples.capped
       Examples.jun_1 Examples.empty ["BBB"; "AAA"] (Some Examples.mar_1)
       false in
   snd result = Py.Returns 1%nat /\
   exists added,
     Common.fact_market_cap (fst (fst result)) =
     Common.fact_market_cap Examples.empty ++ added /\
     In (Failed "market_cap" "BBB" "HTTP Error 404") (snd (fst result)) /\
     (forall r, In r added -> Common.mc_ticker r <> "BBB")).
Proof.
  assert (Fs : Facts.sector_fails Examples.one_sector "technology"
                                  "HTTP Error 404") by (left; reflexivity).
  assert (Ft : Facts.ticker_fails (rt := Examples.runtime) Examples.capped
                                  (Py.strip "BBB") "HTTP Error 404")
    by (left; reflexivity).
  split; [exact Fs|]. split; [|split; [exact Ft|]].
  - split; [reflexivity|].
    exact (proj1 (@entity_failure_isolation Examples.runtime Examples.empty
                    false)
                 Examples.one_sector Examples.jun_1 ["technology"; "energy"]
                 Examples.mar_1 "technology" "HTTP Error 404"
                 (or_intror eq_refl) (or_introl eq_refl) Fs).
  - split; [reflexivity|].
    destruct (proj1 (proj2 (proj2 (@entity_failure_isolation Examples.runtime
                                     Examples.empty false)))
                    Examples.capped Examples.jun_1 ["BBB"; "AAA"]
                    (Some Examples.mar_1) "BBB" "HTTP Error 404" 1%nat
                    eq_refl (or_introl eq_refl) eq_refl Ft)
      as (added & A & _ & B & C & _).
    exists added. split; [exact A|]. split; [exact B|exact C].
Defined.

(** C8, as first stated, fails for the price job: with one ticker per
    chunk, the download of ["BBB"] raises, nothing catches it, and ["AAA"],
    whose download would succeed and give two rows, is never fetched. *)
Lemma price_download_failure_ends_run :
  StockPrices.ingest_stock_prices (rt := Examples.runtime)
    Examples.prices_or_raise Examples.jun_1 Examples.empty ["BBB"; "AAA"]
    "1d" 5 370 1 false
  = (Examples.empty, StockPrices.Raised "ConnectionError") /\
  snd (StockPrices.ingest_stock_prices (rt := Examples.runtime)
         Examples.prices_or_raise Examples.jun_1 Examples.empty ["AAA"]
         "1d" 5 370 1 false)
  = StockPrices.Returned 2.
Proof. split; reflexivity. Qed.

(** ** Numbers that are missing or do not parse *)

Section Numbers.
Import Py Common StockPrices.
Context {rt : Runtime}.

Lemma to_numeric_unparseable c e :
  to_float c = Raises e -> to_numeric c = PrimFloat.nan.
Proof. unfold to_numeric. intros ->. reflexivity. Qed.

Lemma to_volume_unparseable c e :
  to_float c = Raises e -> to_volume c = Returns 0.
Proof.
  intros H. unfold to_volume. rewrite (to_numeric_unparseable _ H).
  reflexivity.
Qed.

Lemma part_row_of_kept cols t interval r stamp :
  to_datetime (at_col cols r "ts") = Some stamp ->
  part_row_of cols t interval r =
  [ {| p_ts := stamp; p_ticker := t; p_interval := interval;
       p_open := ensured cols r "Open";
       p_high := ensured cols r "High";
       p_low := ensured cols r "Low";
       p_close := ensured cols r "Close";
       p_adj_close := ensured cols r "Adj_Close";
       p_volume :=
         if mem "Volume" cols then Some (at_col cols r "Volume")
         else None |} ].
Proof. intros T. unfold part_row_of. rewrite T. reflexivity. Qed.

End Numbers.

(** C9 (as amended).  A number that is missing or does not parse does not
    raise.  In the price job a cell of the open, high, low or adjusted
    close column that is not a number becomes nan and the record takes the
    close in its place, each field on its own; a volume that is not a
    number becomes 0; a column that the table does not have at all is
    filled with 0.0 (0 for the volume).  A row whose timestamp parses is
    kept whatever these fields hold, as long as its close is a number and
    no volume of the table is infinite: a row whose close is missing or
    does not parse is dropped.  In the industry-dimension job a market
    weight that does not parse becomes 0.0. *)
Theorem numeric_fallbacks {rt : Py.Runtime} :
  (forall t interval now r,
      let rec := StockPrices.record_of t interval now r in
      Common.sp_close rec = StockPrices.close r /\
      (Py.notna (StockPrices.adj_close r) = false ->
       Common.sp_adj_close rec = StockPrices.close r) /\
      (Py.notna (StockPrices.open r) = false ->
       Common.sp_open rec = StockPrices.close r) /\
      (Py.notna (StockPrices.high r) = false ->
       Common.sp_high rec = StockPrices.close r) /\
      (Py.notna (StockPrices.low r) = false ->
       Common.sp_low rec = StockPrices.close r) /\
      (Py.notna (StockPrices.adj_close r) = true ->
       Common.sp_adj_close rec = StockPrices.adj_close r) /\
      (Py.notna (StockPrices.open r) = true ->
       Common.sp_open rec = StockPrices.open r) /\
      (Py.notna (StockPrices.high r) = true ->
       Common.sp_high rec = StockPrices.high r) /\
      (Py.notna (StockPrices.low r) = true ->
       Common.sp_low rec = StockPrices.low r) /\
      Common.sp_volume rec = StockPrices.volume r)
  /\
  (forall c e,
      Py.to_float c = Py.Raises e ->
      Py.to_numeric c = PrimFloat.nan /\
      Py.notna (Py.to_numeric c) = false /\
      StockPrices.to_volume c = Py.Returns 0 /\
      DimIndustry.market_weight c = 0%float)
  /\
  (forall cols r col,
      Py.mem col cols = false ->
      StockPrices.ensured cols r col = Py.Num 0%float)
  /\
  (forall cols t interval r stamp,
      Py.to_datetime (Py.at_col cols r "ts") = Some stamp ->
      exists p,
        StockPrices.part_row_of cols t interval r = [p] /\
        StockPrices.p_ts p = stamp /\
        StockPrices.p_open p = StockPrices.ensured cols r "Open" /\
        StockPrices.p_high p = StockPrices.ensured cols r "High" /\
        StockPrices.p_low p = StockPrices.ensured cols r "Low" /\
        StockPrices.p_close p = StockPrices.ensured cols r "Close" /\
        StockPrices.p_adj_close p = StockPrices.ensured cols r "Adj_Close" /\
        (Py.mem "Volume" cols = true ->
         StockPrices.p_volume p = Some (Py.at_col cols r "Volume")) /\
        (Py.mem "Volume" cols = false ->
         StockPrices.volume_of (StockPrices.p_volume p) = Py.Returns 0))
  /\
  (forall p n,
      StockPrices.sanitize_row p = Py.Returns n ->
      StockPrices.ts n = StockPrices.p_ts p /\
      StockPrices.open n = Py.to_numeric (StockPrices.p_open p) /\
      StockPrices.high n = Py.to_numeric (StockPrices.p_high p) /\
      StockPrices.low n = Py.to_numeric (StockPrices.p_low p) /\
      StockPrices.close n = Py.to_numeric (StockPrices.p_close p) /\
      StockPrices.adj_close n = Py.to_numeric (StockPrices.p_adj_close p) /\
      StockPrices.volume_of (StockPrices.p_volume p)
      = Py.Returns (StockPrices.volume n))
  /\
  (forall df tickers interval ps,
      StockPrices.download_empty df = false ->
      StockPrices.parts df tickers interval = Py.Returns ps ->
      Forall (fun p => Facts.volume_converts (StockPrices.p_volume p)) ps ->
      exists norm,
        StockPrices.normalize_download df tickers interval
        = Py.Returns norm /\
        (forall p,
            In p ps ->
            Py.notna (Py.to_numeric (StockPrices.p_close p)) = true ->
            exists n, In n norm /\ StockPrices.sanitize_row p = Py.Returns n) /\
        (forall n,
            In n norm ->
            Py.notna (StockPrices.close n) = true /\
            exists p, In p ps /\ StockPrices.sanitize_row p = Py.Returns n))
  /\
  (forall sector_key cols industry_key_col name_col symbol_col weight_col
          asof now r e,
      Py.to_float (Py.at_col cols r weight_col) = Py.Raises e ->
      let industry_key :=
        Py.strip (Py.str (Py.at_col cols r industry_key_col)) in
      (String.eqb industry_key "" || String.eqb industry_key "nan")%bool
      = false ->
      exists row,
        DimIndustry.row_of sector_key cols industry_key_col name_col
                           symbol_col weight_col asof now r = [row] /\
        Common.di_market_weight row = 0%float).
Proof.
  repeat apply conj.
  - intros t interval now r rec. subst rec.
    unfold StockPrices.record_of. simpl.
    repeat apply conj; try reflexivity; intros ->; reflexivity.
  - intros c e H. repeat apply conj.
    + eapply to_numeric_unparseable. exact H.
    + rewrite (to_numeric_unparseable _ H). reflexivity.
    + eapply to_volume_unparseable. exact H.
    + unfold DimIndustry.market_weight. rewrite H. reflexivity.
  - intros cols r col H. unfold StockPrices.ensured. rewrite H. reflexivity.
  - intros cols t interval r stamp T.
    rewrite (part_row_of_kept cols t interval r T).
    eexists. split; [reflexivity|]. cbn.
    repeat (split; [reflexivity|]).
    split; intros ->; reflexivity.
  - intros p n H. apply sanitize_row_sound in H.
    destruct H as (A & _ & _ & B & C & D & E & F & G). auto 8.
  - intros df tickers interval ps. apply normalize_download_complete.
  - intros sector_key cols industry_key_col name_col symbol_col weight_col
           asof now r e W industry_key K. subst industry_key.
    unfold DimIndustry.row_of. rewrite K. eexists. split; [reflexivity|].
    simpl. unfold DimIndustry.market_weight. rewrite W. reflexivity.
Qed.

(** The theorem at work on the daily table, whose second row has an
    adjusted close that reads n/a and no volume: the row is kept, and the
    record has the close in place of the adjusted close. *)
Lemma numeric_fallbacks_witness :
  Py.to_float (rt := Examples.runtime) (Py.Text "n/a")
  = Py.Raises "could not convert string to float: 'n/a'" /\
  Py.to_numeric (rt := Examples.runtime) (Py.Text "n/a") = PrimFloat.nan /\
  exists norm,
    StockPrices.normalize_download (rt := Examples.runtime)
      (Some (StockPrices.Flat Examples.daily)) ["AAA"] "1d"
    = Py.Returns norm /\
    map Common.sp_adj_close
        (map (StockPrices.record_of "AAA" "1d" Examples.jun_1) norm)
    = [11%float; 12%float] /\
    map Common.sp_volume
        (map (StockPrices.record_of "AAA" "1d" Examples.jun_1) norm)
    = [1000; 0].
Proof.
  split; [reflexivity|]. split.
  - exact (proj1 (proj1 (proj2 (@numeric_fallbacks Examples.runtime))
                        (Py.Text "n/a") _ eq_refl)).
  - eexists. split; [reflexivity|]. split; reflexivity.
Defined.

(** C9, as first stated, fails for the close: the third row of the daily
    table has a timestamp that parses and a close that reads n/a, and it is
    not in the normalised table. *)
Lemma row_with_unparseable_close_is_dropped :
  List.length (Py.records Examples.daily) = 3%nat /\
  (exists norm,
      StockPrices.normalize_download (rt := Examples.runtime)
        (Some (StockPrices.Flat Examples.daily)) ["AAA"] "1d"
      = Py.Returns norm /\
      map StockPrices.ts norm = [1704844800; 1704931200]) /\
  Py.to_datetime (Runtime := Examples.runtime) (Py.Text "2024-01-12")
  = Some 1705017600 /\
  (exists p,
      StockPrices.part_row_of (rt := Examples.runtime)
        ["ts"; "Open"; "High"; "Low"; "Close"; "Adj_Close"; "Volume"]
        "AAA" "1d"
        [ Py.Text "2024-01-12"; Py.Num 12%float; Py.Num 14%float;
          Py.Num 11%float; Py.Text "n/a"; Py.Num 13%float;
          Py.Num 1000%float ]
      = [p] /\
      StockPrices.p_ts p = 1705017600 /\
      StockPrices.p_close p = Py.Text "n/a").
Proof.
  split; [reflexivity|]. split; [eexists; split; reflexivity|].
  split; [reflexivity|]. eexists. repeat split.
Qed.

(** * Further properties of the code *)

(** ** Chunking *)

Section Chunks.
Import StockPrices.

Lemma chunked_from_concat n fuel :
  forall lst,
    (List.length lst <= fuel)%nat ->
    List.concat (chunked_from fuel lst (S n)) = lst.
Proof.
  induction fuel as [|fuel IH]; intros lst H.
  - destruct lst; [reflexivity|]. simpl in H. lia.
  - destruct lst as [|x lst]; [reflexivity|].
    cbn [chunked_from List.concat]. rewrite IH.
    + apply firstn_skipn.
    + rewrite length_skipn. simpl in *. lia.
Qed.

Lemma chunked_from_sizes n fuel :
  forall lst,
    Forall (fun chunk => chunk <> [] /\ (List.length chunk <= S n)%nat)
           (chunked_from fuel lst (S n)).
Proof.
  induction fuel as [|fuel IH]; intros lst.
  - destruct lst; constructor.
  - destruct lst as [|x lst]; [constructor|].
    cbn [chunked_from]. constructor; [|apply IH].
    split; [simpl; discriminate|]. apply firstn_le_length.
Qed.

Lemma chunked_concat lst n :
  (1 <= n)%nat -> List.concat (chunked lst n) = lst.
Proof.
  intros H. destruct n as [|n]; [lia|]. unfold chunked.
  apply chunked_from_concat. lia.
Qed.

End Chunks.

(** X1.  [chunked(lst, n)] with [n >= 1] cuts the list into consecutive
    pieces: put back together they are the list, in its order, and every
    piece is non-empty and has at most [n] elements. *)
Theorem chunked_partitions (lst : list string) (n : nat) :
  (1 <= n)%nat ->
  List.concat (StockPrices.chunked lst n) = lst /\
  Forall (fun chunk => chunk <> [] /\ (List.length chunk <= n)%nat)
         (StockPrices.chunked lst n).
Proof.
  intros H. split; [apply chunked_concat; exact H|].
  destruct n as [|n]; [lia|]. unfold StockPrices.chunked.
  apply chunked_from_sizes.
Qed.

Lemma chunked_partitions_witness :
  (1 <= 2)%nat /\
  List.concat (StockPrices.chunked ["A"; "B"; "C"; "D"; "E"] 2)
  = ["A"; "B"; "C"; "D"; "E"] /\
  StockPrices.chunked ["A"; "B"; "C"; "D"; "E"] 2
  = [["A"; "B"]; ["C"; "D"]; ["E"]].
Proof.
  split; [lia|]. split; [|reflexivity].
  exact (proj1 (@chunked_partitions ["A"; "B"; "C"; "D"; "E"] 2
                 (le_S _ _ (le_n 1)))).
Defined.

(** ** What a price run writes *)

Section PriceRows.
Import Py Common StockPrices Facts.
Context {rt : Runtime}.

Lemma prices_in_pair l s ws :
  prices_in ([Into_fact_stock_prices l; Into_ingest_state s] ++ ws)
  = l ++ prices_in ws.
Proof. unfold prices_in. simpl. reflexivity. Qed.

Lemma states_in_pair l s ws :
  states_in ([Into_fact_stock_prices l; Into_ingest_state s] ++ ws)
  = s :: states_in ws.
Proof. reflexivity. Qed.

(** What the insert loop writes, and what it counts. *)
Lemma insert_loop_written norm chunk i force now :
  forall client total,
    let result := insert_loop norm chunk i force now client total in
    exists ws,
      journal (fst result) = journal client ++ ws /\
      snd result = (total + List.length (prices_in ws))%nat /\
      Forall (fun r => exists n,
                  In n norm /\ In (ticker n) chunk /\
                  r = record_of (ticker n) i now n)
             (prices_in ws) /\
      Forall (fun s => source s = "yfinance" /\
                       target s = "fact_stock_prices" /\
                       exists t, In t chunk /\ key s = state_key t i)
             (states_in ws).
Proof.
  induction chunk as [|t rest IH]; intros client total; cbn zeta.
  - exists []. simpl. rewrite app_nil_r, Nat.add_0_r. auto.
  - cbn [insert_loop].
    destruct (map (record_of t i now) (kept client force t i norm))
      as [|first more] eqn:E.
    + destruct (IH client total) as (ws & J & N & P & S).
      exists ws. cbv zeta in *. repeat split; auto.
      * eapply Forall_impl; [|exact P]. simpl.
        intros r (n & A & B & C). exists n. auto.
      * eapply Forall_impl; [|exact S]. simpl.
        intros s (A & B & t' & C & D). repeat split; auto.
        exists t'. auto.
    + destruct (IH (write_prices client t i first more)
                   (total + List.length (first :: more))%nat)
        as (ws & J & N & P & S).
      cbv zeta in *. rewrite journal_write_prices in J.
      eexists. split; [rewrite J, <- app_assoc; reflexivity|].
      rewrite prices_in_pair, states_in_pair.
      split; [rewrite N, length_app; simpl; lia|]. split.
      * apply Forall_app. split.
        -- rewrite <- E. apply Forall_forall. intros r Hr.
           apply in_map_iff in Hr. destruct Hr as (n & <- & Hn).
           apply kept_in in Hn. destruct Hn as [Hn <-].
           exists n. simpl. auto.
        -- eapply Forall_impl; [|exact P]. simpl.
           intros r (n & A & B & C). exists n. auto.
      * constructor.
        -- simpl. repeat split; auto. exists t. auto.
        -- eapply Forall_impl; [|exact S]. simpl.
           intros s (A & B & t' & C & D). repeat split; auto.
           exists t'. auto.
Qed.

Lemma chunks_loop_written yf_download chunks i overlap_days
      default_lookback_days force now :
  forall client total,
    let result :=
      chunks_loop yf_download chunks i overlap_days default_lookback_days
                  force now client total in
    exists ws,
      journal (fst result) = journal client ++ ws /\
      (forall n, snd result = Returned n ->
                 n = (total + List.length (prices_in ws))%nat) /\
      Forall (clean i now (List.concat chunks)) (prices_in ws) /\
      Forall (fun s => source s = "yfinance" /\
                       target s = "fact_stock_prices" /\
                       exists t, In t (List.concat chunks) /\
                                 key s = state_key t i)
             (states_in ws).
Proof.
  induction chunks as [|chunk rest IH]; intros client total; cbn zeta.
  - exists []. simpl. rewrite app_nil_r. repeat split; auto.
    intros n [= <-]. lia.
  - cbn [chunks_loop List.concat].
    assert (Skip : forall c n0,
      (exists ws,
          journal (fst (chunks_loop yf_download rest i overlap_days
                          default_lookback_days force now c n0))
          = journal c ++ ws /\
          (forall n, snd (chunks_loop yf_download rest i overlap_days
                            default_lookback_days force now c n0)
                     = Returned n ->
                     n = (n0 + List.length (prices_in ws))%nat) /\
          Forall (clean i now (chunk ++ List.concat rest)) (prices_in ws) /\
          Forall (fun s => source s = "yfinance" /\
                           target s = "fact_stock_prices" /\
                           exists t, In t (chunk ++ List.concat rest) /\
                                     key s = state_key t i)
                 (states_in ws))).
    { intros c n0. destruct (IH c n0) as (ws & J & N & P & S).
      exists ws. cbv zeta in *. repeat split; auto.
      - eapply Forall_impl; [|exact P]. unfold clean.
        intros r (A & B & C & D & E).
        split; [exact A|]. split; [exact B|]. split; [exact C|].
        split; [apply in_or_app; auto|exact E].
      - eapply Forall_impl; [|exact S]. simpl.
        intros s (A & B & t & C & D). repeat split; auto.
        exists t. split; [apply in_or_app; auto|exact D]. }
    destruct (yf_download chunk _ i) as [e|raw].
    { exists []. simpl. rewrite app_nil_r. repeat split; auto.
      intros n [=]. }
    destruct (normalize_download raw chunk i) as [e|[|n0 norm]] eqn:Enorm;
      [|apply Skip|].
    { exists []. simpl. rewrite app_nil_r. repeat split; auto.
      intros n [=]. }
    pose proof (insert_loop_written (n0 :: norm) chunk i force now client
                                    total) as L.
    cbv zeta in L.
    destruct (insert_loop (n0 :: norm) chunk i force now client total)
      as [client1 total1].
    destruct L as (ws1 & J1 & N1 & P1 & S1). simpl in J1, N1.
    destruct (Skip client1 total1) as (ws2 & J2 & N2 & P2 & S2).
    exists (ws1 ++ ws2).
    split; [rewrite J2, J1, <- app_assoc; reflexivity|].
    rewrite prices_in_app, states_in_app, length_app.
    split; [intros n Hn; rewrite (N2 n Hn), N1; lia|]. split.
    + apply Forall_app. split; [|exact P2].
      eapply Forall_impl; [|exact P1]. cbv beta.
      intros r (n & A & B & ->).
      destruct (@normalize_download_sound _ _ _ _ _ _ Enorm A)
        as (A1 & A2 & A3 & _).
      unfold clean. simpl.
      split; [reflexivity|]. split; [reflexivity|]. split; [reflexivity|].
      split; [apply in_or_app; auto|].
      apply (@record_of_no_nan (ticker n) i now n A3).
    + apply Forall_app. split; [|exact S2].
      eapply Forall_impl; [|exact S1]. simpl.
      intros s (A & B & t & C & D). repeat split; auto.
      exists t. split; [apply in_or_app; auto|exact D].
Qed.

Lemma normalized_tickers_identify client tickers t :
  In t (normalized_tickers client tickers) -> identifies t.
Proof.
  unfold normalized_tickers. intros H. apply in_map_iff in H.
  destruct H as (t0 & <- & H). apply filter_In in H. destruct H as [_ H].
  apply andb_true_iff in H. destruct H as [A B].
  apply negb_true_iff in A, B. apply String.eqb_neq in A, B.
  split; assumption.
Qed.

Lemma ingest_stock_prices_written yf_download now client tickers i
      overlap_days default_lookback_days chunk_size force :
  let result :=
    ingest_stock_prices yf_download now client tickers i overlap_days
                        default_lookback_days chunk_size force in
  exists ws,
    journal (fst result) = journal client ++ ws /\
    (forall n, snd result = Returned n -> n = List.length (prices_in ws)) /\
    Forall (clean i now (normalized_tickers client tickers)) (prices_in ws) /\
    Forall (fun s => source s = "yfinance" /\
                     target s = "fact_stock_prices" /\
                     exists t, In t (normalized_tickers client tickers) /\
                               key s = state_key t i)
           (states_in ws).
Proof.
  unfold ingest_stock_prices. cbv zeta.
  fold (normalized_tickers client tickers).
  destruct (chunk_size =? 0) eqn:Z0.
  { exists []. simpl. rewrite app_nil_r. repeat split; auto. intros n [=]. }
  destruct (chunk_size <? 0) eqn:Z1.
  { exists []. simpl. rewrite app_nil_r. repeat split; auto.
    intros n [= <-]. reflexivity. }
  apply Z.eqb_neq in Z0. apply Z.ltb_ge in Z1.
  destruct (@chunks_loop_written yf_download
              (chunked (normalized_tickers client tickers)
                       (Z.to_nat chunk_size))
              i overlap_days default_lookback_days force now client 0%nat)
    as (ws & J & N & P & S).
  cbv zeta in *.
  assert (C : List.concat (chunked (normalized_tickers client tickers)
                                   (Z.to_nat chunk_size))
              = normalized_tickers client tickers).
  { apply chunked_concat. lia. }
  rewrite C in P, S. exists ws. repeat split; auto.
Qed.

End PriceRows.

Section Added.
Import Py Common Facts.
Context {rt : Runtime}.

(** The rows a run of the market-cap job adds: the batch when the run
    returns, none when an exception leaves it. *)
Lemma ingest_market_cap_added ticker_info now client tickers asof_date
      force :
  let asof :=
    match asof_date with
    | Some a => a
    | None => DimIndustry.start_of_day now
    end in
  let result :=
    MarketCap.ingest_market_cap ticker_info now client tickers asof_date
                                force in
  exists added,
    fact_market_cap (fst (fst result)) = fact_market_cap client ++ added /\
    (forall n, snd result = Returns n -> n = List.length added) /\
    Forall (fun r => mc_asof_date r = asof /\
                     mc_source r = "yfinance_info" /\
                     mc_ingested_at r = now /\
                     identifies (mc_ticker r) /\
                     exists t, In t (MarketCap.requested client tickers) /\
                               mc_ticker r = strip t) added.
Proof.
  intros asof result. subst result.
  destruct (@ingest_market_cap_writes rt ticker_info now client tickers
              asof_date force)
    as (states & batch & _ & _ & R & _ & [[N J]|(e & N & _ & J)]);
    cbv zeta in *.
  - exists batch. split; [|split; [|exact R]].
    + destruct (@tables_after _ _ _ J) as (_ & _ & _ & T & _).
      rewrite T, caps_in_written. reflexivity.
    + rewrite N. intros n [= <-]. reflexivity.
  - exists []. split; [|split; [|constructor]].
    + destruct (@tables_after _ _ _ J) as (_ & _ & _ & T & _).
      rewrite T, caps_in_states. reflexivity.
    + rewrite N. intros n [=].
Qed.

End Added.

(** X2.  When a job returns, what it returns is the number of rows the
    run added to its table. *)
Theorem returned_count_is_rows_added {rt : Py.Runtime}
    (client : Common.clickhouse) (force : bool) :
  (forall industries now sectors asof_date,
      let result :=
        DimIndustry.ingest_dim_industry industries now client sectors
                                        asof_date force in
      exists added,
        Common.dim_industry (fst (fst result)) =
        Common.dim_industry client ++ added /\
        forall n, snd result = Py.Returns n -> n = List.length added)
  /\
  (forall top now asof_date,
      let result :=
        Membership.ingest_membership top now client asof_date force in
      exists added,
        Common.industry_membership (fst (fst result)) =
        Common.industry_membership client ++ added /\
        forall n, snd result = Py.Returns n -> n = List.length added)
  /\
  (forall yf_download now tickers interval overlap_days
          default_lookback_days chunk_size,
      let result :=
        StockPrices.ingest_stock_prices yf_download now client tickers
          interval overlap_days default_lookback_days chunk_size force in
      exists added,
        Common.fact_stock_prices (fst result) =
        Common.fact_stock_prices client ++ added /\
        forall n, snd result = StockPrices.Returned n ->
                  n = List.length added)
  /\
  (forall ticker_info now tickers asof_date,
      let result :=
        MarketCap.ingest_market_cap ticker_info now client tickers asof_date
                                    force in
      exists added,
        Common.fact_market_cap (fst (fst result)) =
        Common.fact_market_cap client ++ added /\
        forall n, snd result = Py.Returns n -> n = List.length added).
Proof.
  repeat apply conj.
  - intros industries now sectors asof_date result.
    destruct (@ingest_dim_industry_writes rt industries now client sectors
                asof_date force)
      as [(e & L & E & _)|(_ & rows & _ & _ & N & J)];
      fold result in E || fold result in N, J.
    + exists []. rewrite E. cbn [fst snd]. rewrite app_nil_r.
      split; [reflexivity|]. intros n [=].
    + exists rows. split.
      * destruct (@tables_after _ _ _ J) as (T & _). rewrite T.
        rewrite dims_in_written. reflexivity.
      * rewrite N. intros n [= <-]. reflexivity.
  - intros top now asof_date result.
    destruct (@ingest_membership_writes rt top now client asof_date force)
      as [(e & L & E & _)|(_ & rows & _ & _ & N & J)];
      fold result in E || fold result in N, J.
    + exists []. rewrite E. cbn [fst snd]. rewrite app_nil_r.
      split; [reflexivity|]. intros n [=].
    + exists rows. split.
      * destruct (@tables_after _ _ _ J) as (_ & T & _). rewrite T.
        rewrite members_in_written. reflexivity.
      * rewrite N. intros n [= <-]. reflexivity.
  - intros yf_download now tickers interval overlap_days
           default_lookback_days chunk_size result.
    destruct (@ingest_stock_prices_written rt yf_download now client tickers
                interval overlap_days default_lookback_days chunk_size force)
      as (ws & J & N & _).
    fold result in J, N. exists (Facts.prices_in ws). split; [|exact N].
    destruct (@tables_after _ _ _ J) as (_ & _ & T & _). exact T.
  - intros ticker_info now tickers asof_date result.
    destruct (@ingest_market_cap_added rt ticker_info now client tickers
                asof_date force) as (added & T & N & _).
    exists added. split; [exact T|exact N].
Qed.

(** X3.  Every row a price run adds to the price table carries the
    interval of the run, the source yfinance and the time of the run, has a
    ticker that is neither empty nor nan, and has no missing number in its
    open, high, low, close and adjusted close. *)
Theorem price_rows_written_are_clean {rt : Py.Runtime}
    (yf_download :
       list string -> Z -> string ->
       Py.fetched (option StockPrices.download))
    (now : Z) (client : Common.clickhouse) (tickers : list string)
    (interval : string) (overlap_days default_lookback_days chunk_size : Z)
    (force : bool) :
  exists added,
    Common.fact_stock_prices
      (fst (StockPrices.ingest_stock_prices yf_download now client tickers
              interval overlap_days default_lookback_days chunk_size force))
    = Common.fact_stock_prices client ++ added /\
    Forall (fun r =>
              Common.sp_interval r = interval /\
              Common.sp_source r = "yfinance" /\
              Common.sp_ingested_at r = now /\
              Facts.identifies (Common.sp_ticker r) /\
              Facts.no_nan r)
           added.
Proof.
  destruct (@ingest_stock_prices_written rt yf_download now client tickers
              interval overlap_days default_lookback_days chunk_size force)
    as (ws & J & _ & P & _).
  exists (Facts.prices_in ws). split.
  - destruct (@tables_after _ _ _ J) as (_ & _ & T & _). exact T.
  - eapply Forall_impl; [|exact P]. unfold Facts.clean.
    intros r (A & B & C & D & E).
    split; [exact A|]. split; [exact B|]. split; [exact C|].
    split; [|exact E].
    eapply normalized_tickers_identify. exact D.
Qed.

(** X4.  Every row a run of a snapshot job adds carries the as-of date and
    the time of the run and an identifier that is neither empty nor nan:
    the industry key of an industry-dimension row, whose sector is one of
    the sectors asked for; the ticker of a membership row, whose sector and
    industry are a pair of the industry dimension; the ticker of a
    market-cap row, which is the stripped form of a requested ticker. *)
Theorem snapshot_rows_written_are_keyed {rt : Py.Runtime}
    (client : Common.clickhouse) (force : bool) :
  (forall industries now sectors asof_date,
      let result :=
        DimIndustry.ingest_dim_industry industries now client sectors
                                        asof_date force in
      exists added,
        Common.dim_industry (fst (fst result)) =
        Common.dim_industry client ++ added /\
        Forall (fun r =>
                  Common.di_asof_date r =
                    match asof_date with
                    | Some a => a
                    | None => DimIndustry.start_of_day now
                    end /\
                  Common.di_ingested_at r = now /\
                  In (Common.di_sector_key r)
                     match sectors with
                     | [] => DimIndustry.DEFAULT_SECTORS
                     | _ => sectors
                     end /\
                  Facts.identifies (Common.di_industry_key r))
               added)
  /\
  (forall top now asof_date,
      let result :=
        Membership.ingest_membership top now client asof_date force in
      exists added,
        Common.industry_membership (fst (fst result)) =
        Common.industry_membership client ++ added /\
        Forall (fun r =>
                  Common.im_asof_date r =
                    match asof_date with
                    | Some a => a
                    | None => DimIndustry.start_of_day now
                    end /\
                  Common.im_ingested_at r = now /\
                  Common.im_source r = "yfinance_top_companies" /\
                  (exists d,
                      In d (Common.dim_industry client) /\
                      Common.di_sector_key d = Common.im_sector_key r /\
                      Common.di_industry_key d = Common.im_industry_key r) /\
                  Facts.identifies (Common.im_ticker r))
               added)
  /\
  (forall ticker_info now tickers asof_date,
      let result :=
        MarketCap.ingest_market_cap ticker_info now client tickers asof_date
                                    force in
      exists added,
        Common.fact_market_cap (fst (fst result)) =
        Common.fact_market_cap client ++ added /\
        Forall (fun r =>
                  Common.mc_asof_date r =
                    match asof_date with
                    | Some a => a
                    | None => DimIndustry.start_of_day now
                    end /\
                  Common.mc_source r = "yfinance_info" /\
                  Common.mc_ingested_at r = now /\
                  Facts.identifies (Common.mc_ticker r) /\
                  exists t, In t (MarketCap.requested client tickers) /\
                            Common.mc_ticker r = Py.strip t)
               added).
Proof.
  repeat apply conj.
  - intros industries now sectors asof_date result.
    destruct (@ingest_dim_industry_writes rt industries now client sectors
                asof_date force)
      as [(e & L & E & _)|(_ & rows & R & _ & _ & J)];
      fold result in E || fold result in J.
    + exists []. rewrite E. cbn [fst]. rewrite app_nil_r. auto.
    + exists rows. split.
      * destruct (@tables_after _ _ _ J) as (T & _). rewrite T.
        rewrite dims_in_written. reflexivity.
      * apply Forall_forall. intros r Hr. rewrite R in Hr.
        apply sectors_loop_sound in Hr. tauto.
  - intros top now asof_date result.
    destruct (@ingest_membership_writes rt top now client asof_date force)
      as [(e & L & E & _)|(_ & rows & R & _ & _ & J)];
      fold result in E || fold result in J.
    + exists []. rewrite E. cbn [fst]. rewrite app_nil_r. auto.
    + exists rows. split.
      * destruct (@tables_after _ _ _ J) as (_ & T & _). rewrite T.
        rewrite members_in_written. reflexivity.
      * apply Forall_forall. intros r Hr. rewrite R in Hr.
        apply industries_loop_sound in Hr.
        destruct Hr as (G & A & B & C & D).
        apply dim_groups_in in G. auto.
  - intros ticker_info now tickers asof_date result.
    destruct (@ingest_market_cap_added rt ticker_info now client tickers
                asof_date force) as (added & T & _ & R).
    exists added. split; [exact T|exact R].
Qed.

(** ** A job keeps to its own table *)

Section OwnWrites.
Import Py Common Facts.
Context {rt : Runtime}.

Lemma prices_then_state_own yf_download now tickers interval overlap_days
      default_lookback_days chunk_size ws :
  StockPrices.prices_then_state interval ws ->
  Forall (own (Jobs.Stock_prices yf_download now tickers interval
                                 overlap_days default_lookback_days
                                 chunk_size)) ws.
Proof.
  induction 1; constructor.
  - exact I.
  - constructor; [simpl; auto|assumption].
Qed.

Lemma run_writes force client i :
  exists ws,
    journal (Jobs.run force client i) = journal client ++ ws /\
    Forall (own i) ws.
Proof.
  destruct i; cbn [Jobs.run].
  - destruct (@ingest_dim_industry_writes rt industries now client sectors
                asof_date force)
      as [(e & L & E & _)|(_ & rows & _ & _ & _ & J)].
    + exists []. rewrite E. simpl. rewrite app_nil_r. auto.
    + eexists. split; [exact J|].
      apply Forall_app. split.
      * destruct rows; constructor; [exact I|constructor].
      * constructor; [simpl; auto|constructor].
  - destruct (@ingest_membership_writes rt top_companies now client asof_date
                force)
      as [(e & L & E & _)|(_ & rows & _ & _ & _ & J)].
    + exists []. rewrite E. simpl. rewrite app_nil_r. auto.
    + eexists. split; [exact J|].
      apply Forall_app. split.
      * destruct rows; constructor; [exact I|constructor].
      * constructor; [simpl; auto|constructor].
  - destruct (@price_steps_journal interval force now client _
                (@ingest_stock_prices_steps rt yf_download now client tickers
                   interval overlap_days default_lookback_days chunk_size
                   force)) as (ws & J & P).
    exists ws. split; [exact J|]. apply prices_then_state_own. exact P.
  - destruct (@ingest_market_cap_writes rt ticker_info now client tickers
                asof_date force)
      as (states & batch & _ & F & _ & _ & Ends).
    assert (Own : Forall (own (Jobs.Market_cap ticker_info now tickers
                                               asof_date))
                         (map Into_ingest_state states)).
    { apply Forall_forall. intros w Hw. apply in_map_iff in Hw.
      destruct Hw as (s & <- & Hs). rewrite Forall_forall in F.
      destruct (F s Hs) as (A & B & _). simpl. auto. }
    destruct Ends as [[_ J]|(e & _ & _ & J)].
    + eexists. split; [exact J|].
      apply Forall_app. split; [exact Own|].
      destruct batch; constructor; [exact I|constructor].
    + eexists. split; [exact J|exact Own].
Qed.

Lemma own_dims i ws :
  Forall (own i) ws -> table_of i <> "dim_industry" -> dims_in ws = [].
Proof.
  induction 1 as [|w ws Hw _ IH]; intros N; [reflexivity|].
  unfold dims_in in *. cbn [flat_map]. rewrite (IH N).
  destruct i, w; simpl in *; try reflexivity; try contradiction;
    exfalso; apply N; reflexivity.
Qed.

Lemma own_members i ws :
  Forall (own i) ws -> table_of i <> "industry_membership" ->
  members_in ws = [].
Proof.
  induction 1 as [|w ws Hw _ IH]; intros N; [reflexivity|].
  unfold members_in in *. cbn [flat_map]. rewrite (IH N).
  destruct i, w; simpl in *; try reflexivity; try contradiction;
    exfalso; apply N; reflexivity.
Qed.

Lemma own_prices i ws :
  Forall (own i) ws -> table_of i <> "fact_stock_prices" ->
  prices_in ws = [].
Proof.
  induction 1 as [|w ws Hw _ IH]; intros N; [reflexivity|].
  unfold prices_in in *. cbn [flat_map]. rewrite (IH N).
  destruct i, w; simpl in *; try reflexivity; try contradiction;
    exfalso; apply N; reflexivity.
Qed.

Lemma own_caps i ws :
  Forall (own i) ws -> table_of i <> "fact_market_cap" -> caps_in ws = [].
Proof.
  induction 1 as [|w ws Hw _ IH]; intros N; [reflexivity|].
  unfold caps_in in *. cbn [flat_map]. rewrite (IH N).
  destruct i, w; simpl in *; try reflexivity; try contradiction;
    exfalso; apply N; reflexivity.
Qed.

Lemma own_states i ws s :
  Forall (own i) ws -> In s (states_in ws) ->
  source s = "yfinance" /\ target s = table_of i.
Proof.
  induction 1 as [|w ws Hw _ IH]; [intros []|].
  unfold states_in in *. cbn [flat_map]. intros H.
  apply in_app_or in H. destruct H as [H|H]; [|exact (IH H)].
  destruct i, w; simpl in *; try contradiction;
    destruct H as [<-|[]]; tauto.
Qed.

End OwnWrites.

(** X5.  A run of a job, forced or not, only appends to the store: the
    journal before the run is the beginning of the journal after it.  What
    it appends are rows of its own table and state rows of source yfinance
    and of its own target, so the three other tables are as they were and
    every state row that was there is still there. *)
Theorem run_appends_to_its_own_table {rt : Py.Runtime} (force : bool)
    (client : Common.clickhouse) (i : Jobs.invocation) :
  let client' := Jobs.run force client i in
  (exists ws,
      Common.journal client' = Common.journal client ++ ws /\
      Forall (Facts.own i) ws) /\
  (Facts.table_of i <> "dim_industry" ->
   Common.dim_industry client' = Common.dim_industry client) /\
  (Facts.table_of i <> "industry_membership" ->
   Common.industry_membership client' = Common.industry_membership client) /\
  (Facts.table_of i <> "fact_stock_prices" ->
   Common.fact_stock_prices client' = Common.fact_stock_prices client) /\
  (Facts.table_of i <> "fact_market_cap" ->
   Common.fact_market_cap client' = Common.fact_market_cap client) /\
  (exists states,
      Common.ingest_state client' = Common.ingest_state client ++ states /\
      Forall (fun s => Common.source s = "yfinance" /\
                       Common.target s = Facts.table_of i) states).
Proof.
  intros client'. destruct (@run_writes rt force client i) as (ws & J & O).
  fold client' in J.
  destruct (@tables_after _ _ _ J) as (T1 & T2 & T3 & T4 & T5).
  split; [exists ws; auto|].
  split; [intros N; rewrite T1, (own_dims O N); apply app_nil_r|].
  split; [intros N; rewrite T2, (own_members O N); apply app_nil_r|].
  split; [intros N; rewrite T3, (own_prices O N); apply app_nil_r|].
  split; [intros N; rewrite T4, (own_caps O N); apply app_nil_r|].
  exists (Facts.states_in ws). split; [exact T5|].
  apply Forall_forall. intros s Hs. exact (@own_states i ws s O Hs).
Qed.

(** ** The watermark after a price run *)

Section HighWater.
Import Py Common StockPrices Facts.
Context {rt : Runtime}.

Lemma list_ascii_append a b :
  list_ascii_of_string (a ++ b)%string =
  list_ascii_of_string a ++ list_ascii_of_string b.
Proof. induction a as [|c a IH]; simpl; [reflexivity|]. rewrite IH. reflexivity. Qed.

(** Two tickers with the same state key are the same ticker. *)
Lemma state_key_inj t t' i : state_key t i = state_key t' i -> t = t'.
Proof.
  unfold state_key. intros H.
  apply (f_equal list_ascii_of_string) in H.
  rewrite !list_ascii_append in H. apply app_inv_tail in H.
  rewrite <- (string_of_list_ascii_of_string t).
  rewrite <- (string_of_list_ascii_of_string t'). rewrite H. reflexivity.
Qed.

Lemma get_state_write_prices_same client t i first more :
  stamped_before client ->
  get_state (write_prices client t i first more)
            "yfinance" "fact_stock_prices" (state_key t i)
  = (Some (max_ts first more), None).
Proof.
  intros S. unfold write_prices. apply get_state_set_state_same.
  apply stamped_before_insert; [discriminate|exact S].
Qed.

Lemma max_ts_attained first more :
  exists r, In r (first :: more) /\ sp_ts r = max_ts first more.
Proof.
  unfold max_ts.
  assert (G : forall l m,
             fold_left (fun m rec => Z.max m (sp_ts rec)) l m = m \/
             exists r, In r l /\
                       sp_ts r = fold_left (fun m rec => Z.max m (sp_ts rec))
                                           l m).
  { induction l as [|x l IH]; intros m; [left; reflexivity|].
    cbn [fold_left]. destruct (IH (Z.max m (sp_ts x))) as [E|(r & Hr & E)].
    - rewrite E. destruct (Z.max_spec m (sp_ts x)) as [[_ M]|[_ M]];
        rewrite M; [right; exists x; split; [left; reflexivity|reflexivity]
                   |left; reflexivity].
    - right. exists r. split; [right; exact Hr|exact E]. }
  destruct (G more (sp_ts first)) as [E|(r & Hr & E)].
  - exists first. split; [left; reflexivity|symmetry; exact E].
  - exists r. split; [right; exact Hr|exact E].
Qed.

(** A run that writes no row for a ticker leaves the state of its key as
    it was. *)
Lemma price_steps_untouched i force now client client2 t :
  price_steps i force now client client2 ->
  forall ws,
    journal client2 = journal client ++ ws ->
    (forall r, In r (prices_in ws) -> sp_ticker r <> t) ->
    get_state client2 "yfinance" "fact_stock_prices" (state_key t i) =
    get_state client "yfinance" "fact_stock_prices" (state_key t i).
Proof.
  induction 1 as [client|client client1 client2 Hstep Hsteps IH];
    intros ws J N; [reflexivity|].
  destruct Hstep as [client norm t0 first more E].
  destruct (price_steps_journal Hsteps) as (ws1 & J1 & _).
  assert (W : ws = [Into_fact_stock_prices (first :: more);
                    Into_ingest_state
                      {| source := "yfinance"; target := "fact_stock_prices";
                         key := state_key t0 i;
                         last_ts := Some (max_ts first more);
                         last_asof_date := None;
                         updated_at := clock client |}] ++ ws1).
  { rewrite journal_write_prices, <- app_assoc in J1. rewrite J1 in J.
    apply app_inv_head in J. symmetry. exact J. }
  subst ws. rewrite (IH ws1 J1).
  - apply get_state_write_prices_other. intros [= K].
    apply state_key_inj in K. subst t0.
    apply (N first).
    + rewrite prices_in_pair. apply in_or_app. left. left. reflexivity.
    + assert (F : In first (map (record_of t i now)
                                (kept client force t i norm)))
        by (rewrite E; left; reflexivity).
      apply in_map_iff in F. destruct F as (n & <- & _). reflexivity.
  - intros r Hr. apply N. rewrite prices_in_pair. apply in_or_app.
    right. exact Hr.
Qed.

(** The rows written in a run lie at or below the watermark the run
    leaves for their ticker, which is the timestamp of one of them. *)
Lemma price_steps_covered i now client client2 :
  price_steps i false now client client2 ->
  stamped_before client ->
  exists ws,
    journal client2 = journal client ++ ws /\
    forall r, In r (prices_in ws) ->
      exists W,
        fst (get_state client2 "yfinance" "fact_stock_prices"
                       (state_key (sp_ticker r) i)) = Some W /\
        sp_ts r <= W /\
        exists r', In r' (prices_in ws) /\
                   sp_ticker r' = sp_ticker r /\ sp_ts r' = W.
Proof.
  induction 1 as [client|client client1 client2 Hstep Hsteps IH]; intros S.
  - exists []. split; [symmetry; apply app_nil_r|]. intros r [].
  - pose proof (price_steps_sound Hsteps) as (M2 & _).
    pose proof (fun t => @price_steps_untouched i false now _ _ t Hsteps) as U.
    destruct Hstep as [client norm t first more E].
    assert (S1 : stamped_before (write_prices client t i first more)).
    { unfold write_prices. apply stamped_before_set_state.
      apply stamped_before_insert; [discriminate|exact S]. }
    destruct (IH S1) as (ws & J & C).
    assert (T : forall r, In r (first :: more) -> sp_ticker r = t).
    { intros r Hr. rewrite <- E in Hr. apply in_map_iff in Hr.
      destruct Hr as (n & <- & _). reflexivity. }
    pose proof J as J0. rewrite journal_write_prices in J.
    eexists. split; [rewrite J, <- app_assoc; reflexivity|].
    assert (Later : forall r, In r (prices_in ws) ->
      exists W,
        fst (get_state client2 "yfinance" "fact_stock_prices"
                       (state_key (sp_ticker r) i)) = Some W /\
        sp_ts r <= W /\
        exists r',
          In r' (prices_in
                   ([Into_fact_stock_prices (first :: more);
                     Into_ingest_state
                       {| source := "yfinance";
                          target := "fact_stock_prices";
                          key := state_key t i;
                          last_ts := Some (max_ts first more);
                          last_asof_date := None;
                          updated_at := clock client |}] ++ ws)) /\
          sp_ticker r' = sp_ticker r /\ sp_ts r' = W).
    { intros r Hr. destruct (C r Hr) as (W & HW & Hle & r' & Hr' & A & B).
      exists W. split; [exact HW|]. split; [exact Hle|].
      exists r'. split; [|auto].
      rewrite prices_in_pair. apply in_or_app. right. exact Hr'. }
    intros r Hr. rewrite prices_in_pair in Hr.
    apply in_app_or in Hr. destruct Hr as [Hr|Hr]; [|exact (Later r Hr)].
    rewrite (T r Hr).
    destruct (in_dec string_dec t (map sp_ticker (prices_in ws))) as [I|I].
    + apply in_map_iff in I. destruct I as (r1 & E1 & H1).
      destruct (Later r1 H1) as (W & HW & Hle & r' & Hr' & A & B).
      rewrite E1 in HW, A.
      exists W. split; [exact HW|]. split.
      * specialize (M2 "fact_stock_prices" (state_key t i)).
        unfold watermark in M2. simpl in M2.
        rewrite (get_state_write_prices_same t i first more S) in M2.
        simpl in M2. destruct M2 as (W' & HW' & Hle').
        rewrite HW in HW'. injection HW' as <-.
        pose proof (@max_ts_ge first more r Hr). lia.
      * exists r'. split; [exact Hr'|]. split; [exact A|exact B].
    + rewrite (U t ws J0).
      * rewrite (get_state_write_prices_same t i first more S). cbn [fst].
        exists (max_ts first more). split; [reflexivity|].
        split; [exact (@max_ts_ge first more r Hr)|].
        destruct (max_ts_attained first more) as (r' & Hr' & E').
        exists r'. split.
        -- rewrite prices_in_pair. apply in_or_app. left. exact Hr'.
        -- split; [apply T; exact Hr'|exact E'].
      * intros r1 H1 E1. apply I. apply in_map_iff. exists r1. auto.
Qed.

(** Whether a row is kept only depends on the watermark of the key. *)
Lemma kept_same_watermark client client' t i norm :
  fst (get_state client' "yfinance" "fact_stock_prices" (state_key t i)) =
  fst (get_state client "yfinance" "fact_stock_prices" (state_key t i)) ->
  kept client' false t i norm = kept client false t i norm.
Proof. intros E. unfold kept. rewrite E. reflexivity. Qed.

Lemma filter_nothing {A : Type} (f : A -> bool) (l : list A) :
  (forall x, In x l -> f x = false) -> filter f l = [].
Proof.
  induction l as [|x l IH]; intros H; [reflexivity|]. simpl.
  rewrite (H x (or_introl eq_refl)). apply IH.
  intros y Hy. apply H. right. exact Hy.
Qed.

(** After the records of a ticker are written, nothing of the table is
    left to keep for it. *)
Lemma kept_after_write client t i norm now first more :
  stamped_before client ->
  map (record_of t i now) (kept client false t i norm) = first :: more ->
  kept (write_prices client t i first more) false t i norm = [].
Proof.
  intros S E. unfold kept at 1.
  rewrite (get_state_write_prices_same t i first more S). cbn [fst].
  apply filter_nothing. intros n Hn.
  apply Z.ltb_ge.
  assert (K : forall m, In m (kept client false t i norm) ->
                        ts m <= max_ts first more).
  { intros m Hm.
    assert (In (record_of t i now m) (first :: more))
      by (rewrite <- E; apply in_map; exact Hm).
    exact (@max_ts_ge first more _ H). }
  unfold kept in K.
  destruct (fst (get_state client "yfinance" "fact_stock_prices"
                           (state_key t i))) as [L|] eqn:W.
  - destruct (Z.ltb L (ts n)) eqn:C.
    + apply K. apply filter_In. split; assumption.
    + apply Z.ltb_ge in C.
      assert (F : In first (map (record_of t i now) (kept client false t i norm)))
        by (rewrite E; left; reflexivity).
      apply in_map_iff in F. destruct F as (m & _ & Hm).
      pose proof (K m) as Km.
      unfold kept in Hm. rewrite W in Hm.
      specialize (Km Hm).
      apply filter_In in Hm. destruct Hm as [_ Hm]. apply Z.ltb_lt in Hm.
      lia.
  - apply K. exact Hn.
Qed.

Lemma insert_loop_leaves_nothing norm chunk i now :
  forall client total,
    stamped_before client ->
    let client' := fst (insert_loop norm chunk i false now client total) in
    stamped_before client' /\
    (forall t, kept client false t i norm = [] ->
               kept client' false t i norm = []) /\
    (forall t, In t chunk -> kept client' false t i norm = []).
Proof.
  induction chunk as [|t0 rest IH]; intros client total S; cbn zeta.
  - simpl. repeat split; auto. intros t [].
  - cbn [insert_loop].
    destruct (map (record_of t0 i now) (kept client false t0 i norm))
      as [|first more] eqn:E.
    + apply map_eq_nil in E.
      destruct (IH client total S) as (S' & P & Q).
      split; [exact S'|]. split; [exact P|].
      intros t [<-|Hin]; [apply P; exact E|apply Q; exact Hin].
    + assert (S1 : stamped_before (write_prices client t0 i first more)).
      { unfold write_prices. apply stamped_before_set_state.
        apply stamped_before_insert; [discriminate|exact S]. }
      destruct (IH (write_prices client t0 i first more)
                   (total + List.length (first :: more))%nat S1)
        as (S' & P & Q).
      pose proof (@kept_after_write client t0 i norm now first more S E) as K0.
      split; [exact S'|]. split.
      * intros t Ht. apply P.
        destruct (String.eqb t t0) eqn:C.
        -- apply String.eqb_eq in C. subst t. exact K0.
        -- rewrite (@kept_same_watermark client); [exact Ht|].
           rewrite get_state_write_prices_other; [reflexivity|].
           intros [= K]. apply state_key_inj in K. subst t.
           rewrite String.eqb_refl in C. discriminate.
      * intros t [<-|Hin]; [apply P; exact K0|apply Q; exact Hin].
Qed.

Lemma insert_loop_nothing_to_keep norm chunk i now :
  forall client total,
    (forall t, In t chunk -> kept client false t i norm = []) ->
    insert_loop norm chunk i false now client total = (client, total).
Proof.
  induction chunk as [|t rest IH]; intros client total H; [reflexivity|].
  cbn [insert_loop]. rewrite (H t (or_introl eq_refl)). simpl.
  apply IH. intros t' Hin. apply H. right. exact Hin.
Qed.

End HighWater.

(** X6.  With force off, the watermark a price run leaves for a ticker it
    wrote rows for is the greatest timestamp it wrote for it: every row
    the run added to the price table has a timestamp at or below the
    [last_ts] read for its ticker and the interval after the run, and that
    [last_ts] is the timestamp of a row the run added for the ticker. *)
Theorem watermark_covers_rows_written {rt : Py.Runtime}
    (yf_download :
       list string -> Z -> string ->
       Py.fetched (option StockPrices.download))
    (now : Z) (client : Common.clickhouse) (tickers : list string)
    (interval : string) (overlap_days default_lookback_days chunk_size : Z) :
  Common.stamped_before client ->
  let client' :=
    fst (StockPrices.ingest_stock_prices yf_download now client tickers
           interval overlap_days default_lookback_days chunk_size false) in
  exists added,
    Common.fact_stock_prices client' =
    Common.fact_stock_prices client ++ added /\
    forall r, In r added ->
      exists W,
        fst (Common.get_state client' "yfinance" "fact_stock_prices"
               (StockPrices.state_key (Common.sp_ticker r) interval))
        = Some W /\
        Common.sp_ts r <= W /\
        exists r', In r' added /\
                   Common.sp_ticker r' = Common.sp_ticker r /\
                   Common.sp_ts r' = W.
Proof.
  intros S client'.
  destruct (@price_steps_covered interval now client client'
              (@ingest_stock_prices_steps rt yf_download now client tickers
                 interval overlap_days default_lookback_days chunk_size false)
              S) as (ws & J & C).
  exists (Facts.prices_in ws). split; [|exact C].
  destruct (@tables_after _ _ _ J) as (_ & _ & T & _). exact T.
Qed.

Lemma watermark_covers_rows_written_witness :
  Common.stamped_before Examples.priced /\
  exists added,
    Common.fact_stock_prices
      (fst (StockPrices.ingest_stock_prices (rt := Examples.runtime)
              Examples.prices Examples.jun_1 Examples.priced ["AAA"; "CCC"]
              "1d" 5 370 50 false))
    = Common.fact_stock_prices Examples.priced ++ added /\
    forall r, In r added ->
      exists W,
        fst (Common.get_state
               (fst (StockPrices.ingest_stock_prices (rt := Examples.runtime)
                       Examples.prices Examples.jun_1 Examples.priced
                       ["AAA"; "CCC"] "1d" 5 370 50 false))
               "yfinance" "fact_stock_prices"
               (StockPrices.state_key (Common.sp_ticker r) "1d"))
        = Some W /\
        Common.sp_ts r <= W /\
        exists r', In r' added /\
                   Common.sp_ticker r' = Common.sp_ticker r /\
                   Common.sp_ts r' = W.
Proof.
  assert (S : Common.stamped_before Examples.priced).
  { repeat constructor. }
  split; [exact S|].
  exact (@watermark_covers_rows_written Examples.runtime Examples.prices
           Examples.jun_1 Examples.priced ["AAA"; "CCC"] "1d" 5 370 50 S).
Defined.

(** X7.  With force off, passing a normalised table through the insert
    loop a second time writes nothing: after the first pass no row of the
    table lies above the watermark of its ticker, so the second pass
    leaves the store and the count as they are. *)
Theorem insert_loop_second_pass_writes_nothing
    (norm : list StockPrices.norm_row) (chunk : list string)
    (interval : string) (now now' : Z) (client : Common.clickhouse)
    (total total' : nat) :
  Common.stamped_before client ->
  let client1 :=
    fst (StockPrices.insert_loop norm chunk interval false now client total) in
  StockPrices.insert_loop norm chunk interval false now' client1 total'
  = (client1, total').
Proof.
  intros S client1.
  destruct (@insert_loop_leaves_nothing norm chunk interval now client total S)
    as (_ & _ & Q).
  apply insert_loop_nothing_to_keep. exact Q.
Qed.

Lemma insert_loop_second_pass_writes_nothing_witness :
  Common.stamped_before Examples.priced /\
  let norm := Examples.normalised "AAA" in
  let client1 :=
    fst (StockPrices.insert_loop norm ["AAA"] "1d" false Examples.jun_1
                                 Examples.priced 0%nat) in
  List.length (Common.fact_stock_prices client1) = 1%nat /\
  StockPrices.insert_loop norm ["AAA"] "1d" false Examples.jun_1 client1 7%nat
  = (client1, 7%nat).
Proof.
  assert (S : Common.stamped_before Examples.priced).
  { repeat constructor. }
  split; [exact S|]. split; [reflexivity|].
  exact (@insert_loop_second_pass_writes_nothing
           (Examples.normalised "AAA")
           ["AAA"] "1d" Examples.jun_1 Examples.jun_1 Examples.priced
           0%nat 7%nat S).
Defined.

(** ** The fetch window and the order of the chunk *)

Section WindowOrder.
Import Common StockPrices.

Lemma earlier_is_min s e : (if s <? e then s else e) = Z.min e s.
Proof.
  destruct (s <? e) eqn:C; [apply Z.ltb_lt in C|apply Z.ltb_ge in C]; lia.
Qed.

Lemma widen_permutation client i overlap_days chunk chunk' :
  Permutation chunk chunk' ->
  forall earliest,
    widen client chunk i overlap_days earliest =
    widen client chunk' i overlap_days earliest.
Proof.
  induction 1 as [|t l l' _ IH|t t' l|l l' l'' _ IH1 _ IH2]; intros earliest.
  - reflexivity.
  - cbn [widen]. apply IH.
  - cbn [widen]. f_equal.
    destruct (fst (get_state client "yfinance" "fact_stock_prices"
                             (state_key t i))) as [a|];
      destruct (fst (get_state client "yfinance" "fact_stock_prices"
                               (state_key t' i))) as [b|];
      try reflexivity.
    rewrite !earlier_is_min. lia.
  - rewrite IH1. apply IH2.
Qed.

End WindowOrder.

(** X8.  The fetch-window start of a chunk does not depend on the order of
    the tickers in the chunk. *)
Theorem fetch_start_ignores_order (client : Common.clickhouse)
    (chunk chunk' : list string) (interval : string)
    (overlap_days default_lookback_days : Z) (force : bool) (now : Z) :
  Permutation chunk chunk' ->
  StockPrices.fetch_start client chunk interval overlap_days
                          default_lookback_days force now
  = StockPrices.fetch_start client chunk' interval overlap_days
                            default_lookback_days force now.
Proof.
  intros P. unfold StockPrices.fetch_start.
  destruct force; [reflexivity|]. apply widen_permutation. exact P.
Qed.

Lemma fetch_start_ignores_order_witness :
  Permutation ["AAA"; "BBB"] ["BBB"; "AAA"] /\
  StockPrices.fetch_start Examples.priced_twice ["AAA"; "BBB"] "1d" 5 370
                          false Examples.jun_1
  = StockPrices.fetch_start Examples.priced_twice ["BBB"; "AAA"] "1d" 5 370
                            false Examples.jun_1.
Proof.
  split; [apply perm_swap|].
  exact (@fetch_start_ignores_order Examples.priced_twice ["AAA"; "BBB"]
           ["BBB"; "AAA"] "1d" 5 370 false Examples.jun_1
           (perm_swap "BBB" "AAA" [])).
Defined.

(** ** The state store as a log *)

(** X9.  On a store whose state rows are stamped before its clock,
    [get_state] after [set_state] reads back the pair that was set for
    the key, reads every other key as before, and the state table is the
    old one with one row more: nothing is overwritten or removed. *)
Theorem set_state_then_get_state (client : Common.clickhouse)
    (src tgt k : string) (ts asof : option Z) :
  Common.stamped_before client ->
  let client' := Common.set_state client src tgt k ts asof in
  Common.get_state client' src tgt k = (ts, asof) /\
  (forall src' tgt' k',
      (src', tgt', k') <> (src, tgt, k) ->
      Common.get_state client' src' tgt' k' =
      Common.get_state client src' tgt' k') /\
  (exists r,
      Common.ingest_state client' = Common.ingest_state client ++ [r] /\
      Common.source r = src /\ Common.target r = tgt /\ Common.key r = k /\
      Common.last_ts r = ts /\ Common.last_asof_date r = asof) /\
  Common.stamped_before client'.
Proof.
  intros S client'. subst client'.
  split; [apply get_state_set_state_same; exact S|].
  split; [intros; apply get_state_set_state_other; assumption|].
  split; [|apply stamped_before_set_state; exact S].
  eexists. split; [apply ingest_state_set_state|]. simpl. auto 6.
Qed.

Lemma set_state_then_get_state_witness :
  Common.stamped_before Examples.thrice /\
  Common.get_state
    (Common.set_state Examples.thrice "yfinance" "fact_stock_prices" "AAA|1d"
                      (Some 5) None)
    "yfinance" "fact_stock_prices" "AAA|1d"
  = (Some 5, None).
Proof.
  assert (S : Common.stamped_before Examples.thrice).
  { repeat constructor. }
  split; [exact S|].
  exact (proj1 (@set_state_then_get_state Examples.thrice "yfinance"
                  "fact_stock_prices" "AAA|1d" (Some 5) None S)).
Defined.

(** ** A market-cap run that an exception leaves *)

(** X10.  When a run of the market-cap job is left by an exception, which
    happens with force off only, no market-cap row is written: the batch
    gathered so far is dropped.  The state rows of the tickers of that
    batch are written all the same: each records the as-of date of the
    run for a requested ticker that had no as-of date stored before. *)
Theorem market_cap_exception_drops_batch {rt : Py.Runtime}
    (ticker_info : string -> Py.fetched Py.info) (now : Z)
    (client : Common.clickhouse) (tickers : list string)
    (asof_date : option Z) (force : bool) (e : string) :
  let asof :=
    match asof_date with
    | Some a => a
    | None => DimIndustry.start_of_day now
    end in
  let result :=
    MarketCap.ingest_market_cap ticker_info now client tickers asof_date
                                force in
  snd result = Py.Raises e ->
  force = false /\
  Common.fact_market_cap (fst (fst result)) = Common.fact_market_cap client /\
  exists states,
    Common.ingest_state (fst (fst result)) =
    Common.ingest_state client ++ states /\
    Forall (fun s =>
              Common.source s = "yfinance" /\
              Common.target s = "fact_market_cap" /\
              Common.last_asof_date s = Some asof /\
              snd (Common.get_state client "yfinance" "fact_market_cap"
                                    (Common.key s)) = None /\
              exists t,
                In t (MarketCap.requested client tickers) /\
                Common.key s = Py.strip t)
           states.
Proof.
  intros asof result R. subst result.
  destruct (@ingest_market_cap_writes rt ticker_info now client tickers
              asof_date force)
    as (states & batch & K & F & B & W & [[N _]|(e' & _ & Off & J)]);
    cbv zeta in *; [congruence|].
  split; [exact Off|].
  destruct (@tables_after _ _ _ J) as (_ & _ & _ & C & St).
  rewrite caps_in_states, app_nil_r in C. rewrite states_in_states in St.
  split; [exact C|]. exists states. split; [exact St|].
  specialize (W Off).
  apply Forall_forall. intros s Hs.
  rewrite Forall_forall in F, W, B.
  destruct (F s Hs) as (A1 & A2 & _ & A3).
  split; [exact A1|]. split; [exact A2|]. split; [exact A3|].
  split; [exact (W s Hs)|].
  assert (In (Common.key s) (map Common.mc_ticker batch))
    by (rewrite <- K; apply in_map; exact Hs).
  apply in_map_iff in H. destruct H as (r & Q & Hr).
  destruct (B r Hr) as (_ & _ & _ & _ & t & Ht & Qt).
  exists t. split; [exact Ht|]. rewrite <- Q. exact Qt.
Qed.

(** The theorem at work: the store holds an as-of date for ["AAA"] and
    none for ["CCC"]; a run over both records the state of ["CCC"] and is
    left at ["AAA"] with no row written. *)
Lemma market_cap_exception_drops_batch_witness :
  let result :=
    MarketCap.ingest_market_cap (rt := Examples.runtime) Examples.capped
      Examples.jun_1 Examples.thrice ["CCC"; "AAA"] (Some Examples.mar_1)
      false in
  snd result
  = Py.Raises "can't compare offset-naive and offset-aware datetimes" /\
  Common.fact_market_cap (fst (fst result)) = [] /\
  map Common.key (Common.ingest_state (fst (fst result)))
  = ["AAA|1d"; "AAA|1d"; "AAA|1d"; "AAA"; "CCC"].
Proof.
  split; [reflexivity|]. split; [|reflexivity].
  exact (proj1 (proj2 (@market_cap_exception_drops_batch Examples.runtime
                         Examples.capped Examples.jun_1 Examples.thrice
                         ["CCC"; "AAA"] (Some Examples.mar_1) false _
                         eq_refl))).
Defined.

(** ** An industry job run again *)

(** X11.  On a store whose state rows are stamped before its clock, after
    any run of the industry-dimension job, forced or not and whatever it
    fetched, every later run with force off is left by the exception of
    the comparison before it fetches or writes anything, whatever as-of
    date, sectors and provider it is given; and the same for the
    membership job. *)
Theorem industry_jobs_run_once_without_force {rt : Py.Runtime}
    (client : Common.clickhouse) :
  Common.stamped_before client ->
  (forall ind1 ind2 now1 now2 sectors1 sectors2 asof1 asof2 force,
      let client1 :=
        fst (fst (DimIndustry.ingest_dim_industry ind1 now1 client sectors1
                                                  asof1 force)) in
      exists e,
        DimIndustry.ingest_dim_industry ind2 now2 client1 sectors2 asof2
                                        false
        = (client1, [], Py.Raises e))
  /\
  (forall top1 top2 now1 now2 asof1 asof2 force,
      let client1 :=
        fst (fst (Membership.ingest_membership top1 now1 client asof1
                                               force)) in
      exists e,
        Membership.ingest_membership top2 now2 client1 asof2 false
        = (client1, [], Py.Raises e)).
Proof.
  intros S. split.
  - intros ind1 ind2 now1 now2 sectors1 sectors2 asof1 asof2 force client1.
    destruct (@ingest_dim_industry_leaves_state rt ind1 now1 client sectors1
                asof1 force S) as [L HL].
    fold client1 in HL.
    exact (@ingest_dim_industry_stored rt ind2 now2 client1 sectors2 asof2 L
             HL).
  - intros top1 top2 now1 now2 asof1 asof2 force client1.
    destruct (@ingest_membership_leaves_state rt top1 now1 client asof1 force
                S) as [L HL].
    fold client1 in HL.
    exact (@ingest_membership_stored rt top2 now2 client1 asof2 L HL).
Qed.

(** A first run on 2024-06-01 and a run on the day after, each for its own
    day. *)
Lemma industry_jobs_run_once_without_force_witness :
  Common.stamped_before Examples.empty /\
  let first :=
    DimIndustry.ingest_dim_industry (rt := Examples.runtime)
      Examples.one_sector Examples.jun_1 Examples.empty ["energy"] None
      false in
  snd first = Py.Returns 2%nat /\
  exists e,
    DimIndustry.ingest_dim_industry (rt := Examples.runtime)
      Examples.one_sector (Examples.jun_1 + 86400) (fst (fst first))
      ["energy"] None false
    = (fst (fst first), [], Py.Raises e).
Proof.
  assert (S : Common.stamped_before Examples.empty) by constructor.
  split; [exact S|]. split; [reflexivity|].
  exact (proj1 (@industry_jobs_run_once_without_force Examples.runtime
                  Examples.empty S)
               Examples.one_sector Examples.one_sector Examples.jun_1
               (Examples.jun_1 + 86400) ["energy"] ["energy"] None None
               false).
Defined.

(** ** Waiting for the store at startup *)

Section Startup.
Import Py Main.

Lemma attempts_ready probe k :
  forall left i last_err slept,
    (k < left)%nat ->
    (forall j, (j < k)%nat -> exists e, probe (i + j)%nat = Raises e) ->
    (exists u, probe (i + k)%nat = Returns u) ->
    attempts probe left i last_err slept = (Ready, (slept + k)%nat).
Proof.
  induction k as [|k IH]; intros left i last_err slept L F [u R].
  - destruct left as [|left]; [lia|]. simpl.
    rewrite Nat.add_0_r in R. rewrite R, Nat.add_0_r. reflexivity.
  - destruct left as [|left]; [lia|]. simpl.
    destruct (F 0%nat ltac:(lia)) as [e He]. rewrite Nat.add_0_r in He.
    rewrite He.
    rewrite (IH left (S i) (Some e) (S slept)); [f_equal; lia|lia| |].
    + intros j Hj. destruct (F (S j) ltac:(lia)) as [e' He'].
      exists e'. rewrite <- He'. f_equal. lia.
    + exists u. rewrite <- R. f_equal. lia.
Qed.

Lemma attempts_not_ready probe left :
  forall i last_err slept,
    (forall j, (j < S left)%nat -> exists e, probe (i + j)%nat = Raises e) ->
    exists msg,
      probe (i + left)%nat = Raises msg /\
      attempts probe (S left) i last_err slept
      = (Not_ready (Some msg), (slept + S left)%nat).
Proof.
  induction left as [|left IH]; intros i last_err slept F.
  - destruct (F 0%nat ltac:(lia)) as [e He]. exists e.
    split; [exact He|]. simpl. rewrite Nat.add_0_r in He. rewrite He.
    f_equal. lia.
  - destruct (F 0%nat ltac:(lia)) as [e He]. rewrite Nat.add_0_r in He.
    destruct (IH (S i) (Some e) (S slept)) as (msg & Hm & Ha).
    + intros j Hj. destruct (F (S j) ltac:(lia)) as [e' He'].
      exists e'. rewrite <- He'. f_equal. lia.
    + exists msg. split; [rewrite <- Hm; f_equal; lia|].
      cbn [attempts]. rewrite He.
      cbn [attempts] in Ha. rewrite Ha. f_equal. lia.
Qed.

End Startup.

(** X12.  [wait_for_clickhouse] tries at most 30 times and sleeps one
    second after every failed try: when the try number [k] (from 0, below
    30) is the first that succeeds, it returns after [k] sleeps; when all
    30 tries fail, it raises with the error of the last try, after 30
    sleeps. *)
Theorem wait_for_clickhouse_gives_up_after_30
    (probe : nat -> Py.fetched unit) :
  (forall k,
      (k < 30)%nat ->
      (forall j, (j < k)%nat -> exists e, probe j = Py.Raises e) ->
      (exists u, probe k = Py.Returns u) ->
      Main.wait_for_clickhouse probe = (Main.Ready, k))
  /\
  ((forall j, (j < 30)%nat -> exists e, probe j = Py.Raises e) ->
   exists msg,
     probe 29%nat = Py.Raises msg /\
     Main.wait_for_clickhouse probe = (Main.Not_ready (Some msg), 30%nat)).
Proof.
  split.
  - intros k L F R. unfold Main.wait_for_clickhouse.
    apply (@attempts_ready probe k 30%nat 0%nat None 0%nat L F R).
  - intros F. unfold Main.wait_for_clickhouse.
    apply (@attempts_not_ready probe 29%nat 0%nat None 0%nat F).
Qed.

Lemma wait_for_clickhouse_gives_up_after_30_witness :
  Main.wait_for_clickhouse
    (fun j => if Nat.ltb j 3 then Py.Raises "Connection refused"
              else Py.Returns tt)
  = (Main.Ready, 3%nat).
Proof.
  apply (proj1 (wait_for_clickhouse_gives_up_after_30
                  (fun j => if Nat.ltb j 3 then Py.Raises "Connection refused"
                            else Py.Returns tt)) 3%nat).
  - repeat constructor.
  - intros j Hj. exists "Connection refused".
    destruct j as [|[|[|j]]]; try reflexivity. lia.
  - exists tt. reflexivity.
Defined.

(** ** The tickers of the latest membership snapshot *)

Section LatestTickers.
Import Py Common.

Lemma distinct_in l x : In x (distinct l) <-> In x l.
Proof.
  induction l as [|y l IH]; [reflexivity|]. cbn [distinct]. split.
  - intros [<-|H]; [left; reflexivity|].
    apply filter_In in H. right. apply IH. apply H.
  - intros [<-|H]; [left; reflexivity|].
    destruct (String.eqb y x) eqn:C.
    + apply String.eqb_eq in C. left. exact C.
    + right. apply filter_In. split; [apply IH; exact H|].
      rewrite C. reflexivity.
Qed.

Lemma distinct_nodup l : NoDup (distinct l).
Proof.
  induction l as [|y l IH]; [constructor|]. cbn [distinct]. constructor.
  - intros H. apply filter_In in H. destruct H as [_ H].
    rewrite String.eqb_refl in H. discriminate.
  - apply NoDup_filter. exact IH.
Qed.

Lemma fold_max_asof rows :
  forall acc,
    match
      fold_left
        (fun acc r =>
           match acc with
           | None => Some (im_asof_date r)
           | Some m => Some (Z.max m (im_asof_date r))
           end)
        rows acc
    with
    | None => acc = None /\ rows = []
    | Some m =>
        (forall a, acc = Some a -> a <= m) /\
        (forall r, In r rows -> im_asof_date r <= m) /\
        (acc = Some m \/ exists r, In r rows /\ im_asof_date r = m)
    end.
Proof.
  induction rows as [|x rows IH]; intros acc.
  - simpl. destruct acc as [a|]; [|auto].
    split; [intros b [= <-]; lia|]. split; [intros r []|]. left. reflexivity.
  - cbn [fold_left].
    specialize (IH (match acc with
                    | None => Some (im_asof_date x)
                    | Some m => Some (Z.max m (im_asof_date x))
                    end)).
    destruct (fold_left _ rows _) as [m|].
    + destruct IH as (A & B & C). repeat split.
      * intros a ->. specialize (A _ eq_refl). lia.
      * intros r [<-|Hr]; [|apply B; exact Hr].
        destruct acc as [a|]; specialize (A _ eq_refl); lia.
      * destruct C as [C|(r & Hr & E)].
        -- destruct acc as [a|]; injection C as C.
           ++ destruct (Z.max_spec a (im_asof_date x)) as [[_ M]|[_ M]];
                rewrite M in C.
              ** right. exists x. split; [left; reflexivity|exact C].
              ** left. rewrite C. reflexivity.
           ++ right. exists x. split; [left; reflexivity|exact C].
        -- right. exists r. split; [right; exact Hr|exact E].
    + destruct IH as [IH _]. destruct acc; discriminate.
Qed.

Lemma max_asof_spec rows :
  match max_asof rows with
  | None => rows = []
  | Some m =>
      (forall r, In r rows -> im_asof_date r <= m) /\
      exists r, In r rows /\ im_asof_date r = m
  end.
Proof.
  unfold max_asof. pose proof (fold_max_asof rows None) as H.
  destruct (fold_left _ rows None) as [m|].
  - destruct H as (_ & B & [C|C]); [discriminate|]. auto.
  - apply H.
Qed.

End LatestTickers.

(** X13.  The tickers a price or market-cap run takes when none are given
    are those of the latest membership snapshot, each once: a ticker is in
    the answer exactly when some membership row has it and no membership
    row has a later as-of date than that row. *)
Theorem latest_membership_tickers_are_latest (client : Common.clickhouse) :
  NoDup (Common._get_latest_membership_tickers client) /\
  forall t,
    In t (Common._get_latest_membership_tickers client) <->
    exists r,
      In r (Common.industry_membership client) /\
      Common.im_ticker r = t /\
      forall r', In r' (Common.industry_membership client) ->
                 Common.im_asof_date r' <= Common.im_asof_date r.
Proof.
  unfold Common._get_latest_membership_tickers.
  pose proof (max_asof_spec (Common.industry_membership client)) as M.
  destruct (Common.max_asof (Common.industry_membership client)) as [m|].
  - destruct M as (B & r0 & Hr0 & E0). split; [apply distinct_nodup|].
    intros t. rewrite distinct_in, in_map_iff. split.
    + intros (r & <- & Hr). apply filter_In in Hr. destruct Hr as [Hr E].
      apply Z.eqb_eq in E. exists r. repeat split; auto.
      intros r' Hr'. rewrite E. apply B. exact Hr'.
    + intros (r & Hr & <- & Hmax). exists r. split; [reflexivity|].
      apply filter_In. split; [exact Hr|]. apply Z.eqb_eq.
      specialize (Hmax r0 Hr0). specialize (B r Hr). lia.
  - rewrite M. split; [constructor|]. intros t. split; [intros []|].
    intros (r & [] & _).
Qed.

(** ** Finding the columns of a provider table *)

Section Columns.
Import Py Common.
Context {rt : Runtime}.

Lemma last_col_spec (p : string -> bool) (cols : list string) :
  forall acc,
    match fold_left (fun acc c => if p (strip (lower c)) then Some c else acc)
                    cols acc with
    | None =>
        acc = None /\ forall c, In c cols -> p (strip (lower c)) = false
    | Some c =>
        (In c cols /\ p (strip (lower c)) = true) \/
        (acc = Some c /\ forall c', In c' cols -> p (strip (lower c')) = false)
    end.
Proof.
  induction cols as [|x cols IH]; intros acc.
  - simpl. destruct acc; [right|]; split; auto; intros c [].
  - cbn [fold_left].
    specialize (IH (if p (strip (lower x)) then Some x else acc)).
    destruct (fold_left _ cols _) as [c|].
    + destruct IH as [[Hin Hp]|[E F]].
      * left. split; [right; exact Hin|exact Hp].
      * destruct (p (strip (lower x))) eqn:Px.
        -- injection E as <-. left. split; [left; reflexivity|exact Px].
        -- right. split; [exact E|].
           intros c' [<-|Hc]; [exact Px|apply F; exact Hc].
    + destruct IH as [E F].
      destruct (p (strip (lower x))) eqn:Px; [discriminate|].
      split; [exact E|]. intros c [<-|Hc]; [exact Px|apply F; exact Hc].
Qed.

Lemma last_col_none (p : string -> bool) (cols : list string) :
  DimIndustry.last_col p cols = None <->
  forall c, In c cols -> p (strip (lower c)) = false.
Proof.
  unfold DimIndustry.last_col. pose proof (last_col_spec p cols None) as H.
  destruct (fold_left _ cols None) as [c|].
  - split; [discriminate|]. intros F.
    destruct H as [[Hin Hp]|[E _]]; [|discriminate].
    rewrite (F c Hin) in Hp. discriminate.
  - split; [intros _; apply H|reflexivity].
Qed.

End Columns.

(** X14.  For a sector whose table is returned and is not empty: when the
    label that [reset_index] gives the index is the label of a column
    already, the exception of [reset_index] is caught and printed as a
    failure of the sector, which contributes no row.  Otherwise, when the
    table with its index as a column has no column for the name, for the
    symbol or for the market weight (labels are compared lowered and
    stripped; the weight may be called market weight, market_weight or
    weight) the sector contributes no row and prints the columns it
    found; when it has all three nothing is printed. *)
Theorem sector_needs_name_symbol_weight {rt : Py.Runtime}
    (industries : string -> Py.fetched (option Py.frame))
    (sector_key : string) (asof now : Z) (df : Py.frame) :
  industries sector_key = Py.Returns (Some df) ->
  Py.none_or_empty (Some df) = false ->
  let label := Py.index_label df in
  let cols := label :: Py.columns df in
  let has p := exists c, In c cols /\ p (Py.strip (Py.lower c)) = true in
  (Py.mem label (Py.columns df) = true ->
   DimIndustry.sector industries sector_key asof now
   = ([], [Failed "dim_industry" sector_key
                  ("cannot insert " ++ label ++ ", already exists")]))
  /\
  (Py.mem label (Py.columns df) = false ->
   ~ has (String.eqb "name") \/ ~ has (String.eqb "symbol") \/
   ~ has DimIndustry.is_weight ->
   DimIndustry.sector industries sector_key asof now
   = ([], [Unexpected_columns sector_key cols]))
  /\
  (Py.mem label (Py.columns df) = false ->
   has (String.eqb "name") -> has (String.eqb "symbol") ->
   has DimIndustry.is_weight ->
   snd (DimIndustry.sector industries sector_key asof now) = []).
Proof.
  intros F E label cols has.
  assert (N : forall p, ~ has p <-> DimIndustry.last_col p cols = None).
  { intros p. rewrite last_col_none. split.
    - intros H c Hc. destruct (p (Py.strip (Py.lower c))) eqn:P;
        [|reflexivity].
      exfalso. apply H. exists c. auto.
    - intros H (c & Hc & P). rewrite (H c Hc) in P. discriminate. }
  unfold DimIndustry.sector. rewrite F, E. unfold Py.reset_index.
  fold label. repeat apply conj.
  - intros M. rewrite M. reflexivity.
  - intros M. rewrite M. cbn [Py.index_as_column Py.columns]. fold cols.
    intros [H|[H|H]]; apply N in H; rewrite H;
      repeat match goal with
             | |- context [match DimIndustry.last_col ?p cols with _ => _ end] =>
                 destruct (DimIndustry.last_col p cols)
             end; reflexivity.
  - intros M H1 H2 H3. rewrite M. cbn [Py.index_as_column Py.columns].
    fold cols.
    destruct (DimIndustry.last_col (String.eqb "name") cols) eqn:L1;
      [|exfalso; apply (proj2 (N _) L1); exact H1].
    destruct (DimIndustry.last_col (String.eqb "symbol") cols) eqn:L2;
      [|exfalso; apply (proj2 (N _) L2); exact H2].
    destruct (DimIndustry.last_col DimIndustry.is_weight cols) eqn:L3;
      [|exfalso; apply (proj2 (N _) L3); exact H3].
    reflexivity.
Qed.

(** A table with the name and the symbol but without the weight is
    refused with its columns; a table whose index is named like one of
    its columns fails. *)
Lemma sector_needs_name_symbol_weight_witness :
  let df :=
    {| Py.index_name := Some "key";
       Py.columns := ["Name"; " SYMBOL "];
       Py.records := [ (Py.Text "uranium",
                        [Py.Text "Uranium"; Py.Text "^YH30920"]) ] |} in
  let clash :=
    {| Py.index_name := Some "name";
       Py.columns := ["name"; "symbol"; "weight"];
       Py.records := [ (Py.Text "uranium",
                        [Py.Text "Uranium"; Py.Text "^YH30920";
                         Py.Text "0.25"]) ] |} in
  DimIndustry.sector (rt := Examples.runtime)
    (fun _ => Py.Returns (Some df)) "energy" Examples.mar_1 Examples.jun_1
  = ([], [Unexpected_columns "energy" ["key"; "Name"; " SYMBOL "]]) /\
  DimIndustry.sector (rt := Examples.runtime)
    (fun _ => Py.Returns (Some clash)) "energy" Examples.mar_1 Examples.jun_1
  = ([], [Failed "dim_industry" "energy"
                 "cannot insert name, already exists"]).
Proof.
  intros df clash. split.
  - apply (proj1 (proj2 (@sector_needs_name_symbol_weight Examples.runtime
                           (fun _ => Py.Returns (Some df)) "energy"
                           Examples.mar_1 Examples.jun_1 df eq_refl
                           eq_refl)));
      [reflexivity|].
    right. right. intros (c & Hc & P).
    simpl in Hc. destruct Hc as [<-|[<-|[<-|[]]]]; discriminate P.
  - exact (proj1 (@sector_needs_name_symbol_weight Examples.runtime
                    (fun _ => Py.Returns (Some clash)) "energy"
                    Examples.mar_1 Examples.jun_1 clash eq_refl eq_refl)
                 eq_refl).
Defined.

(** ** The ticker column of a membership table *)

Section Pick.
Import Py Common.

Lemma index_of_some x l i :
  index_of x l = Some i -> (i < List.length l)%nat /\ nth i l "" = x.
Proof.
  revert i. induction l as [|y l IH]; intros i; simpl; [discriminate|].
  destruct (String.eqb x y) eqn:C.
  - intros [= <-]. apply String.eqb_eq in C. split; [lia|auto].
  - destruct (index_of x l) as [j|]; [|discriminate].
    intros [= <-]. destruct (IH j eq_refl). split; [lia|assumption].
Qed.

Lemma index_of_none x l : index_of x l = None -> ~ In x l.
Proof.
  induction l as [|y l IH]; simpl; [intros _ []|].
  destruct (String.eqb x y) eqn:C; [discriminate|].
  destruct (index_of x l); [discriminate|].
  intros _ [E|H]; [|exact (IH eq_refl H)].
  subst y. rewrite String.eqb_refl in C. discriminate.
Qed.

Lemma lower_empty : lower "" = "".
Proof. reflexivity. Qed.

Lemma pick_spec cands columns :
  match Membership.pick cands (map lower columns) columns with
  | Some c =>
      exists pre post,
        cands = pre ++ lower c :: post /\ In c columns /\
        forall p col, In p pre -> In col columns -> lower col <> p
  | None =>
      forall cand col, In cand cands -> In col columns -> lower col <> cand
  end.
Proof.
  induction cands as [|cand rest IH]; cbn [Membership.pick].
  - intros cand col [].
  - destruct (index_of cand (map lower columns)) as [i|] eqn:E.
    + apply index_of_some in E. destruct E as [L E].
      rewrite length_map in L.
      rewrite <- lower_empty, map_nth in E.
      exists [], rest. rewrite E. split; [reflexivity|].
      split; [apply nth_In; exact L|]. intros p col [].
    + apply index_of_none in E.
      assert (A : forall col, In col columns -> lower col <> cand).
      { intros col Hc <-. apply E. apply in_map. exact Hc. }
      destruct (Membership.pick rest (map lower columns) columns) as [c|].
      * destruct IH as (pre & post & -> & Hin & F).
        exists (cand :: pre), post. split; [reflexivity|].
        split; [exact Hin|].
        intros p col [<-|Hp] Hc; [apply A; exact Hc|apply F; assumption].
      * intros cand' col [<-|Hc'] Hc; [apply A; exact Hc|].
        apply IH; assumption.
Qed.

End Pick.

Section Mem.
Import Py.

Lemma mem_true x l : mem x l = true <-> In x l.
Proof.
  unfold mem. rewrite existsb_exists. split.
  - intros (y & Hy & E). apply String.eqb_eq in E. subst y. exact Hy.
  - intros H. exists x. split; [exact H|apply String.eqb_refl].
Qed.

Lemma mem_false x l : mem x l = false <-> ~ In x l.
Proof.
  rewrite <- mem_true. destruct (mem x l); split; try discriminate; auto.
  intros H. exfalso. apply H. reflexivity.
Qed.

End Mem.

(** X15.  The membership job reads the tickers of a table from the column
    whose lowered label is symbol, else from the one whose lowered label
    is ticker, wherever the columns stand; when there is neither and the
    index is named symbol (in any case) the index is made a column and
    read; when there is neither and the index has no name or a name
    without symbol in it, no ticker column is found; when there is
    neither and the index has a name with symbol in it that is the label
    of a column, [reset_index] raises. *)
Theorem ticker_column_prefers_symbol (top : Py.frame) :
  let labelled l := exists col, In col (Py.columns top) /\ Py.lower col = l in
  (labelled "symbol" ->
   exists c,
     Membership.find_symbol top = Py.Returns (top, Some c) /\
     In c (Py.columns top) /\ Py.lower c = "symbol")
  /\
  (~ labelled "symbol" -> labelled "ticker" ->
   exists c,
     Membership.find_symbol top = Py.Returns (top, Some c) /\
     In c (Py.columns top) /\ Py.lower c = "ticker")
  /\
  (~ labelled "symbol" -> ~ labelled "ticker" ->
   forall n,
     Py.index_name top = Some n -> Py.lower n = "symbol" ->
     Membership.find_symbol top
     = Py.Returns (Py.index_as_column n top, Some n))
  /\
  (~ labelled "symbol" -> ~ labelled "ticker" ->
   match Py.index_name top with
   | Some n => Py.contains "symbol" (Py.lower n) = false
   | None => True
   end ->
   Membership.find_symbol top = Py.Returns (top, None))
  /\
  (~ labelled "symbol" -> ~ labelled "ticker" ->
   forall n,
     Py.index_name top = Some n ->
     Py.contains "symbol" (Py.lower n) = true ->
     In n (Py.columns top) ->
     Membership.find_symbol top
     = Py.Raises ("cannot insert " ++ n ++ ", already exists")).
Proof.
  intros labelled.
  pose proof (pick_spec ["symbol"; "ticker"] (Py.columns top)) as P.
  unfold Membership.find_symbol.
  destruct (Membership.pick ["symbol"; "ticker"]
                            (map Py.lower (Py.columns top)) (Py.columns top))
    as [c|].
  - destruct P as (pre & post & E & Hin & F).
    assert (C : (pre = [] /\ Py.lower c = "symbol") \/
                (pre = ["symbol"] /\ Py.lower c = "ticker")).
    { destruct pre as [|a [|b pre]].
      - injection E as E _. auto.
      - injection E as E1 E2 _. subst a. auto.
      - injection E as _ _ E. destruct pre; discriminate E. }
    repeat apply conj.
    + intros (col & Hc & L). exists c. split; [reflexivity|].
      split; [exact Hin|].
      destruct C as [[_ C]|[-> _]]; [exact C|].
      exfalso. exact (F "symbol" col (or_introl eq_refl) Hc L).
    + intros N _. exists c. split; [reflexivity|]. split; [exact Hin|].
      destruct C as [[_ C]|[_ C]]; [|exact C].
      exfalso. apply N. exists c. auto.
    + intros N1 N2. exfalso.
      destruct C as [[_ C]|[_ C]]; [apply N1|apply N2]; exists c; auto.
    + intros N1 N2. exfalso.
      destruct C as [[_ C]|[_ C]]; [apply N1|apply N2]; exists c; auto.
    + intros N1 N2. exfalso.
      destruct C as [[_ C]|[_ C]]; [apply N1|apply N2]; exists c; auto.
  - repeat apply conj.
    + intros (col & Hc & L). exfalso.
      exact (P "symbol" col (or_introl eq_refl) Hc L).
    + intros _ (col & Hc & L). exfalso.
      exact (P "ticker" col (or_intror (or_introl eq_refl)) Hc L).
    + intros N1 _ n En L. rewrite En.
      assert (n <> "") by (intros ->; discriminate L).
      apply String.eqb_neq in H. rewrite H, L.
      change (Py.contains "symbol" "symbol") with true.
      cbn [negb andb]. unfold Py.reset_index, Py.index_label.
      rewrite En.
      assert (M : Py.mem n (Py.columns top) = false).
      { apply mem_false. intros Hn. apply N1. exists n. auto. }
      rewrite M. cbn [Py.bind Py.index_as_column Py.columns map
                      Membership.pick Py.index_of].
      rewrite L. reflexivity.
    + intros _ _ H. destruct (Py.index_name top) as [n|]; [|reflexivity].
      rewrite H, andb_false_r. reflexivity.
    + intros _ _ n En C Hn. rewrite En, C.
      assert (n <> "").
      { intros ->. destruct (P "symbol" "" (or_introl eq_refl) Hn).
        discriminate C. }
      apply String.eqb_neq in H. rewrite H. cbn [negb andb].
      unfold Py.reset_index, Py.index_label. rewrite En.
      rewrite (proj2 (mem_true n (Py.columns top)) Hn). reflexivity.
Qed.

(** A table with the columns ticker and Symbol is read through Symbol;
    the industry of the examples is read through its index, named
    symbol. *)
Lemma ticker_column_prefers_symbol_witness :
  let top :=
    {| Py.index_name := None;
       Py.columns := ["ticker"; "Symbol"];
       Py.records := [] |} in
  let indexed :=
    {| Py.index_name := Some "symbol";
       Py.columns := ["name"; "rating"];
       Py.records := [ (Py.Text "CCJ", [Py.Text "Cameco"; Py.Text "Buy"]) ] |} in
  (exists c,
      Membership.find_symbol top = Py.Returns (top, Some c) /\
      In c (Py.columns top) /\ Py.lower c = "symbol") /\
  Membership.find_symbol indexed
  = Py.Returns (Py.index_as_column "symbol" indexed, Some "symbol").
Proof.
  intros top indexed. split.
  - apply (proj1 (ticker_column_prefers_symbol top)).
    exists "Symbol". split; [right; left; reflexivity|reflexivity].
  - apply (proj1 (proj2 (proj2 (ticker_column_prefers_symbol indexed))));
      try reflexivity.
    + intros (col & Hc & L). simpl in Hc.
      destruct Hc as [<-|[<-|[]]]; discriminate L.
    + intros (col & Hc & L). simpl in Hc.
      destruct Hc as [<-|[<-|[]]]; discriminate L.
Defined.

(** ** The industries the membership job asks for *)

Section Groups.
Import Py Common.

Lemma arg_max_name_spec rows :
  forall best,
    exists d,
      In d (best :: rows) /\
      di_industry_name d = Membership.arg_max_name best rows /\
      forall d', In d' (best :: rows) -> di_asof_date d' <= di_asof_date d.
Proof.
  induction rows as [|r rows IH]; intros best.
  - exists best. simpl. repeat split; auto. intros d' [<-|[]]. lia.
  - cbn [Membership.arg_max_name].
    destruct (IH (if di_asof_date best <? di_asof_date r then r else best))
      as (d & Hd & Hn & Hmax).
    exists d. split.
    + destruct Hd as [<-|Hd]; [|right; right; exact Hd].
      destruct (di_asof_date best <? di_asof_date r); simpl; auto.
    + split; [exact Hn|].
      assert (M : di_asof_date
                    (if di_asof_date best <? di_asof_date r then r else best)
                  <= di_asof_date d) by (apply Hmax; left; reflexivity).
      intros d' [E|[E|Hd']]; [subst d'|subst d'|].
      * destruct (di_asof_date best <? di_asof_date r) eqn:C;
          [apply Z.ltb_lt in C|]; lia.
      * destruct (di_asof_date best <? di_asof_date r) eqn:C;
          [|apply Z.ltb_ge in C]; lia.
      * apply Hmax. right. exact Hd'.
Qed.

Lemma dim_groups_complete rows d :
  In d rows ->
  In (di_sector_key d, di_industry_key d) (map fst (Membership.dim_groups rows)).
Proof.
  induction rows as [|r rest IH]; [intros []|].
  cbn [Membership.dim_groups map]. intros [<-|H]; [left; reflexivity|].
  destruct (String.eqb (di_sector_key d) (di_sector_key r)
            && String.eqb (di_industry_key d) (di_industry_key r))%bool eqn:C.
  - apply andb_true_iff in C. destruct C as [C1 C2].
    apply String.eqb_eq in C1, C2. left. simpl. rewrite C1, C2. reflexivity.
  - right. specialize (IH H). apply in_map_iff in IH.
    destruct IH as (g & Eg & Hg). apply in_map_iff. exists g.
    split; [exact Eg|]. apply filter_In. split; [exact Hg|].
    rewrite Eg. simpl. rewrite C. reflexivity.
Qed.

Lemma dim_groups_nodup rows : NoDup (map fst (Membership.dim_groups rows)).
Proof.
  induction rows as [|r rest IH]; [constructor|].
  cbn [Membership.dim_groups map]. constructor.
  - intros H. apply in_map_iff in H. destruct H as (g & Eg & Hg).
    apply filter_In in Hg. destruct Hg as [_ Hg].
    rewrite Eg in Hg. simpl in Hg. rewrite !String.eqb_refl in Hg.
    discriminate.
  - clear - IH.
    induction (Membership.dim_groups rest) as [|g gs IHg]; [constructor|].
    simpl in IH. inversion IH as [|? ? N1 N2]; subst.
    simpl. destruct (negb _); [|apply IHg; exact N2].
    simpl. constructor; [|apply IHg; exact N2].
    intros H. apply N1. apply in_map_iff in H.
    destruct H as (g' & Eg & Hg'). apply filter_In in Hg'.
    apply in_map_iff. exists g'. tauto.
Qed.

Lemma dim_groups_name rows s i name :
  In (s, i, name) (Membership.dim_groups rows) ->
  exists d,
    In d rows /\ di_sector_key d = s /\ di_industry_key d = i /\
    di_industry_name d = name /\
    forall d', In d' rows -> di_sector_key d' = s -> di_industry_key d' = i ->
               di_asof_date d' <= di_asof_date d.
Proof.
  induction rows as [|r rest IH]; [intros []|].
  cbn [Membership.dim_groups]. intros [E|H].
  - injection E as <- <- <-.
    destruct (arg_max_name_spec (filter (Membership.same_industry r) rest) r)
      as (d & Hd & Hn & Hmax).
    assert (G : forall x, In x (r :: filter (Membership.same_industry r) rest)
                  -> In x (r :: rest) /\
                     di_sector_key x = di_sector_key r /\
                     di_industry_key x = di_industry_key r).
    { intros x [<-|Hx]; [split; [left; reflexivity|auto]|].
      apply filter_In in Hx. destruct Hx as [Hx C].
      unfold Membership.same_industry in C. apply andb_true_iff in C.
      destruct C as [C1 C2]. apply String.eqb_eq in C1, C2.
      split; [right; exact Hx|auto]. }
    destruct (G d Hd) as (A & B & C).
    exists d. repeat split; auto.
    intros d' [<-|Hd'] S I; [apply Hmax; left; reflexivity|].
    apply Hmax. right. apply filter_In. split; [exact Hd'|].
    unfold Membership.same_industry. rewrite S, I, !String.eqb_refl.
    reflexivity.
  - apply filter_In in H. destruct H as [H C]. simpl in C.
    destruct (IH H) as (d & Hd & A & B & N & Hmax).
    exists d. split; [right; exact Hd|]. repeat split; auto.
    intros d' [<-|Hd'] S I; [|apply Hmax; assumption].
    rewrite S, I, !String.eqb_refl in C. discriminate.
Qed.

End Groups.

(** X16.  The membership job asks the provider once for every pair of
    sector and industry of the industry dimension: the pairs it loops over
    are without repetition, a pair is among them exactly when a row of the
    dimension has it, and the name that comes with a pair is the name of a
    row of the pair with the latest as-of date. *)
Theorem dim_groups_are_the_industries (rows : list Common.dim_industry_row) :
  NoDup (map fst (Membership.dim_groups rows)) /\
  (forall s i,
      In (s, i) (map fst (Membership.dim_groups rows)) <->
      exists d,
        In d rows /\ Common.di_sector_key d = s /\
        Common.di_industry_key d = i) /\
  (forall s i name,
      In (s, i, name) (Membership.dim_groups rows) ->
      exists d,
        In d rows /\ Common.di_sector_key d = s /\
        Common.di_industry_key d = i /\
        Common.di_industry_name d = name /\
        forall d',
          In d' rows -> Common.di_sector_key d' = s ->
          Common.di_industry_key d' = i ->
          Common.di_asof_date d' <= Common.di_asof_date d).
Proof.
  split; [apply dim_groups_nodup|]. split.
  - intros s i. split; [apply dim_groups_in|].
    intros (d & Hd & <- & <-). apply dim_groups_complete. exact Hd.
  - apply dim_groups_name.
Qed.

(** ** A price run with nothing to do, and the tickers it takes *)

(** X18.  When no tickers are given, every row a price run adds is for a
    ticker of the latest membership snapshot: its ticker is the stripped
    ticker of a membership row than which no membership row has a later
    as-of date. *)
Theorem price_rows_follow_latest_membership {rt : Py.Runtime}
    (yf_download :
       list string -> Z -> string ->
       Py.fetched (option StockPrices.download))
    (now : Z) (client : Common.clickhouse) (interval : string)
    (overlap_days default_lookback_days chunk_size : Z) (force : bool) :
  exists added,
    Common.fact_stock_prices
      (fst (StockPrices.ingest_stock_prices yf_download now client []
              interval overlap_days default_lookback_days chunk_size force))
    = Common.fact_stock_prices client ++ added /\
    forall r, In r added ->
      exists m,
        In m (Common.industry_membership client) /\
        Common.sp_ticker r = Py.strip (Common.im_ticker m) /\
        forall m', In m' (Common.industry_membership client) ->
                   Common.im_asof_date m' <= Common.im_asof_date m.
Proof.
  destruct (@ingest_stock_prices_written rt yf_download now client []
              interval overlap_days default_lookback_days chunk_size force)
    as (ws & J & _ & P & _).
  exists (Facts.prices_in ws). split.
  - destruct (@tables_after _ _ _ J) as (_ & _ & T & _). exact T.
  - intros r Hr. rewrite Forall_forall in P.
    destruct (P r Hr) as (_ & _ & _ & D & _).
    unfold Facts.normalized_tickers in D. apply in_map_iff in D.
    destruct D as (t & E & D). apply filter_In in D. destruct D as [D _].
    unfold Common._get_latest_membership_tickers in D.
    pose proof (max_asof_spec (Common.industry_membership client)) as M.
    destruct (Common.max_asof (Common.industry_membership client)) as [mx|];
      [|destruct D].
    destruct M as (B & _).
    apply (proj1 (distinct_in _ _)) in D. apply in_map_iff in D.
    destruct D as (m & Em & Hm). apply filter_In in Hm.
    destruct Hm as [Hm Ex]. apply Z.eqb_eq in Ex.
    exists m. split; [exact Hm|]. split; [rewrite Em; auto|].
    intros m' Hm'. rewrite Ex. apply B. exact Hm'.
Qed.
